(** * Cafe kiosk agent: routing, extraction, validation and pricing

    A shallow embedding of the parts of [cafe-kiosk-agent] that its
    specification makes claims about, and the proofs of those claims,
    followed by further properties of the same functions, of the
    functions they call and of their callers.

    - [config/menu_database.py]      -> Module [MenuDatabase]
    - [src/utils/validators.py]      -> Module [Validators]
    - [src/services/order_service.py]-> Module [OrderService]
    - [src/services/llm_service.py]  -> Module [LLMService]
    - [src/routers/category_router.py] -> Module [CategoryRouter]
    - [src/routers/serving_router.py]  -> Module [ServingRouter]
    - [src/agents/order_agent.py]      -> Module [OrderAgent]

    Conventions.  Python [int] is [Z].  Python [str] is [string] holding
    the UTF-8 bytes of the text; [lower], [strip], [split] and [\s] act on
    the ASCII range, which is what Python does on text of ASCII
    characters and Hangul syllables ([Py.is_plain]), and the theorems
    about a text that the caller chooses are stated for such text; [len]
    counts code points.  Python [float] is binary64 ([Py.float]); the tax
    of an order is held as the exact product truncated, which is what
    the binary64 product gives at the rates 0, 0.1 and 0.2 on totals up
    to 10^15 ([OrderService.tax_in_binary64]), and the theorems about
    the tax are stated within these bounds.  [datetime] values are
    microsecond counts in [Z].  [settings] (a process-wide pydantic object in the
    source) is a record passed explicitly.  Logging has no effect on any
    result and is left out. *)

From Stdlib Require Import ZArith QArith Qround Lqa Bool List String Ascii Lia DecimalString.
From stdpp Require Import gmap strings.
Import ListNotations.

Local Open Scope string_scope.
Local Open Scope Z_scope.

(* ================================================================== *)
(** * Python built-ins used by the modelled code *)
(* ================================================================== *)

Module Py.

(** ** [str] *)

Definition is_upper (c : ascii) : bool :=
  let n := N_of_ascii c in (65 <=? n)%N && (n <=? 90)%N.

Definition char_lower (c : ascii) : ascii :=
  if is_upper c then ascii_of_N (N_of_ascii c + 32) else c.

(** [s.lower()], on text of ASCII characters and Hangul syllables (see
    [is_plain] below): A to Z are lowered, nothing else is cased. *)
Fixpoint lower (s : string) : string :=
  match s with
  | EmptyString => EmptyString
  | String c s' => String (char_lower c) (lower s')
  end.

(** [needle in hay] on strings: substring test. *)
Fixpoint contains (needle hay : string) : bool :=
  String.prefix needle hay ||
  match hay with
  | EmptyString => false
  | String _ hay' => contains needle hay'
  end.

(** Whitespace as [str.isspace] sees it in the ASCII range:
    TAB, LF, VT, FF, CR, FS, GS, RS, US and space.  Text that [is_plain]
    accepts has no other whitespace. *)
Definition is_space (c : ascii) : bool :=
  let n := N_of_ascii c in
  ((9 <=? n)%N && (n <=? 13)%N) || ((28 <=? n)%N && (n <=? 32)%N).

Fixpoint lstrip (s : string) : string :=
  match s with
  | String c s' => if is_space c then lstrip s' else s
  | EmptyString => EmptyString
  end.

Fixpoint rstrip (s : string) : string :=
  match s with
  | EmptyString => EmptyString
  | String c s' =>
      match rstrip s' with
      | EmptyString => if is_space c then EmptyString else String c EmptyString
      | r => String c r
      end
  end.

(** [s.strip()] *)
Definition strip (s : string) : string := rstrip (lstrip s).

(** [s.split()]: maximal runs of non-whitespace, in order.  [cur] is the
    token being read, reversed. *)
Fixpoint split_aux (s : string) (cur : list ascii) : list string :=
  let flush := match cur with
               | [] => []
               | _ => [string_of_list_ascii (rev cur)]
               end in
  match s with
  | EmptyString => flush
  | String c s' =>
      if is_space c then (flush ++ split_aux s' [])%list
      else split_aux s' (c :: cur)
  end.

Definition split (s : string) : list string := split_aux s [].

(** A UTF-8 continuation byte, [10xxxxxx]. *)
Definition is_continuation (c : ascii) : bool :=
  let n := N_of_ascii c in (128 <=? n)%N && (n <? 192)%N.

(** [len(s)]: the number of code points of the UTF-8 text [s]. *)
Fixpoint len (s : string) : nat :=
  match s with
  | EmptyString => O
  | String c s' => if is_continuation c then len s' else S (len s')
  end.

(** [re.sub(r'\s+', ' ', s)] *)
Fixpoint collapse_spaces (s : string) (in_run : bool) : string :=
  match s with
  | EmptyString => EmptyString
  | String c s' =>
      if is_space c
      then (if in_run then collapse_spaces s' true
            else String " "%char (collapse_spaces s' true))
      else String c (collapse_spaces s' false)
  end.

(** [str(n)] for a natural number. *)
Definition str_of_nat (n : nat) : string :=
  NilEmpty.string_of_uint (Nat.to_uint n).

(** [bool(s)] for a string. *)
Definition truthy (s : string) : bool :=
  match s with EmptyString => false | _ => true end.

(** ** [dict] with insertion order, as an association list *)

Fixpoint dict_get {K V} (eqb : K -> K -> bool) (d : list (K * V)) (k : K)
  : option V :=
  match d with
  | [] => None
  | (k', v) :: d' => if eqb k' k then Some v else dict_get eqb d' k
  end.

Definition dict_keys {K V} (d : list (K * V)) : list K := map fst d.
Definition dict_values {K V} (d : list (K * V)) : list V := map snd d.

(** [sum(1 for x in xs if p(x))] *)
Definition count_if {A} (p : A -> bool) (xs : list A) : nat :=
  List.length (List.filter p xs).

(** [sum(zs)] *)
Definition sum (zs : list Z) : Z := fold_right Z.add 0 zs.

(** [int(q)] on a real number: truncation toward zero. *)
Definition int_of_Q (q : Q) : Z := Z.quot (Qnum q) (Zpos (Qden q)).

(** ** Slices and sorting *)

(** The index a slice bound [i] stands for in a sequence of length [n]:
    a negative bound counts from the end, and the result is clamped to
    [0, n]. *)
Definition slice_index (i : Z) (n : nat) : nat :=
  let i := if i <? 0 then i + Z.of_nat n else i in
  Z.to_nat (Z.min (Z.max i 0) (Z.of_nat n)).

(** [l[start:]] *)
Definition slice_from {A} (start : Z) (l : list A) : list A :=
  skipn (slice_index start (List.length l)) l.

(** [l[:stop]] *)
Definition slice_to {A} (stop : Z) (l : list A) : list A :=
  firstn (slice_index stop (List.length l)) l.

(** [sorted(l, key=key, reverse=True)].  The sort is stable, also when
    reversed: entries with equal keys keep their order.  [insert_desc]
    puts an entry that came earlier in front of the entries whose key is
    not greater. *)
Fixpoint insert_desc {A} (key : A -> Z) (x : A) (sorted : list A) : list A :=
  match sorted with
  | [] => [x]
  | y :: rest =>
      if key x <? key y then y :: insert_desc key x rest
      else x :: sorted
  end.

Fixpoint sorted_desc {A} (key : A -> Z) (l : list A) : list A :=
  match l with
  | [] => []
  | x :: rest => insert_desc key x (sorted_desc key rest)
  end.

(** [d[k] = d.get(k, 0) + v] on an insertion-ordered dict of counters: an
    existing key keeps its place, a new key goes last. *)
Fixpoint dict_add (d : list (string * Z)) (k : string) (v : Z)
  : list (string * Z) :=
  match d with
  | [] => [(k, 0 + v)]
  | (k', n) :: rest =>
      if String.eqb k' k then (k', n + v) :: rest
      else (k', n) :: dict_add rest k v
  end.

(** ** [float]: IEEE 754 binary64 *)

(** A finite float, [mantissa * 2 ^ exponent].  Where Python meets an
    infinity or a NaN on the way to an [int], it raises; the functions
    below answer [None] there. *)
Record float := {
  mantissa : Z;
  exponent : Z;
}.

(** [n / d] rounded to the nearest integer, ties to the even one, for
    [0 <= n] and [0 < d]. *)
Definition round_half_even (n d : Z) : Z :=
  let q := n / d in
  let r := n mod d in
  if 2 * r <? d then q
  else if d <? 2 * r then q + 1
  else if Z.even q then q else q + 1.

(** The number of bits of [a], for [0 < a]. *)
Definition bit_length (a : Z) : Z := Z.log2 a + 1.

(** [a * 2 ^ e], for [0 < a], rounded to binary64: to the nearest value
    with 53 bits of mantissa and no exponent below -1074, ties to even;
    [None] when the rounded value is beyond the largest float. *)
Definition float_round_pos (a e : Z) : option float :=
  let shift := Z.max (bit_length a - 53) (- 1074 - e) in
  let f :=
    if 0 <? shift
    then {| mantissa := round_half_even a (2 ^ shift); exponent := e + shift |}
    else {| mantissa := a; exponent := e |} in
  if (0 <? mantissa f) && (1024 <? bit_length (mantissa f) + exponent f)
  then None
  else Some f.

Definition float_neg (f : float) : float :=
  {| mantissa := - mantissa f; exponent := exponent f |}.

(** [m * 2 ^ e] rounded to binary64. *)
Definition float_round (m e : Z) : option float :=
  if m =? 0 then Some {| mantissa := 0; exponent := 0 |}
  else if m <? 0 then option_map float_neg (float_round_pos (- m) e)
  else float_round_pos m e.

(** [float(z)] for an [int]: [None] is the [OverflowError] of an [int]
    too large to convert. *)
Definition float_of_int (z : Z) : option float := float_round z 0.

(** The float that a decimal literal or setting denotes: the decimal [q]
    rounded to binary64.  The quotient is taken with 56 bits or more and
    a sticky last bit, which rounds as the decimal itself does. *)
Definition float_of_Q (q : Q) : option float :=
  let q := Qred q in
  let n := Z.abs (Qnum q) in
  let d := Zpos (Qden q) in
  let k := Z.max 0 (bit_length d - bit_length n + 56) in
  let scaled := n * 2 ^ k in
  let sticky := if scaled mod d =? 0 then 0 else 1 in
  float_round (Z.sgn (Qnum q) * (2 * (scaled / d) + sticky)) (- k - 1).

(** [a * b] on floats; [None] is an infinity. *)
Definition float_mul (a b : float) : option float :=
  float_round (mantissa a * mantissa b) (exponent a + exponent b).

(** [int(f)] on a finite float: truncation toward zero. *)
Definition int_of_float (f : float) : Z :=
  if 0 <=? exponent f then mantissa f * 2 ^ exponent f
  else Z.quot (mantissa f) (2 ^ (- exponent f)).

(** [int(z * rate)] for an [int] [z] and the float that the decimal
    [rate] denotes: [z] is converted to a float, the product is rounded,
    and [int] truncates it.  [None] is the [OverflowError] (or, for a
    NaN, the [ValueError]) that Python raises. *)
Definition int_mul_float (z : Z) (rate : Q) : option Z :=
  match float_of_int z, float_of_Q rate with
  | Some a, Some b => option_map int_of_float (float_mul a b)
  | _, _ => None
  end.

(** ** The text on which this embedding of [str] is exact *)

(** The bytes [b1 b2 b3] are the UTF-8 form of a Hangul syllable, U+AC00
    to U+D7A3. *)
Definition is_hangul_syllable (b1 b2 b3 : ascii) : bool :=
  let n1 := N_of_ascii b1 in
  let n2 := N_of_ascii b2 in
  let n3 := N_of_ascii b3 in
  (224 <=? n1)%N && (n1 <? 240)%N
  && is_continuation b2 && is_continuation b3
  && (let code := ((n1 - 224) * 4096 + (n2 - 128) * 64 + (n3 - 128))%N in
      (44032 <=? code)%N && (code <=? 55203)%N).

(** The text is made of ASCII characters and Hangul syllables only.  On
    such text [str.lower], [str.strip], [str.split], [str.isspace] and
    the [\s] of [re] do exactly what [lower], [strip], [split],
    [is_space] and [collapse_spaces] do here: its only cased characters
    are A to Z and its only whitespace is the ASCII one.  On other text
    Python does more: it lowers every cased letter (U+212A becomes k,
    U+0130 becomes i and U+0307) and counts U+0085, U+00A0, U+3000 and
    other characters as whitespace.  The theorems about text that may
    hold such characters are stated for text of this kind. *)
Fixpoint is_plain (s : string) : bool :=
  match s with
  | EmptyString => true
  | String b1 rest =>
      if (N_of_ascii b1 <? 128)%N then is_plain rest
      else
        match rest with
        | String b2 (String b3 rest') =>
            is_hangul_syllable b1 b2 b3 && is_plain rest'
        | _ => false
        end
  end.

End Py.

(* ================================================================== *)
(** * config/settings.py *)
(* ================================================================== *)

Inductive ModelStrategy := auto_strategy | cloud_only | local_only.

(** The fields of [Settings] that the modelled code reads.  [tax_rate] is
    a Python float; the record holds the decimal fraction the
    configuration names (0.1 is 1/10), and [Py.float_of_Q] gives the
    float it denotes. *)
Record Settings := {
  enable_local_model : bool;
  ollama_model : string;
  model_strategy : ModelStrategy;
  tax_rate : Q;
  gpt_standard_model : string;
}.

Definition default_settings : Settings := {|
  enable_local_model := false;
  ollama_model := "exaone3.5:7.8b";
  model_strategy := auto_strategy;
  tax_rate := 0.1;
  gpt_standard_model := "gpt-5";
|}.

(* ================================================================== *)
(** * config/menu_database.py *)
(* ================================================================== *)

Module MenuDatabase.

Inductive MenuCategory := BEVERAGE | DESSERT | MEAL.
Inductive SizeOption := TALL | GRANDE | VENTI.
Inductive TemperatureOption := HOT | ICE.

Definition MenuCategory_eqb (a b : MenuCategory) : bool :=
  match a, b with
  | BEVERAGE, BEVERAGE | DESSERT, DESSERT | MEAL, MEAL => true
  | _, _ => false
  end.

Definition SizeOption_eqb (a b : SizeOption) : bool :=
  match a, b with
  | TALL, TALL | GRANDE, GRANDE | VENTI, VENTI => true
  | _, _ => false
  end.

Definition TemperatureOption_eqb (a b : TemperatureOption) : bool :=
  match a, b with
  | HOT, HOT | ICE, ICE => true
  | _, _ => false
  end.

(** The [str] value of each enum member. *)
Definition MenuCategory_value (c : MenuCategory) : string :=
  match c with BEVERAGE => "음료" | DESSERT => "디저트" | MEAL => "식사" end.

Definition SizeOption_value (s : SizeOption) : string :=
  match s with TALL => "Tall" | GRANDE => "Grande" | VENTI => "Venti" end.

(** [SizeOption(v)]: lookup by value; [None] stands for the
    [ValueError] the enum raises on any other string. *)
Definition SizeOption_of_value (v : string) : option SizeOption :=
  if String.eqb v "Tall" then Some TALL
  else if String.eqb v "Grande" then Some GRANDE
  else if String.eqb v "Venti" then Some VENTI
  else None.

Record MenuItem := {
  name : string;
  category : MenuCategory;
  base_price : Z;
  description : string;
  available : bool;
  size_options : list SizeOption;
  temperature_options : list TemperatureOption;
  extra_options : list string;
}.

(** [MenuItem.get_price] *)
Definition get_price (self : MenuItem) (size : option SizeOption) : Z :=
  let price := base_price self in
  match size with
  | Some GRANDE => price + 500
  | Some VENTI => price + 1000
  | _ => price
  end.

(** The three constructor shapes the catalogue uses; every other field
    keeps its dataclass default ([available=True], empty lists). *)
Definition beverage (n : string) (p : Z) (d : string)
    (sizes : list SizeOption) (temps : list TemperatureOption)
    (extras : list string) : string * MenuItem :=
  (n, {| name := n; category := BEVERAGE; base_price := p; description := d;
         available := true; size_options := sizes;
         temperature_options := temps; extra_options := extras |}).

Definition plain (c : MenuCategory) (n : string) (p : Z) (d : string)
    (extras : list string) : string * MenuItem :=
  (n, {| name := n; category := c; base_price := p; description := d;
         available := true; size_options := [];
         temperature_options := []; extra_options := extras |}).

Definition all_sizes := [TALL; GRANDE; VENTI].
Definition hot_ice := [HOT; ICE].

Definition BEVERAGE_MENU : list (string * MenuItem) := [
  beverage "아메리카노" 4500 "진한 에스프레소에 물을 더한 클래식 커피"
    all_sizes hot_ice ["샷 추가"; "시럽 추가"];
  beverage "카페라떼" 5000 "부드러운 우유와 에스프레소의 조화"
    all_sizes hot_ice ["샷 추가"; "시럽 추가"; "휘핑 추가"];
  beverage "카푸치노" 5000 "풍성한 우유 거품이 특징인 이탈리안 커피"
    all_sizes hot_ice ["샷 추가"; "시나몬 파우더"];
  beverage "바닐라라떼" 5500 "달콤한 바닐라 시럽이 들어간 라떼"
    all_sizes hot_ice ["샷 추가"; "휘핑 추가"];
  beverage "카라멜마끼아또" 5800 "달콤한 카라멜과 에스프레소의 만남"
    all_sizes hot_ice ["샷 추가"; "휘핑 추가"; "카라멜 드리즐 추가"];
  beverage "아이스티" 4000 "상큼한 레몬 아이스티"
    all_sizes [ICE] ["레몬 추가"; "민트 추가"];
  beverage "오렌지주스" 5500 "신선한 오렌지로 만든 착즙 주스"
    [TALL; GRANDE] [ICE] [];
  beverage "그린티라떼" 5500 "고소한 녹차와 우유의 조화"
    all_sizes hot_ice ["휘핑 추가"]
].

Definition DESSERT_MENU : list (string * MenuItem) := [
  plain DESSERT "케이크" 6000 "촉촉한 초콜릿 케이크" ["휘핑 추가"];
  plain DESSERT "치즈케이크" 6500 "부드러운 뉴욕 스타일 치즈케이크" [];
  plain DESSERT "마카롱" 3000 "프랑스 전통 마카롱 (5개입)" [];
  plain DESSERT "쿠키" 2500 "바삭한 초콜릿칩 쿠키" [];
  plain DESSERT "와플" 7000 "벨기에 스타일 와플"
    ["아이스크림 추가"; "생크림 추가"; "메이플시럽 추가"];
  plain DESSERT "타르트" 6500 "신선한 과일 타르트" [];
  plain DESSERT "브라우니" 4500 "진한 초콜릿 브라우니" ["아이스크림 추가"];
  plain DESSERT "스콘" 3500 "영국식 스콘 (잼&크림 포함)" []
].

Definition MEAL_MENU : list (string * MenuItem) := [
  plain MEAL "샌드위치" 8000 "신선한 야채와 햄이 들어간 클럽 샌드위치"
    ["치즈 추가"; "베이컨 추가"];
  plain MEAL "베이글" 7000 "크림치즈를 곁들인 베이글"
    ["연어 추가"; "아보카도 추가"];
  plain MEAL "샐러드" 9000 "신선한 채소와 닭가슴살 샐러드"
    ["발사믹 드레싱"; "요거트 드레싱"];
  plain MEAL "파스타" 12000 "토마토 소스 파스타" ["치즈 추가"; "버섯 추가"];
  plain MEAL "리조또" 13000 "크리미한 버섯 리조또" ["치즈 추가"; "트러플 오일"];
  plain MEAL "피자" 15000 "마르게리타 피자 (1판)" ["치즈 추가"; "토핑 추가"];
  plain MEAL "크로와상" 4000 "버터 크로와상" [];
  plain MEAL "프렌치토스트" 8500 "시나몬 프렌치토스트"
    ["아이스크림 추가"; "메이플시럽 추가"]
].

Definition MENU_DATABASE : list (MenuCategory * list (string * MenuItem)) :=
  [ (BEVERAGE, BEVERAGE_MENU); (DESSERT, DESSERT_MENU); (MEAL, MEAL_MENU) ].

Definition get_menu_by_category (c : MenuCategory)
  : list (string * MenuItem) :=
  match Py.dict_get MenuCategory_eqb MENU_DATABASE c with
  | Some m => m
  | None => []
  end.

(** The loop of [get_menu_item] over [MENU_DATABASE.values()]. *)
Fixpoint search_all (menus : list (list (string * MenuItem))) (n : string)
  : option MenuItem :=
  match menus with
  | [] => None
  | cat_menu :: rest =>
      match Py.dict_get String.eqb cat_menu n with
      | Some it => Some it
      | None => search_all rest n
      end
  end.

(** [get_menu_item(name, category=None)].  Every [MenuCategory] is a
    non-empty [str], so [if category:] is the test for [Some]. *)
Definition get_menu_item (n : string) (c : option MenuCategory)
  : option MenuItem :=
  match c with
  | Some cat => Py.dict_get String.eqb (get_menu_by_category cat) n
  | None => search_all (Py.dict_values MENU_DATABASE) n
  end.

Definition get_all_menu_names : list string :=
  concat (map (fun cat_menu => Py.dict_keys cat_menu)
              (Py.dict_values MENU_DATABASE)).

(** [search_menu] *)
Definition search_menu (keyword : string) : list MenuItem :=
  let keyword_lower := Py.lower keyword in
  concat
    (map (fun cat_menu =>
            List.filter
              (fun menu_item =>
                 Py.contains keyword_lower (Py.lower (name menu_item))
                 || Py.contains keyword_lower
                      (Py.lower (description menu_item)))
              (Py.dict_values cat_menu))
         (Py.dict_values MENU_DATABASE)).

End MenuDatabase.


(* ================================================================== *)
(** * Order item dictionaries *)
(* ================================================================== *)

(** The [Dict[str, Any]] that extraction produces and that validation and
    order creation consume, with the value types of the extraction
    contract.  For [menu], [quantity] and [options], [None] is an absent
    key.  For [size] and [temperature], [None] is an absent key or a key
    holding [null]: the code tests both with
    ["size" in item and item["size"]]. *)
Module Item.

Record t := {
  menu : option string;
  quantity : option Z;
  size : option string;
  temperature : option string;
  options : option (list string);
}.

End Item.

(* ================================================================== *)
(** * src/utils/validators.py *)
(* ================================================================== *)

Module Validators.
Import MenuDatabase.

Record ValidationResult (A : Type) := {
  is_valid : bool;
  message : string;
  data : option A;
  errors : list string;
}.
Arguments is_valid {A} _.
Arguments message {A} _.
Arguments data {A} _.
Arguments errors {A} _.

(** [OrderValidator.validate_menu_item] *)
Definition validate_menu_item (menu_name : string) (c : option MenuCategory)
  : ValidationResult MenuItem :=
  match get_menu_item menu_name c with
  | None =>
      {| is_valid := false;
         message := "'" ++ menu_name ++ "' 메뉴를 찾을 수 없습니다.";
         data := None; errors := ["menu_not_found"] |}
  | Some menu_item =>
      if negb (available menu_item) then
        {| is_valid := false;
           message := "'" ++ menu_name ++ "' 메뉴는 현재 품절입니다.";
           data := None; errors := ["menu_unavailable"] |}
      else
        {| is_valid := true; message := "유효한 메뉴입니다.";
           data := Some menu_item; errors := [] |}
  end.

(** [OrderValidator.validate_quantity] *)
Definition validate_quantity (quantity : Z) : ValidationResult Z :=
  if quantity <? 1 then
    {| is_valid := false; message := "수량은 1개 이상이어야 합니다.";
       data := None; errors := ["invalid_quantity"] |}
  else if quantity >? 99 then
    {| is_valid := false; message := "한 번에 최대 99개까지 주문 가능합니다.";
       data := None; errors := ["quantity_too_large"] |}
  else
    {| is_valid := true; message := "유효한 수량입니다.";
       data := Some quantity; errors := [] |}.

Definition size_map : list (string * SizeOption) :=
  [ ("톨", TALL); ("tall", TALL);
    ("그란데", GRANDE); ("grande", GRANDE);
    ("벤티", VENTI); ("venti", VENTI) ].

(** [x in xs] for a list of sizes. *)
Definition size_in (s : SizeOption) (l : list SizeOption) : bool :=
  existsb (SizeOption_eqb s) l.

Definition temperature_in (t : TemperatureOption)
    (l : list TemperatureOption) : bool :=
  existsb (TemperatureOption_eqb t) l.

(** [OrderValidator.validate_size] *)
Definition validate_size (size menu_name : string)
  : ValidationResult SizeOption :=
  match Py.dict_get String.eqb size_map (Py.lower size) with
  | None =>
      {| is_valid := false;
         message := "'" ++ size ++ "'는 유효하지 않은 사이즈입니다.";
         data := None; errors := ["invalid_size"] |}
  | Some normalized_size =>
      match get_menu_item menu_name None with
      | Some menu_item =>
          if negb (size_in normalized_size (size_options menu_item)) then
            {| is_valid := false;
               message := "'" ++ menu_name ++ "' 메뉴는 '" ++ size
                          ++ "' 사이즈를 제공하지 않습니다.";
               data := None; errors := ["size_not_available"] |}
          else
            {| is_valid := true; message := "유효한 사이즈입니다.";
               data := Some normalized_size; errors := [] |}
      | None =>
          {| is_valid := true; message := "유효한 사이즈입니다.";
             data := Some normalized_size; errors := [] |}
      end
  end.

Definition temp_map : list (string * TemperatureOption) :=
  [ ("뜨거운", HOT); ("핫", HOT); ("hot", HOT);
    ("차가운", ICE); ("아이스", ICE); ("ice", ICE); ("iced", ICE) ].

(** [OrderValidator.validate_temperature] *)
Definition validate_temperature (temperature menu_name : string)
  : ValidationResult TemperatureOption :=
  match Py.dict_get String.eqb temp_map (Py.lower temperature) with
  | None =>
      {| is_valid := false;
         message := "'" ++ temperature ++ "'는 유효하지 않은 온도 옵션입니다.";
         data := None; errors := ["invalid_temperature"] |}
  | Some normalized_temp =>
      match get_menu_item menu_name None with
      | Some menu_item =>
          if negb (temperature_in normalized_temp
                     (temperature_options menu_item)) then
            {| is_valid := false;
               message := "'" ++ menu_name ++ "' 메뉴는 '" ++ temperature
                          ++ "' 옵션을 제공하지 않습니다.";
               data := None; errors := ["temperature_not_available"] |}
          else
            {| is_valid := true; message := "유효한 온도 옵션입니다.";
               data := Some normalized_temp; errors := [] |}
      | None =>
          {| is_valid := true; message := "유효한 온도 옵션입니다.";
             data := Some normalized_temp; errors := [] |}
      end
  end.

(** The prefix [f"항목 {idx + 1}: "] of a per-item error. *)
Definition item_tag (idx : nat) : string :=
  "항목 " ++ Py.str_of_nat (idx + 1) ++ ": ".

(** The optional size check of the loop body: [Some msg] when it appends
    an error. *)
Definition size_check (item : Item.t) (menu : string) : option string :=
  match Item.size item with
  | Some size =>
      if Py.truthy size then
        let size_result := validate_size size menu in
        if negb (is_valid size_result) then Some (message size_result)
        else None
      else None
  | None => None
  end.

Definition temperature_check (item : Item.t) (menu : string)
  : option string :=
  match Item.temperature item with
  | Some temperature =>
      if Py.truthy temperature then
        let temp_result := validate_temperature temperature menu in
        if negb (is_valid temp_result) then Some (message temp_result)
        else None
      else None
  | None => None
  end.

(** One iteration of the loop of [validate_order_items]: [Some e] when the
    iteration appends [e] to [errors] and [continue]s, [None] when it
    reaches [validated_items.append(item)]. *)
Definition check_item (idx : nat) (item : Item.t) : option string :=
  match Item.menu item with
  | None => Some (item_tag idx ++ "메뉴 이름이 없습니다.")
  | Some menu =>
  match Item.quantity item with
  | None => Some (item_tag idx ++ "수량이 없습니다.")
  | Some quantity =>
      let menu_result := validate_menu_item menu None in
      if negb (is_valid menu_result) then
        Some (item_tag idx ++ message menu_result)
      else
      let qty_result := validate_quantity quantity in
      if negb (is_valid qty_result) then
        Some (item_tag idx ++ message qty_result)
      else
      match size_check item menu with
      | Some msg => Some (item_tag idx ++ msg)
      | None =>
      match temperature_check item menu with
      | Some msg => Some (item_tag idx ++ msg)
      | None => None
      end end
  end end.

(** [for idx, item in enumerate(items)] with its two accumulators. *)
Fixpoint validate_loop (idx : nat) (items : list Item.t)
    (errors : list string) (validated_items : list Item.t)
  : list string * list Item.t :=
  match items with
  | [] => (errors, validated_items)
  | item :: rest =>
      match check_item idx item with
      | Some e => validate_loop (S idx) rest (errors ++ [e]) validated_items
      | None => validate_loop (S idx) rest errors (validated_items ++ [item])
      end
  end.

(** [OrderValidator.validate_order_items] *)
Definition validate_order_items (items : list Item.t)
  : ValidationResult (list Item.t) :=
  match items with
  | [] =>
      {| is_valid := false; message := "주문 항목이 없습니다.";
         data := None; errors := ["no_items"] |}
  | _ =>
      let '(errs, validated_items) := validate_loop 0 items [] [] in
      match errs with
      | _ :: _ =>
          {| is_valid := false;
             message := "일부 주문 항목이 유효하지 않습니다.";
             data := None; errors := errs |}
      | [] =>
          {| is_valid := true; message := "모든 주문 항목이 유효합니다.";
             data := Some validated_items; errors := [] |}
      end
  end.

(** [OrderValidator.validate_order_text] *)
Definition validate_order_text (order_text : string)
  : ValidationResult string :=
  if negb (Py.truthy order_text) || negb (Py.truthy (Py.strip order_text))
  then
    {| is_valid := false; message := "주문 내용이 비어있습니다.";
       data := None; errors := ["empty_order"] |}
  else if (Py.len (Py.strip order_text) <? 2)%nat then
    {| is_valid := false; message := "주문 내용이 너무 짧습니다.";
       data := None; errors := ["order_too_short"] |}
  else if (500 <? Py.len order_text)%nat then
    {| is_valid := false;
       message := "주문 내용이 너무 깁니다. (최대 500자)";
       data := None; errors := ["order_too_long"] |}
  else
    {| is_valid := true; message := "유효한 주문입니다.";
       data := Some (Py.strip order_text); errors := [] |}.

(** [TextNormalizer.normalize_whitespace]:
    [re.sub(r'\s+', ' ', text.strip())] *)
Definition normalize_whitespace (text : string) : string :=
  Py.collapse_spaces (Py.strip text) false.

End Validators.


(* ================================================================== *)
(** * src/services/order_service.py *)
(* ================================================================== *)

Module OrderService.
Import MenuDatabase.

Inductive OrderStatus :=
| PENDING | PROCESSING | CONFIRMED | PREPARING | READY | COMPLETED | CANCELLED.

Record OrderItem := {
  menu_name : string;
  quantity : Z;
  category : MenuCategory;
  base_price : Z;
  size : option SizeOption;
  options : list string;
  subtotal : Z;
}.

Definition set_subtotal (self : OrderItem) (v : Z) : OrderItem :=
  {| menu_name := menu_name self; quantity := quantity self;
     category := category self; base_price := base_price self;
     size := size self; options := options self; subtotal := v |}.

(** [OrderItem.calculate_subtotal] *)
Definition calculate_subtotal (self : OrderItem) : OrderItem :=
  match get_menu_item (menu_name self) None with
  | Some menu_item =>
      let price := get_price menu_item (size self) in
      let option_cost := Z.of_nat (List.length (options self)) * 500 in
      set_subtotal self ((price + option_cost) * quantity self)
  | None =>
      set_subtotal self (base_price self * quantity self)
  end.

(** [OrderItem(...)]: the dataclass constructor followed by
    [__post_init__]. *)
Definition new_OrderItem (n : string) (q : Z) (c : MenuCategory) (p : Z)
    (s : option SizeOption) (opts : list string) : OrderItem :=
  calculate_subtotal
    {| menu_name := n; quantity := q; category := c; base_price := p;
       size := s; options := opts; subtotal := 0 |}.

Record Order := {
  order_id : string;
  items : list OrderItem;
  status : OrderStatus;
  created_at : Z;
  updated_at : Z;
  customer_notes : string;
  total_amount : Z;
  tax_amount : Z;
  final_amount : Z;
}.

(** [Order.update_status] *)
Definition update_status (self : Order) (new_status : OrderStatus) (now : Z)
  : Order :=
  {| order_id := order_id self; items := items self;
     status := new_status;
     created_at := created_at self; updated_at := now;
     customer_notes := customer_notes self;
     total_amount := total_amount self; tax_amount := tax_amount self;
     final_amount := final_amount self |}.

(** [new_status in [OrderStatus.COMPLETED, OrderStatus.CANCELLED]] *)
Definition is_terminal (s : OrderStatus) : bool :=
  match s with COMPLETED | CANCELLED => true | _ => false end.

(** The service object: the [orders] dict and the [order_history] list. *)
Record t := {
  orders : gmap string Order;
  order_history : list Order;
}.

(** [OrderService.__init__] *)
Definition init : t := {| orders := ∅; order_history := [] |}.

(** [OrderService.get_order] *)
Definition get_order (self : t) (id : string) : option Order :=
  orders self !! id.

(** [OrderService.update_order_status]: the returned flag and the service
    afterwards.  [now] is the clock reading of [Order.update_status]. *)
Definition update_order_status (self : t) (id : string)
    (new_status : OrderStatus) (now : Z) : bool * t :=
  match get_order self id with
  | None => (false, self)
  | Some order =>
      let order := update_status order new_status now in
      if is_terminal new_status then
        (true, {| orders := delete id (orders self);
                  order_history := order_history self ++ [order] |})
      else
        (* the dict holds the very object that was mutated *)
        (true, {| orders := <[id := order]> (orders self);
                  order_history := order_history self |})
  end.

(** [OrderService.cancel_order] *)
Definition cancel_order (self : t) (id : string) (now : Z) : bool * t :=
  update_order_status self id CANCELLED now.

Definition microseconds_per_day : Z := 86400 * 1000000.

(** [OrderService.clear_old_history] *)
Definition clear_old_history (self : t) (days : Z) (now : Z) : t :=
  let cutoff_date := now - days * microseconds_per_day in
  {| orders := orders self;
     order_history :=
       List.filter (fun order => created_at order >? cutoff_date)
              (order_history self) |}.

Definition OrderStatus_eqb (a b : OrderStatus) : bool :=
  match a, b with
  | PENDING, PENDING | PROCESSING, PROCESSING | CONFIRMED, CONFIRMED
  | PREPARING, PREPARING | READY, READY | COMPLETED, COMPLETED
  | CANCELLED, CANCELLED => true
  | _, _ => false
  end.

(** [OrderService.get_order_history]: [self.order_history[-limit:]] *)
Definition get_order_history (self : t) (limit : Z) : list Order :=
  Py.slice_from (- limit) (order_history self).

(** [d.date()]: the day a clock reading falls on, as a day count. *)
Definition date_of (time : Z) : Z := time / microseconds_per_day.

(** The result dict of [calculate_daily_revenue]; [date] is the day count
    of today where the source has its ISO text. *)
Record DailyRevenue := {
  date : Z;
  total_revenue : Z;
  total_orders : nat;
  average_order_value : Z;
  category_revenue : list (string * Z);
}.

(** The orders of today that are completed. *)
Definition today_orders (self : t) (now : Z) : list Order :=
  List.filter
    (fun order =>
       (date_of (created_at order) =? date_of now)
       && OrderStatus_eqb (status order) COMPLETED)
    (order_history self).

(** The two nested loops that fill [category_revenue]. *)
Definition add_item_revenue (category_revenue : list (string * Z))
    (item : OrderItem) : list (string * Z) :=
  Py.dict_add category_revenue (MenuCategory_value (category item))
    (subtotal item).

Definition add_order_revenue (category_revenue : list (string * Z))
    (order : Order) : list (string * Z) :=
  fold_left add_item_revenue (items order) category_revenue.

(** [OrderService.calculate_daily_revenue]; [now] is the clock reading. *)
Definition calculate_daily_revenue (self : t) (now : Z) : DailyRevenue :=
  let todays := today_orders self now in
  let revenue := Py.sum (map final_amount todays) in
  let count := List.length todays in
  {| date := date_of now;
     total_revenue := revenue;
     total_orders := count;
     average_order_value :=
       if (0 <? count)%nat then revenue / Z.of_nat count else 0;
     category_revenue := fold_left add_order_revenue todays [] |}.

(** The two nested loops that fill [item_counts]. *)
Definition count_item (item_counts : list (string * Z)) (item : OrderItem)
  : list (string * Z) :=
  Py.dict_add item_counts (menu_name item) (quantity item).

Definition count_order (item_counts : list (string * Z)) (order : Order)
  : list (string * Z) :=
  if OrderStatus_eqb (status order) COMPLETED
  then fold_left count_item (items order) item_counts
  else item_counts.

(** [OrderService.get_popular_items]: the [(menu_name, order_count)]
    entries, in order. *)
Definition get_popular_items (self : t) (top_n : Z) : list (string * Z) :=
  let item_counts := fold_left count_order (order_history self) [] in
  Py.slice_to top_n (Py.sorted_desc snd item_counts).

Section WithSettings.
Variable settings : Settings.

(** [int(self.total_amount * settings.tax_rate)] under
    [if settings.tax_rate > 0], else 0, as the interpreter computes it:
    in binary64.  [None] is the exception Python raises when the total
    or the product is beyond the floats. *)
Definition tax_in_binary64 (total : Z) : option Z :=
  if Qlt_le_dec 0 (tax_rate settings) then
    match Py.float_of_Q (tax_rate settings) with
    | Some rate =>
        if 0 <? Py.mantissa rate
        then Py.int_mul_float total (tax_rate settings)
        else Some 0
    | None => None
    end
  else Some 0.

(** [Order.calculate_amounts].  The tax is written here with the exact
    product of the total and the decimal rate.  For the rates 0, 0.1 and
    0.2 and totals up to 10^15 in absolute value that is the number
    [tax_in_binary64] gives (lemma [tax_in_binary64_exact] below); the
    theorems that speak of the tax carry these bounds. *)
Definition calculate_amounts (self : Order) : Order :=
  let total := Py.sum (map subtotal (items self)) in
  let tax :=
    if Qlt_le_dec 0 (tax_rate settings)
    then Py.int_of_Q (inject_Z total * tax_rate settings)
    else 0 in
  {| order_id := order_id self; items := items self; status := status self;
     created_at := created_at self; updated_at := updated_at self;
     customer_notes := customer_notes self;
     total_amount := total; tax_amount := tax;
     final_amount := total + tax |}.

(** [Order(order_id=..., items=..., customer_notes=...)] followed by
    [__post_init__].  [now] is the reading of the [datetime.now] default
    of [created_at].  The default of [updated_at] is a second reading,
    taken right after; it is held equal to the first here, and no
    theorem speaks of the [updated_at] of a new order. *)
Definition new_Order (id : string) (its : list OrderItem) (notes : string)
    (now : Z) : Order :=
  calculate_amounts
    {| order_id := id; items := its; status := PENDING;
       created_at := now; updated_at := now; customer_notes := notes;
       total_amount := 0; tax_amount := 0; final_amount := 0 |}.

(** [self.items = its] *)
Definition with_items (self : Order) (its : list OrderItem) : Order :=
  {| order_id := order_id self; items := its; status := status self;
     created_at := created_at self; updated_at := updated_at self;
     customer_notes := customer_notes self;
     total_amount := total_amount self; tax_amount := tax_amount self;
     final_amount := final_amount self |}.

(** [self.updated_at = datetime.now()] *)
Definition touch (self : Order) (now : Z) : Order :=
  {| order_id := order_id self; items := items self; status := status self;
     created_at := created_at self; updated_at := now;
     customer_notes := customer_notes self;
     total_amount := total_amount self; tax_amount := tax_amount self;
     final_amount := final_amount self |}.

(** [Order.add_item] *)
Definition add_item (self : Order) (item : OrderItem) (now : Z) : Order :=
  touch (calculate_amounts (with_items self (items self ++ [item]))) now.

(** [Order.remove_item]: the returned flag and the order afterwards. *)
Definition remove_item (self : Order) (name : string) (now : Z)
  : bool * Order :=
  let original_count := List.length (items self) in
  let self :=
    with_items self
      (List.filter (fun item => negb (String.eqb (menu_name item) name))
                   (items self)) in
  if (List.length (items self) <? original_count)%nat
  then (true, touch (calculate_amounts self) now)
  else (false, self).

(** One [item_data] of the loop of [create_order_from_items]: [None] when
    the iteration [continue]s without building an item. *)
Definition build_order_item (c : MenuCategory) (item_data : Item.t)
  : option OrderItem :=
  (* item_data.get("menu") is None for an absent key, and None names no menu *)
  match Item.menu item_data with
  | None => None
  | Some n =>
      let q := match Item.quantity item_data with
               | Some q => q
               | None => 1
               end in
      match get_menu_item n (Some c) with
      | None => None
      | Some menu_item =>
          let sz :=
            match Item.size item_data with
            | Some s =>
                if Py.truthy s then SizeOption_of_value s (* ValueError -> None *)
                else None
            | None => None
            end in
          let opts := match Item.options item_data with
                      | Some o => o
                      | None => []
                      end in
          Some (new_OrderItem n q c (MenuDatabase.base_price menu_item)
                              sz opts)
      end
  end.

Fixpoint build_order_items (c : MenuCategory) (items_data : list Item.t)
  : list OrderItem :=
  match items_data with
  | [] => []
  | item_data :: rest =>
      match build_order_item c item_data with
      | Some order_item => order_item :: build_order_items c rest
      | None => build_order_items c rest
      end
  end.

(** [OrderService.create_order_from_items].  [id] is the value that
    [generate_order_id] draws (a timestamp and a [uuid4] prefix), [now]
    the clock reading. *)
Definition create_order_from_items (self : t) (items_data : list Item.t)
    (c : MenuCategory) (notes : string) (id : string) (now : Z)
  : Order * t :=
  let order := new_Order id (build_order_items c items_data) notes now in
  (order, {| orders := <[id := order]> (orders self);
             order_history := order_history self |}).

End WithSettings.

End OrderService.


(* ================================================================== *)
(** * Results of awaited calls *)
(* ================================================================== *)

(** What an [await]ed call hands back: a value, or a raised [Exception]
    carrying [str(e)]. *)
Inductive Outcome (A : Type) :=
| Returned (a : A)
| Raised (e : string).
Arguments Returned {A} _.
Arguments Raised {A} _.

(** [try: body / except Exception as e: handler(e)] *)
Definition try_except {A} (body : Outcome A) (handler : string -> Outcome A)
  : Outcome A :=
  match body with
  | Returned a => Returned a
  | Raised e => handler e
  end.

(** Sequencing inside a [try] body: a raise skips the rest. *)
Definition and_then {A B} (x : Outcome A) (f : A -> Outcome B) : Outcome B :=
  match x with
  | Returned a => f a
  | Raised e => Raised e
  end.

(* ================================================================== *)
(** * src/services/llm_service.py *)
(* ================================================================== *)

Module LLMService.

Inductive ModelType := CLOUD | LOCAL.

(** [LLMService.check_local_model_availability].  [health_ok] is whether
    [GET /api/tags] answers 200 within the timeout; any exception of the
    request is caught there and counts as [false]. *)
Definition check_local_model_availability (settings : Settings)
    (health_ok : bool) : bool :=
  if negb (enable_local_model settings) then false else health_ok.

(** The test of the [for menu in available_menus] loop. *)
Definition menu_matches (order_lower menu : string) : bool :=
  let menu_lower := Py.lower menu in
  Py.contains menu_lower order_lower ||
  existsb (fun part => Py.contains part order_lower)
          (List.filter (fun part => (2 <? Py.len part)%nat) (Py.split menu_lower)).

(** [for i in range(1, 10): if str(i) in order_text: quantity = i; break] *)
Fixpoint scan_digits (digits : list nat) (order_text : string) : Z :=
  match digits with
  | [] => 1
  | i :: rest =>
      if Py.contains (Py.str_of_nat i) order_text then Z.of_nat i
      else scan_digits rest order_text
  end.

Definition extract_quantity (order_text : string) : Z :=
  scan_digits (seq 1 9) order_text.

Definition extract_size (order_lower : string) : option string :=
  if Py.contains "톨" order_lower || Py.contains "tall" order_lower
  then Some "Tall"
  else if Py.contains "그란데" order_lower || Py.contains "grande" order_lower
  then Some "Grande"
  else if Py.contains "벤티" order_lower || Py.contains "venti" order_lower
  then Some "Venti"
  else None.

Definition extract_temperature (order_lower : string) : option string :=
  if Py.contains "아이스" order_lower || Py.contains "ice" order_lower
     || Py.contains "차가" order_lower
  then Some "Ice"
  else if Py.contains "핫" order_lower || Py.contains "hot" order_lower
          || Py.contains "뜨거" order_lower
  then Some "Hot"
  else None.

(** The item appended on a match. *)
Definition fallback_item (order_text order_lower menu : string) : Item.t :=
  {| Item.menu := Some menu;
     Item.quantity := Some (extract_quantity order_text);
     Item.size := extract_size order_lower;
     Item.temperature := extract_temperature order_lower;
     Item.options := Some [] |}.

(** The menu loop, which [break]s at the first match. *)
Fixpoint fallback_loop (order_text order_lower : string)
    (available_menus : list string) : list Item.t :=
  match available_menus with
  | [] => []
  | menu :: rest =>
      if menu_matches order_lower menu
      then [fallback_item order_text order_lower menu]
      else fallback_loop order_text order_lower rest
  end.

(** [LLMService._fallback_extraction] *)
Definition _fallback_extraction (order_text : string)
    (available_menus : list string) : list Item.t :=
  fallback_loop order_text (Py.lower order_text) available_menus.

End LLMService.

(* ================================================================== *)
(** * src/routers/category_router.py *)
(* ================================================================== *)

Module CategoryRouter.
Import MenuDatabase.

Record RouteDecision := {
  category : MenuCategory;
  confidence : Q;
  reasoning : string;
}.

(** [CategoryRouter._build_category_keywords] *)
Definition category_keywords : list (MenuCategory * list string) := [
  (BEVERAGE, ["음료"; "커피"; "라떼"; "아메리카노"; "주스"; "티"; "차";
              "마시"; "drink"; "coffee"; "음료수"; "시원한"; "따뜻한"]);
  (DESSERT, ["디저트"; "케이크"; "빵"; "쿠키"; "마카롱"; "와플"; "달콤한";
             "dessert"; "sweet"; "간식"; "후식"; "타르트"; "스콘"]);
  (MEAL, ["식사"; "끼니"; "샌드위치"; "파스타"; "샐러드"; "피자";
          "meal"; "food"; "먹을"; "배고"; "점심"; "저녁"; "아침"])
].

(** [sum(1 for keyword in keywords if keyword in text_lower)] *)
Definition keyword_score (text_lower : string) (keywords : list string)
  : nat :=
  Py.count_if (fun keyword => Py.contains keyword text_lower) keywords.

(** The [scores] dict, in insertion order. *)
Definition keyword_scores (text : string) : list (MenuCategory * nat) :=
  let text_lower := Py.lower text in
  map (fun '(c, keywords) => (c, keyword_score text_lower keywords))
      category_keywords.

(** [max(scores, key=scores.get)] after the first entry: a later entry
    replaces the best one only when its score is strictly greater. *)
Definition max_entry (first : MenuCategory * nat)
    (rest : list (MenuCategory * nat)) : MenuCategory * nat :=
  fold_left (fun best e => if (snd best <? snd e)%nat then e else best)
            rest first.

Definition total_of (scores : list (MenuCategory * nat)) : nat :=
  fold_right Nat.add O (Py.dict_values scores).

(** [max_score / total_score if total_score > 0 else 0] *)
Definition confidence_of (max_score total_score : nat) : Q :=
  if (0 <? total_score)%nat
  then Z.of_nat max_score # Pos.of_nat total_score
  else 0.

(** [CategoryRouter._classify_by_keywords] *)
Definition _classify_by_keywords (text : string) : option RouteDecision :=
  let scores := keyword_scores text in
  if negb (existsb (fun s => (0 <? s)%nat) (Py.dict_values scores)) then None
  else
    match scores with
    | [] => None (* max() of an empty dict: the keyword map is never empty *)
    | first :: rest =>
        let '(max_category, max_score) := max_entry first rest in
        let total_score := total_of scores in
        let conf := confidence_of max_score total_score in
        if Qlt_le_dec conf 0.6 then None
        else Some {| category := max_category;
                     confidence := conf;
                     reasoning :=
                       "Keyword matching (score: " ++ Py.str_of_nat max_score
                       ++ "/" ++ Py.str_of_nat total_score ++ ")" |}
    end.

Definition category_map : list (string * MenuCategory) :=
  [ ("음료", BEVERAGE); ("beverage", BEVERAGE);
    ("디저트", DESSERT); ("dessert", DESSERT);
    ("식사", MEAL); ("meal", MEAL) ].

(** [CategoryRouter._parse_category] *)
Definition _parse_category (category_str : string) : MenuCategory :=
  let category_str := Py.lower (Py.strip category_str) in
  match find (fun '(key, _) => Py.contains key category_str) category_map with
  | Some (_, value) => value
  | None => BEVERAGE
  end.

(** A run of [route] against the gateway: it is over with a result, or it
    awaits [llm_service.classify_category(text)] and resumes with what
    that call hands back. *)
Inductive Run (A : Type) :=
| Done (result : A)
| Classify (text : string) (resume : Outcome string -> Run A).
Arguments Done {A} _.
Arguments Classify {A} _ _.

(** Running against a gateway [gw]: the result and the texts sent to the
    gateway, in order. *)
Fixpoint run {A} (gw : string -> Outcome string) (r : Run A)
  : A * list string :=
  match r with
  | Done a => (a, [])
  | Classify text resume =>
      let '(a, calls) := run gw (resume (gw text)) in
      (a, text :: calls)
  end.

Definition llm_decision (category_str : string) : RouteDecision :=
  {| category := _parse_category category_str;
     confidence := 0.9;
     reasoning := "LLM classification" |}.

Definition fallback_decision : RouteDecision :=
  {| category := BEVERAGE;
     confidence := 0.5;
     reasoning := "Fallback to default category" |}.

(** The [try] block of [route] and its [except Exception] handler, given
    what [classify_category] handed back. *)
Definition classify_with_llm (answer : Outcome string)
  : Outcome RouteDecision :=
  try_except
    (and_then answer (fun category_str => Returned (llm_decision category_str)))
    (fun _ => Returned fallback_decision).

(** [CategoryRouter.route].  [_ensure_llm_service] only fetches the
    process-wide service object and is not a gateway call; the
    [LogContext] block logs and re-raises. *)
Definition route (order_text : string) : Run (Outcome RouteDecision) :=
  let normalized_text := Validators.normalize_whitespace order_text in
  let slow :=
    Classify normalized_text (fun answer => Done (classify_with_llm answer)) in
  match _classify_by_keywords normalized_text with
  | Some keyword_result =>
      if Qlt_le_dec 0.8 (confidence keyword_result)
      then Done (Returned keyword_result)
      else slow
  | None => slow
  end.

(** [CategoryRouter.get_available_menus] *)
Definition get_available_menus (c : MenuCategory) : list string :=
  map fst (List.filter (fun '(_, item) => available item)
                       (get_menu_by_category c)).

(** [menu_name in available_menus], where [item.get("menu")] is [None]
    for an absent key and [None] is in no list of names. *)
Definition menu_in (menu : option string) (available_menus : list string)
  : bool :=
  match menu with
  | Some menu_name => existsb (String.eqb menu_name) available_menus
  | None => false
  end.

(** [CategoryRouter.validate_category_items] *)
Definition validate_category_items (c : MenuCategory)
    (items : list Item.t) : list Item.t :=
  let available_menus := get_available_menus c in
  List.filter (fun item => menu_in (Item.menu item) available_menus) items.

End CategoryRouter.


(* ================================================================== *)
(** * src/routers/serving_router.py *)
(* ================================================================== *)

Module ServingRouter.
Import LLMService.

Inductive SensitivityLevel := LOW | MEDIUM | HIGH.

Record ServingDecision := {
  target : ModelType;
  model_name : string;
  sensitivity : SensitivityLevel;
  reason : string;
  fallback_available : bool;
}.

Definition SENSITIVE_KEYWORDS : list string := [
  "전화번호"; "주소"; "이메일"; "카드"; "계좌";
  "주민등록"; "비밀번호"; "개인정보";
  "phone"; "address"; "email"; "card"; "password";
  "personal"; "private"; "confidential"
].

(** The [local_model_status] dict. *)
Record LocalModelStatus := {
  available : bool;
  last_checked : option Z;
  check_interval : Z;
}.

(** The router object. *)
Record t := {
  local_model_status : LocalModelStatus;
  serving_history : list ServingDecision;
}.

(** [timedelta(minutes=5)] *)
Definition five_minutes : Z := 5 * 60 * 1000000.

(** [ServingRouter.__init__] *)
Definition init : t := {|
  local_model_status :=
    {| available := false; last_checked := None;
       check_interval := five_minutes |};
  serving_history := [];
|}.

(** What one call of [_check_local_availability] meets outside the
    router: the reading of [datetime.now()] and, should it probe, whether
    the local backend answers its health request. *)
Record Observation := {
  now : Z;
  health_ok : bool;
}.

(** [ServingRouter._analyze_sensitivity_fast] *)
Definition sensitive_count (query : string) : nat :=
  let query_lower := Py.lower query in
  Py.count_if (fun keyword => Py.contains keyword query_lower)
              SENSITIVE_KEYWORDS.

Definition _analyze_sensitivity_fast (query : string) : SensitivityLevel :=
  let n := sensitive_count query in
  if (2 <=? n)%nat then HIGH
  else if (n =? 1)%nat then MEDIUM
  else LOW.

Section WithSettings.
Variable settings : Settings.

(** [ServingRouter._check_local_availability] *)
Definition _check_local_availability (self : t) (obs : Observation)
  : bool * t :=
  let status := local_model_status self in
  let probe :=
    let avail := check_local_model_availability settings (health_ok obs) in
    (avail,
     {| local_model_status :=
          {| available := avail; last_checked := Some (now obs);
             check_interval := check_interval status |};
        serving_history := serving_history self |}) in
  match last_checked status with
  | Some checked =>
      if now obs - checked <? check_interval status
      then (available status, self)
      else probe
  | None => probe
  end.

(** [ServingRouter._create_cloud_decision] *)
Definition _create_cloud_decision (sens : SensitivityLevel)
    (why : string) (fallback : bool) : ServingDecision :=
  {| target := CLOUD; model_name := gpt_standard_model settings;
     sensitivity := sens; reason := why; fallback_available := fallback |}.

(** [ServingRouter._create_local_decision] *)
Definition _create_local_decision (self : t) (sens : SensitivityLevel)
    (why : string) (obs : Observation) : ServingDecision * t :=
  let '(avail, self) := _check_local_availability self obs in
  if negb avail then
    (_create_cloud_decision sens
       (why ++ " (fallback to cloud: local unavailable)") false, self)
  else
    ({| target := LOCAL; model_name := ollama_model settings;
        sensitivity := sens; reason := why; fallback_available := true |},
     self).

(** [ServingRouter.analyze_sensitivity_with_llm], given what
    [_call_openai] handed back. *)
Definition analyze_sensitivity_with_llm (response : Outcome string)
  : Outcome SensitivityLevel :=
  try_except
    (and_then response (fun response =>
       let sensitivity := Py.lower (Py.strip response) in
       Returned
         (if String.eqb sensitivity "low" then LOW
          else if String.eqb sensitivity "medium" then MEDIUM
          else if String.eqb sensitivity "high" then HIGH
          else MEDIUM)))
    (fun _ => Returned MEDIUM).

(** [self.serving_history.append(decision)] *)
Definition record_decision (self : t) (decision : ServingDecision) : t :=
  {| local_model_status := local_model_status self;
     serving_history := serving_history self ++ [decision] |}.

(** [ServingRouter._auto_route].  [obs1] is met by the availability check
    of this method, [obs2] by the one inside [_create_local_decision]
    when that is reached. *)
Definition _auto_route (self : t) (query : string)
    (obs1 obs2 : Observation) : ServingDecision * t :=
  let sens := _analyze_sensitivity_fast query in
  let '(local_available, self) := _check_local_availability self obs1 in
  let '(decision, self) :=
    match sens with
    | HIGH =>
        if local_available then
          _create_local_decision self sens
            "High sensitivity, using local model for privacy" obs2
        else
          (_create_cloud_decision sens
             "High sensitivity but local unavailable, using cloud with caution"
             false, self)
    | LOW =>
        (_create_cloud_decision sens
           "Low sensitivity, using cloud for better performance"
           local_available, self)
    | MEDIUM =>
        if local_available then
          _create_local_decision self sens
            "Medium sensitivity, local model available" obs2
        else
          (_create_cloud_decision sens
             "Medium sensitivity, local unavailable, using cloud" false, self)
    end in
  (decision, record_decision self decision).

(** [ServingRouter.route]: the decision and the router afterwards.  On
    the paths that make a single availability check, that check meets
    [obs1]. *)
Definition route (self : t) (query : string) (force_local force_cloud : bool)
    (obs1 obs2 : Observation) : ServingDecision * t :=
  if force_cloud then
    (_create_cloud_decision LOW "Forced cloud serving" false, self)
  else if force_local then
    _create_local_decision self HIGH "Forced local serving" obs1
  else
    match model_strategy settings with
    | cloud_only =>
        (_create_cloud_decision LOW "Cloud-only strategy" false, self)
    | local_only =>
        _create_local_decision self MEDIUM "Local-only strategy" obs1
    | auto_strategy => _auto_route self query obs1 obs2
    end.

End WithSettings.

End ServingRouter.


(* ================================================================== *)
(** * src/agents/order_agent.py *)
(* ================================================================== *)

Module OrderAgent.

Record OrderProcessResult := {
  success : bool;
  order : option OrderService.Order;
  message : string;
  errors : list string;
}.

(** [OrderAgent.cancel_order]: the result and the order service
    afterwards.  The service calls cannot raise, so the [except] branch
    is never taken. *)
Definition cancel_order (service : OrderService.t) (order_id : string)
    (now : Z) : OrderProcessResult * OrderService.t :=
  let '(ok, service) := OrderService.cancel_order service order_id now in
  if ok then
    ({| success := true;
        order := OrderService.get_order service order_id;
        message := "주문이 취소되었습니다.";
        errors := [] |}, service)
  else
    ({| success := false; order := None;
        message := "주문을 찾을 수 없습니다. (ID: " ++ order_id ++ ")";
        errors := ["order_not_found"] |}, service).

End OrderAgent.


(* ================================================================== *)
(** * Vocabulary of the specification *)
(* ================================================================== *)

(** The notions the specification uses to talk about the code above.
    They are stated in the specification's terms and are compared with
    the code in the theorems that follow. *)
Module Spec.
Import MenuDatabase.

(** ** Pricing *)

(** The fixed delta of a requested size: nothing for Tall or no size, the
    mid-size surcharge for Grande, the larger one for Venti. *)
Definition size_delta (size : option SizeOption) : Z :=
  match size with
  | Some GRANDE => 500
  | Some VENTI => 1000
  | Some TALL | None => 0
  end.

(** The item offers the requested size. *)
Definition supports_size (item : MenuItem) (size : option SizeOption)
  : bool :=
  match size with
  | Some s => Validators.size_in s (size_options item)
  | None => true
  end.

(** The surcharge as the specification words it: the delta of the size,
    "applied only if the item supports sizing". *)
Definition surcharge_if_supported (item : MenuItem)
    (size : option SizeOption) : Z :=
  if supports_size item size then size_delta size else 0.

(** ** Item-list validation *)

(** A size (or temperature) is given: the key is present and holds a
    non-empty string. *)
Definition given (field : option string) : option string :=
  match field with
  | Some s => if Py.truthy s then Some s else None
  | None => None
  end.

(** The given size is unrecognized, or the menu item does not offer it. *)
Definition bad_size (item : Item.t) (menu_item : MenuItem) : bool :=
  match given (Item.size item) with
  | None => false
  | Some s =>
      match Py.dict_get String.eqb Validators.size_map (Py.lower s) with
      | None => true
      | Some sz => negb (Validators.size_in sz (size_options menu_item))
      end
  end.

Definition bad_temperature (item : Item.t) (menu_item : MenuItem) : bool :=
  match given (Item.temperature item) with
  | None => false
  | Some s =>
      match Py.dict_get String.eqb Validators.temp_map (Py.lower s) with
      | None => true
      | Some tp =>
          negb (Validators.temperature_in tp (temperature_options menu_item))
      end
  end.

(** The item fails: it lacks the menu or quantity key, names an unknown or
    unavailable menu, has a quantity outside [1, 99], or has a size or
    temperature that is unrecognized or not offered by its menu item. *)
Definition item_fails (item : Item.t) : bool :=
  match Item.menu item, Item.quantity item with
  | None, _ => true
  | _, None => true
  | Some menu, Some quantity =>
      match get_menu_item menu None with
      | None => true
      | Some menu_item =>
          negb (available menu_item)
          || (quantity <? 1) || (99 <? quantity)
          || bad_size item menu_item
          || bad_temperature item menu_item
      end
  end.

(** The 1-based positions of the failing items of a list whose first item
    has position [pos]. *)
Fixpoint failing_positions (pos : nat) (items : list Item.t) : list nat :=
  match items with
  | [] => []
  | item :: rest =>
      if item_fails item then pos :: failing_positions (S pos) rest
      else failing_positions (S pos) rest
  end.

(** An error message tagged with a 1-based position. *)
Definition tagged (pos : nat) (msg : string) : string :=
  "항목 " ++ Py.str_of_nat pos ++ ": " ++ msg.

(** [errs] holds one tagged message per position of [positions], in
    order. *)
Fixpoint one_error_per_position (positions : list nat) (errs : list string)
  : Prop :=
  match positions, errs with
  | [], [] => True
  | pos :: positions', e :: errs' =>
      (exists msg, e = tagged pos msg)
      /\ one_error_per_position positions' errs'
  | _, _ => False
  end.

(** ** Category routing *)

(** The entry of the keyword scores that [max] picks, and the total number
    of keyword hits. *)
Definition top_entry (text : string) : MenuCategory * nat :=
  match CategoryRouter.keyword_scores text with
  | [] => (BEVERAGE, O)
  | first :: rest => CategoryRouter.max_entry first rest
  end.

Definition total_hits (text : string) : nat :=
  CategoryRouter.total_of (CategoryRouter.keyword_scores text).

(** The share of the total hits that the top category holds. *)
Definition top_share (text : string) : Q :=
  CategoryRouter.confidence_of (snd (top_entry text)) (total_hits text).

(** The keyword fast path decides: [route] returns before it reaches the
    gateway. *)
Definition fast_path_decides (order_text : string) : bool :=
  match CategoryRouter.route order_text with
  | CategoryRouter.Done _ => true
  | CategoryRouter.Classify _ _ => false
  end.

(** ** Serving decisions *)

Section Serving.
Variable settings : Settings.

(** The answer of the availability check of [_auto_route]. *)
Definition first_check (self : ServingRouter.t)
    (obs1 : ServingRouter.Observation) : bool :=
  fst (ServingRouter._check_local_availability settings self obs1).

(** The answer of the confirming check inside [_create_local_decision],
    on the router as the first check left it. *)
Definition confirming_check (self : ServingRouter.t)
    (obs1 obs2 : ServingRouter.Observation) : bool :=
  fst (ServingRouter._check_local_availability settings
         (snd (ServingRouter._check_local_availability settings self obs1))
         obs2).

(** Local is available to the call: every availability check the router
    makes for it says so. *)
Definition local_available (self : ServingRouter.t)
    (obs1 obs2 : ServingRouter.Observation) : bool :=
  first_check self obs1 && confirming_check self obs1 obs2.

(** The cache entry that the first check leaves is still fresh when the
    confirming check reads the clock. *)
Definition cache_fresh (self : ServingRouter.t)
    (obs1 obs2 : ServingRouter.Observation) : Prop :=
  let status :=
    ServingRouter.local_model_status
      (snd (ServingRouter._check_local_availability settings self obs1)) in
  match ServingRouter.last_checked status with
  | Some checked =>
      ServingRouter.now obs2 - checked < ServingRouter.check_interval status
  | None => False
  end.

End Serving.

(** [route] takes the auto path: no forced flag, and the auto strategy. *)
Definition takes_auto_path (settings : Settings)
    (force_local force_cloud : bool) : bool :=
  negb force_cloud && negb force_local &&
  match model_strategy settings with
  | auto_strategy => true
  | _ => false
  end.

(** ** The order store *)

(** The calls a client can make on the service. *)
Inductive Op :=
| Create (items_data : list Item.t) (c : MenuCategory) (notes : string)
         (id : string) (now : Z)
| UpdateStatus (id : string) (new_status : OrderService.OrderStatus) (now : Z)
| Cancel (id : string) (now : Z)
| ClearOldHistory (days : Z) (now : Z).

Definition apply_op (settings : Settings) (self : OrderService.t) (op : Op)
  : OrderService.t :=
  match op with
  | Create items_data c notes id now =>
      snd (OrderService.create_order_from_items settings self items_data c
             notes id now)
  | UpdateStatus id new_status now =>
      snd (OrderService.update_order_status self id new_status now)
  | Cancel id now => snd (OrderService.cancel_order self id now)
  | ClearOldHistory days now => OrderService.clear_old_history self days now
  end.

(** The service after a sequence of calls on a fresh service. *)
Definition run_ops (settings : Settings) (ops : list Op) : OrderService.t :=
  fold_left (apply_op settings) ops OrderService.init.

(** The ids that [generate_order_id] drew, in order. *)
Fixpoint created_ids (ops : list Op) : list string :=
  match ops with
  | [] => []
  | Create _ _ _ id _ :: rest => id :: created_ids rest
  | _ :: rest => created_ids rest
  end.

(** The generated ids are unique within the process lifetime. *)
Definition ids_unique (ops : list Op) : Prop := NoDup (created_ids ops).

Definition is_purge (op : Op) : bool :=
  match op with ClearOldHistory _ _ => true | _ => false end.

Definition is_active (self : OrderService.t) (id : string) : Prop :=
  is_Some (OrderService.orders self !! id).

Definition history_ids (self : OrderService.t) : list string :=
  map OrderService.order_id (OrderService.order_history self).

Definition in_history (self : OrderService.t) (id : string) : Prop :=
  id ∈ history_ids self.

(** The service holds an order of that id. *)
Definition present (self : OrderService.t) (id : string) : Prop :=
  is_active self id \/ in_history self id.

(** What every reachable service satisfies: an active order is filed
    under its own id, an id of the history is not active, no id occurs
    twice in the history, and every order of the history is Completed or
    Cancelled. *)
Definition store_invariant (self : OrderService.t) : Prop :=
  (forall id o, OrderService.orders self !! id = Some o ->
                OrderService.order_id o = id)
  /\ (forall id, in_history self id -> OrderService.orders self !! id = None)
  /\ NoDup (history_ids self)
  /\ Forall (fun o => OrderService.is_terminal (OrderService.status o) = true)
            (OrderService.order_history self).

(** ** Rates and amounts *)

(** The tax rates the specification speaks of: 0, 0.1 and 0.2. *)
Definition configured_rate (settings : Settings) : Prop :=
  (tax_rate settings == 0 \/ tax_rate settings == 0.1
   \/ tax_rate settings == 0.2)%Q.

(** A total that a kiosk order can reach: at most 10^15 in absolute
    value, well inside the integers that binary64 holds exactly. *)
Definition kiosk_amount (total : Z) : Prop :=
  - 10 ^ 15 <= total <= 10 ^ 15.

(** ** Orders *)

(** The sizes [SizeOption(...)] accepts. *)
Definition canonical_size (s : string) : bool :=
  String.eqb s "Tall" || String.eqb s "Grande" || String.eqb s "Venti".

(** The sizes [validate_size] recognizes. *)
Definition recognized_size (s : string) : option SizeOption :=
  Py.dict_get String.eqb Validators.size_map (Py.lower s).

(** The same dictionary with no size. *)
Definition without_size (item : Item.t) : Item.t :=
  {| Item.menu := Item.menu item; Item.quantity := Item.quantity item;
     Item.size := None; Item.temperature := Item.temperature item;
     Item.options := Item.options item |}.

(** The labels [validate_size] accepts as written in its table. *)
Definition validator_size_labels : list string :=
  Py.dict_keys Validators.size_map.

(** An item dictionary with the mandatory keys and one size. *)
Definition sized_item (menu : string) (quantity : Z) (size : string)
  : Item.t :=
  {| Item.menu := Some menu; Item.quantity := Some quantity;
     Item.size := Some size; Item.temperature := None;
     Item.options := Some [] |}.

(** The order created from one item for an americano with the given size
    label. *)
Definition order_of_size (label : string) : OrderService.Order :=
  fst (OrderService.create_order_from_items default_settings
         OrderService.init [sized_item "아메리카노" 1 label] BEVERAGE ""
         "ORD-20260101120000-9c0d1e2f" 0).

(** An order line that is not a catalogue entry and carries a negative
    amount (a coupon), and the order made of it. *)
Definition coupon_line : OrderService.OrderItem :=
  OrderService.new_OrderItem "쿠폰" 1 BEVERAGE (-5) None [].

Definition coupon_order : OrderService.Order :=
  OrderService.new_Order default_settings "ORD-20260101000000-0000abcd"
    [coupon_line] "" 0.

(** Two Grande americanos with an extra shot. *)
Definition sample_order : OrderService.Order :=
  OrderService.new_Order default_settings "ORD-20260101000000-0000abce"
    [OrderService.new_OrderItem "아메리카노" 2 BEVERAGE 4500 (Some GRANDE)
       ["샷 추가"]] "" 0.

(** ** Sample inputs of the scenarios *)

(** [{menu: "아메리카노", quantity: 150}] *)
Definition excessive_items : list Item.t :=
  [ {| Item.menu := Some "아메리카노"; Item.quantity := Some 150;
       Item.size := None; Item.temperature := None;
       Item.options := None |} ].

(** [{menu: "아메리카노", quantity: 2, size: null, temperature: null}] *)
Definition two_americanos : Item.t :=
  {| Item.menu := Some "아메리카노"; Item.quantity := Some 2;
     Item.size := None; Item.temperature := None;
     Item.options := Some [] |}.

(** The names that [get_available_menus] yields for the beverages. *)
Definition beverage_names : list string := Py.dict_keys BEVERAGE_MENU.

(** The text contains the keyword [kw] and no other configured keyword of
    any category. *)
Definition only_keyword (kw text : string) : Prop :=
  forall (c : MenuCategory) (keywords : list string) (k : string),
    In (c, keywords) CategoryRouter.category_keywords ->
    In k keywords ->
    Py.contains k (Py.lower text) = String.eqb k kw.

(** A gateway whose every call fails. *)
Definition failing_gateway (text : string) : Outcome string :=
  Raised "Request timed out.".

(** Settings with the local backend switched on. *)
Definition local_settings : Settings := {|
  enable_local_model := true;
  ollama_model := "exaone3.5:7.8b";
  model_strategy := auto_strategy;
  tax_rate := 0.1;
  gpt_standard_model := "gpt-5";
|}.

(** A clock reading at which the local backend answers its health
    request. *)
Definition healthy_at (time : Z) : ServingRouter.Observation :=
  {| ServingRouter.now := time; ServingRouter.health_ok := true |}.

(** A query that holds the sensitive keywords "전화번호" and "주소". *)
Definition sensitive_query : string := "제 전화번호와 주소를 저장해 주세요".

(** A query with no sensitive keyword. *)
Definition plain_query : string := "오늘의 추천 메뉴 알려줘".

(** A short session: two orders are created, the first is confirmed and
    completed, the second cancelled, an unknown id is cancelled. *)
Definition sample_session : list Op :=
  [ Create [two_americanos] BEVERAGE "" "ORD-20260101090000-1a2b3c4d" 0;
    UpdateStatus "ORD-20260101090000-1a2b3c4d" OrderService.CONFIRMED 1;
    Create [sized_item "카페라떼" 1 "Grande"] BEVERAGE "" "ORD-20260101090005-5e6f7a8b" 5;
    UpdateStatus "ORD-20260101090000-1a2b3c4d" OrderService.COMPLETED 9;
    Cancel "ORD-20260101090005-5e6f7a8b" 10;
    Cancel "ORD-unknown" 11 ].

End Spec.


(* ================================================================== *)
(** * Notions for the rest of the code *)
(* ================================================================== *)

(** Notions used to state what the remaining functions do. *)
Module Notions.
Import MenuDatabase.

(** ** The catalogue *)

(** Every entry of the catalogue, in iteration order. *)
Definition all_items : list MenuItem :=
  concat (map Py.dict_values (Py.dict_values MENU_DATABASE)).

(** Every entry with the category it is filed under and its key. *)
Definition entries : list (MenuCategory * (string * MenuItem)) :=
  concat (map (fun '(c, cat_menu) => map (pair c) cat_menu) MENU_DATABASE).

(** The item offers every size and both temperatures. *)
Definition offers_everything (item : MenuItem) : bool :=
  forallb (fun s => Validators.size_in s (size_options item))
          [TALL; GRANDE; VENTI]
  && forallb (fun t => Validators.temperature_in t (temperature_options item))
             [HOT; ICE].

(** ** Text *)

(** Every whitespace character of [s] is a single space that follows a
    non-whitespace character, and [s] does not end in whitespace;
    [after_space] tells whether the character before [s] is whitespace. *)
Fixpoint spaced (s : string) (after_space : bool) : bool :=
  match s with
  | EmptyString => negb after_space
  | String c s' =>
      if Py.is_space c
      then negb after_space && Ascii.eqb c " " && spaced s' true
      else spaced s' false
  end.

(** The text is trimmed and its words are separated by single spaces. *)
Definition single_spaced (s : string) : bool :=
  match s with
  | EmptyString => true
  | _ => spaced s true
  end.

(** The characters of [s] that are not whitespace, in order. *)
Definition non_space (s : string) : list ascii :=
  List.filter (fun c => negb (Py.is_space c)) (list_ascii_of_string s).

(** The text does not start with whitespace. *)
Definition starts_clean (s : string) : bool :=
  match s with
  | EmptyString => true
  | String c _ => negb (Py.is_space c)
  end.

(** ** Sales *)

(** The lines of the completed orders of the history, in order. *)
Definition completed_lines (self : OrderService.t)
  : list OrderService.OrderItem :=
  flat_map OrderService.items
    (List.filter
       (fun order =>
          OrderService.OrderStatus_eqb (OrderService.status order)
            OrderService.COMPLETED)
       (OrderService.order_history self)).

(** The quantity of a menu sold in completed orders. *)
Definition sold_quantity (self : OrderService.t) (name : string) : Z :=
  Py.sum (map OrderService.quantity
              (List.filter
                 (fun line => String.eqb (OrderService.menu_name line) name)
                 (completed_lines self))).

(** The menu has a line in some completed order. *)
Definition sold (self : OrderService.t) (name : string) : Prop :=
  In name (map OrderService.menu_name (completed_lines self)).

(** The counts do not increase along the list. *)
Fixpoint descending (l : list (string * Z)) : bool :=
  match l with
  | a :: (b :: _) as rest => (snd b <=? snd a) && descending rest
  | _ => true
  end.

(** The amounts of the order are the ones [calculate_amounts] gives. *)
Definition amounts_consistent (settings : Settings)
    (order : OrderService.Order) : Prop :=
  OrderService.calculate_amounts settings order = order.

(** Every order the service holds, active or filed, has amounts that are
    up to date. *)
Definition amounts_up_to_date (settings : Settings) (self : OrderService.t)
  : Prop :=
  map_Forall (fun _ order => amounts_consistent settings order)
             (OrderService.orders self)
  /\ List.Forall (amounts_consistent settings)
                 (OrderService.order_history self).

(** ** Clock readings *)

(** The readings a [datetime] can hold, counted in microseconds from
    [datetime.min]; the last one is [datetime.max],
    9999-12-31 23:59:59.999999. *)
Definition datetime_max : Z := 3652059 * OrderService.microseconds_per_day - 1.

Definition representable (time : Z) : Prop := 0 <= time <= datetime_max.

(** The [days] a [timedelta] accepts. *)
Definition timedelta_days (days : Z) : Prop :=
  - 999999999 <= days <= 999999999.

(** ** Sequences of routing calls *)

(** The arguments of one call of [ServingRouter.route] and what its
    availability checks meet. *)
Record RouteCall := {
  query : string;
  force_local : bool;
  force_cloud : bool;
  obs1 : ServingRouter.Observation;
  obs2 : ServingRouter.Observation;
}.

Definition route_call (settings : Settings) (self : ServingRouter.t)
    (call : RouteCall) : ServingRouter.ServingDecision * ServingRouter.t :=
  ServingRouter.route settings self (query call) (force_local call)
    (force_cloud call) (obs1 call) (obs2 call).

(** The decisions of a sequence of calls on a router, in order, and the
    router afterwards. *)
Fixpoint run_routes (settings : Settings) (self : ServingRouter.t)
    (calls : list RouteCall)
  : list ServingRouter.ServingDecision * ServingRouter.t :=
  match calls with
  | [] => ([], self)
  | call :: rest =>
      let '(decision, self) := route_call settings self call in
      let '(decisions, self) := run_routes settings self rest in
      (decision :: decisions, self)
  end.

End Notions.

(* ================================================================== *)
(** * Pricing by size (MenuItem.get_price) *)
(* ================================================================== *)

Section Pricing.
Import MenuDatabase.

Lemma get_price_ignores_options (item : MenuItem) (size : option SizeOption)
    (sizes : list SizeOption) :
  get_price {| name := name item; category := category item;
               base_price := base_price item;
               description := description item;
               available := available item; size_options := sizes;
               temperature_options := temperature_options item;
               extra_options := extra_options item |} size
  = get_price item size.
Proof. destruct size as [[ | | ]|]; reflexivity. Qed.

(** C8, as amended.  For every menu item and every requested size,
    [get_price] is the base price plus the fixed delta of that size (0
    for Tall or no size, 500 for Grande, 1000 for Venti); the delta
    depends on the size alone and not on the item's [size_options]. *)
Theorem get_price_fixed_delta :
  forall (item : MenuItem) (size : option SizeOption),
    get_price item size = base_price item + Spec.size_delta size
    /\ (forall item' : MenuItem,
          get_price item' size - base_price item'
          = get_price item size - base_price item).
Proof.
  intros item size.
  assert (H : forall it, get_price it size
                         = base_price it + Spec.size_delta size).
  { intros it. destruct size as [[ | | ]|]; cbn; lia. }
  split; [apply H|].
  intros item'. rewrite (H item), (H item'). lia.
Qed.

(** C8, the claim as stated fails: the cake offers no size at all, and
    asking its Grande price still adds the Grande surcharge. *)
Lemma get_price_unsupported_size_surcharged :
  exists cake : MenuItem,
    get_menu_item "케이크" None = Some cake
    /\ size_options cake = []
    /\ Spec.supports_size cake (Some GRANDE) = false
    /\ get_price cake (Some GRANDE) = 6500
    /\ base_price cake + Spec.surcharge_if_supported cake (Some GRANDE) = 6000
    /\ get_price cake (Some GRANDE)
       <> base_price cake + Spec.surcharge_if_supported cake (Some GRANDE).
Proof.
  eexists. split; [reflexivity|].
  repeat split; try reflexivity. cbn. lia.
Qed.

End Pricing.

(* ================================================================== *)
(** * Order amounts (Order.calculate_amounts) *)
(* ================================================================== *)

Section Amounts.
Import OrderService.

(** On a non-negative rational, truncation toward zero is the floor. *)
Lemma int_of_Q_nonneg (q : Q) : (0 <= q)%Q -> Py.int_of_Q q = Qfloor q.
Proof.
  intros H. destruct q as [n d]. unfold Py.int_of_Q, Qfloor, Qle in *.
  cbn in *. apply Z.quot_div_nonneg; lia.
Qed.

Lemma int_of_Q_zero (q : Q) : (q == 0)%Q -> Py.int_of_Q q = 0.
Proof.
  intros H. destruct q as [n d]. unfold Py.int_of_Q, Qeq in *. cbn in *.
  assert (n = 0) as -> by lia. apply Z.quot_0_l. lia.
Qed.

Lemma calculate_amounts_tax (settings : Settings) (o : Order) :
  (0 <= tax_rate settings)%Q ->
  tax_amount (calculate_amounts settings o)
  = Py.int_of_Q (inject_Z (Py.sum (map subtotal (items o)))
                 * tax_rate settings).
Proof.
  intros Hrate. unfold calculate_amounts. cbn.
  destruct (Qlt_le_dec 0 (tax_rate settings)) as [Hpos|Hle]; [reflexivity|].
  symmetry. apply int_of_Q_zero.
  assert (Hz : (tax_rate settings == 0)%Q) by (apply Qle_antisym; assumption).
  rewrite Hz. apply Qmult_0_r.
Qed.

(** ** Orders built from the catalogue *)

Lemma dict_get_In {V} (d : list (string * V)) (n : string) (v : V) :
  Py.dict_get String.eqb d n = Some v -> In v (Py.dict_values d).
Proof.
  induction d as [|[k x] d IH]; simpl; [discriminate|].
  destruct (String.eqb k n); [intros [= ->]; now left|].
  intros H. right. now apply IH.
Qed.

Lemma search_all_In (menus : list (list (string * MenuDatabase.MenuItem)))
    (n : string) (it : MenuDatabase.MenuItem) :
  MenuDatabase.search_all menus n = Some it ->
  In it (concat (map Py.dict_values menus)).
Proof.
  induction menus as [|m menus IH]; simpl; [discriminate|].
  destruct (Py.dict_get String.eqb m n) as [x|] eqn:Hm.
  - intros [= ->]. apply in_or_app. left. eapply dict_get_In, Hm.
  - intros H. apply in_or_app. right. now apply IH.
Qed.

(** Every item the catalogue can answer with is one of its entries. *)
Lemma get_menu_item_In (n : string) (c : option MenuDatabase.MenuCategory)
    (it : MenuDatabase.MenuItem) :
  MenuDatabase.get_menu_item n c = Some it ->
  In it (concat (map Py.dict_values
                     (Py.dict_values MenuDatabase.MENU_DATABASE))).
Proof.
  destruct c as [c|]; cbn [MenuDatabase.get_menu_item].
  - intros H. apply dict_get_In in H.
    change (concat (map Py.dict_values
                        (Py.dict_values MenuDatabase.MENU_DATABASE)))
      with (Py.dict_values MenuDatabase.BEVERAGE_MENU
            ++ (Py.dict_values MenuDatabase.DESSERT_MENU
                ++ (Py.dict_values MenuDatabase.MEAL_MENU ++ [])))%list.
    rewrite !in_app_iff.
    destruct c;
      [ change (MenuDatabase.get_menu_by_category MenuDatabase.BEVERAGE)
          with MenuDatabase.BEVERAGE_MENU in H
      | change (MenuDatabase.get_menu_by_category MenuDatabase.DESSERT)
          with MenuDatabase.DESSERT_MENU in H
      | change (MenuDatabase.get_menu_by_category MenuDatabase.MEAL)
          with MenuDatabase.MEAL_MENU in H ]; tauto.
  - apply search_all_In.
Qed.

(** Every catalogue price is a multiple of 100. *)
Lemma catalogue_prices_round (n : string)
    (c : option MenuDatabase.MenuCategory) (it : MenuDatabase.MenuItem) :
  MenuDatabase.get_menu_item n c = Some it ->
  (100 | MenuDatabase.base_price it).
Proof.
  intros H. apply get_menu_item_In in H.
  assert (Hall : List.Forall
            (fun it => MenuDatabase.base_price it mod 100 = 0)
            (concat (map Py.dict_values
                         (Py.dict_values MenuDatabase.MENU_DATABASE)))).
  { cbn. repeat (apply List.Forall_cons; [reflexivity|]).
    apply List.Forall_nil. }
  apply Z.mod_divide; [lia|].
  exact (proj1 (List.Forall_forall _ _) Hall it H).
Qed.

Lemma get_price_round (it : MenuDatabase.MenuItem)
    (sz : option MenuDatabase.SizeOption) :
  (100 | MenuDatabase.base_price it) ->
  (100 | MenuDatabase.get_price it sz).
Proof.
  intros [k Hk]. unfold MenuDatabase.get_price. rewrite Hk.
  destruct sz as [[ | | ]|];
    [exists k|exists (k + 5)|exists (k + 10)|exists k]; lia.
Qed.

Lemma built_item_round (c : MenuDatabase.MenuCategory) (item_data : Item.t)
    (order_item : OrderItem) :
  build_order_item c item_data = Some order_item ->
  (100 | subtotal order_item).
Proof.
  unfold build_order_item.
  destruct (Item.menu item_data) as [n|]; [|discriminate].
  destruct (MenuDatabase.get_menu_item n (Some c)) as [mi|] eqn:Hmi;
    [|discriminate].
  intros [= <-]. unfold new_OrderItem, calculate_subtotal.
  cbn [menu_name size options quantity base_price].
  destruct (MenuDatabase.get_menu_item n None) as [mi'|] eqn:Hmi';
    cbn [set_subtotal subtotal].
  - apply Z.divide_mul_l. apply Z.divide_add_r.
    + apply get_price_round. eapply catalogue_prices_round, Hmi'.
    + exists (Z.of_nat (List.length
                match Item.options item_data with
                | Some o => o
                | None => []
                end) * 5). lia.
  - apply Z.divide_mul_l. eapply catalogue_prices_round, Hmi.
Qed.

Lemma built_items_round (c : MenuDatabase.MenuCategory)
    (items_data : list Item.t) :
  (100 | Py.sum (map subtotal (build_order_items c items_data))).
Proof.
  induction items_data as [|item_data rest IH]; cbn [build_order_items].
  - exists 0. reflexivity.
  - destruct (build_order_item c item_data) as [order_item|] eqn:Hb;
      [|exact IH].
    cbn [map Py.sum fold_right]. apply Z.divide_add_r; [|exact IH].
    eapply built_item_round, Hb.
Qed.

(** On an amount that the rate divides evenly, truncation and floor
    agree whatever the sign. *)
Lemma int_of_Q_exact (q : Q) :
  (Zpos (Qden q) | Qnum q) -> Py.int_of_Q q = Qfloor q.
Proof.
  destruct q as [n d]. unfold Py.int_of_Q, Qfloor. cbn [Qnum Qden].
  intros [k ->]. rewrite Z.quot_mul, Z.div_mul; lia.
Qed.

Lemma round_total_tax_exact (total : Z) (rate : Q) :
  (100 | total) ->
  (rate == 0 \/ rate == 0.1 \/ rate == 0.2)%Q ->
  Py.int_of_Q (inject_Z total * rate) = Qfloor (inject_Z total * rate).
Proof.
  intros [k ->] Hrate. apply int_of_Q_exact.
  destruct rate as [n d]. unfold Qeq in Hrate. cbn in Hrate |- *.
  destruct Hrate as [H|[H|H]].
  - exists 0. nia.
  - exists (10 * k). nia.
  - exists (20 * k). nia.
Qed.

(** ** The tax in binary64 *)

Lemma round_half_even_ge (n d c : Z) :
  0 < d -> c * d <= n -> c <= Py.round_half_even n d.
Proof.
  intros Hd Hc. unfold Py.round_half_even.
  assert (Hq : c <= n / d) by (apply Z.div_le_lower_bound; lia).
  destruct (2 * (n mod d) <? d); [exact Hq|].
  destruct (d <? 2 * (n mod d)); [lia|].
  destruct (Z.even (n / d)); lia.
Qed.

Lemma round_half_even_le (n d c : Z) :
  0 < d -> n <= c * d -> Py.round_half_even n d <= c.
Proof.
  intros Hd Hc. unfold Py.round_half_even.
  pose proof (Z.div_mod n d ltac:(lia)) as Hdm.
  pose proof (Z.mod_pos_bound n d Hd) as Hr.
  destruct (2 * (n mod d) <? d) eqn:E1.
  - nia.
  - apply Z.ltb_ge in E1.
    assert (Hlt : n / d < c) by nia.
    destruct (d <? 2 * (n mod d)); [lia|].
    destruct (Z.even (n / d)); lia.
Qed.

Lemma bit_length_bound (a b : Z) :
  0 < a -> a < 2 ^ b -> Py.bit_length a <= b.
Proof.
  intros Ha Hb. unfold Py.bit_length.
  destruct (Z_lt_le_dec b 0) as [Hneg|Hnn].
  - rewrite Z.pow_neg_r in Hb by lia. lia.
  - apply Z.log2_lt_pow2 in Hb; lia.
Qed.

Lemma bit_length_spec (a : Z) :
  0 < a -> 2 ^ (Py.bit_length a - 1) <= a < 2 ^ Py.bit_length a.
Proof.
  intros Ha. unfold Py.bit_length.
  replace (Z.log2 a + 1 - 1) with (Z.log2 a) by lia.
  replace (Z.log2 a + 1) with (Z.succ (Z.log2 a)) by lia.
  now apply Z.log2_spec.
Qed.

(** An [int] below 2^53 in absolute value is a float as it is. *)
Lemma float_of_int_exact (z : Z) :
  Z.abs z < 2 ^ 53 ->
  Py.float_of_int z = Some {| Py.mantissa := z; Py.exponent := 0 |}.
Proof.
  intros Hz. unfold Py.float_of_int, Py.float_round.
  destruct (Z.eqb_spec z 0) as [->|Hne]; [reflexivity|].
  assert (Hpos : forall a, 0 < a -> a < 2 ^ 53 ->
            Py.float_round_pos a 0
            = Some {| Py.mantissa := a; Py.exponent := 0 |}).
  { intros a Ha Hlt. unfold Py.float_round_pos.
    pose proof (bit_length_bound a 53 Ha Hlt) as Hbl.
    assert (Hs : (0 <? Z.max (Py.bit_length a - 53) (- 1074 - 0)) = false)
      by (apply Z.ltb_ge; lia).
    rewrite Hs. cbn [Py.mantissa Py.exponent].
    assert (Ho : (1024 <? Py.bit_length a + 0) = false)
      by (apply Z.ltb_ge; lia).
    now rewrite Ho, andb_false_r. }
  destruct (Z.ltb_spec z 0) as [Hneg|Hnn].
  - rewrite (Hpos (- z)) by lia. cbn. unfold Py.float_neg. cbn.
    now rewrite Z.opp_involutive.
  - apply Hpos; lia.
Qed.

(** The product of a positive [int] of a kiosk and a float [R * 2^-E]
    that is just above [1 / D], rounded and truncated, is the quotient by
    [D]. *)
Lemma float_round_pos_quotient (t R E D c : Z) :
  0 < t <= 10 ^ 15 ->
  2 ^ 52 <= R < 2 ^ 53 ->
  54 <= E <= 60 ->
  0 < D -> 0 <= c ->
  D * R = 2 ^ E + c ->
  c * 10 ^ 15 + c + 2 ^ 50 <= R ->
  exists f,
    Py.float_round_pos (t * R) (- E) = Some f
    /\ Py.int_of_float f = t / D
    /\ Py.int_of_float (Py.float_neg f) = - (t / D).
Proof.
  intros Ht HR HE HD Hc HDR Hroom.
  set (a := t * R).
  assert (Ha : 0 < a) by (subst a; nia).
  assert (Ha_hi : a < 2 ^ 103).
  { subst a. change (2 ^ 103) with (2 ^ 50 * 2 ^ 53).
    assert (10 ^ 15 < 2 ^ 50) by (vm_compute; reflexivity). nia. }
  pose proof (bit_length_bound a 103 Ha Ha_hi) as Hbl_hi.
  pose proof (bit_length_spec a Ha) as [Hlo Hhi].
  assert (Hbl_lo : 53 <= Py.bit_length a).
  { destruct (Z_lt_le_dec (Py.bit_length a) 53) as [Hlt|]; [|lia].
    assert (2 ^ Py.bit_length a <= 2 ^ 52)
      by (apply Z.pow_le_mono_r; lia).
    subst a. nia. }
  set (k := t / D).
  pose proof (Z.div_mod t D ltac:(lia)) as Hdm.
  pose proof (Z.mod_pos_bound t D HD) as Hj. fold k in Hdm.
  assert (Hk : 0 <= k) by (subst k; apply Z.div_pos; lia).
  assert (Hk_hi : k <= 10 ^ 15).
  { subst k. transitivity (t / 1); [|rewrite Z.div_1_r; lia].
    apply Z.div_le_compat_l; lia. }
  assert (HEpos : 0 < 2 ^ E) by (apply Z.pow_pos_nonneg; lia).
  unfold Py.float_round_pos. fold a.
  replace (Z.max (Py.bit_length a - 53) (- 1074 - - E))
    with (Py.bit_length a - 53) by lia.
  set (s := Py.bit_length a - 53).
  destruct (Z.ltb_spec 0 s) as [Hs|Hs].
  - (* the product is rounded to 53 bits *)
    set (P := 2 ^ s). set (U := 2 ^ (E - s)).
    assert (HP : 0 < P) by (apply Z.pow_pos_nonneg; lia).
    assert (HU : 0 < U) by (apply Z.pow_pos_nonneg; lia).
    assert (HUP : U * P = 2 ^ E).
    { subst U P. rewrite <- Z.pow_add_r by lia. f_equal. lia. }
    assert (HP_hi : P <= 2 ^ 50)
      by (subst P; apply Z.pow_le_mono_r; lia).
    set (m := Py.round_half_even a P).
    assert (Hsplit : a = k * 2 ^ E + k * c + (t mod D) * R).
    { subst a. rewrite Hdm at 1.
      replace ((D * k + t mod D) * R) with (k * (D * R) + (t mod D) * R)
        by ring.
      rewrite HDR. ring. }
    assert (Hkc : 0 <= k * c <= 10 ^ 15 * c).
    { split; [apply Z.mul_nonneg_nonneg; lia|].
      apply Z.mul_le_mono_nonneg_r; lia. }
    assert (HjR : 0 <= (t mod D) * R <= (D - 1) * R).
    { split; [apply Z.mul_nonneg_nonneg; lia|].
      apply Z.mul_le_mono_nonneg_r; lia. }
    replace ((D - 1) * R) with (2 ^ E + c - R) in HjR
      by (rewrite <- HDR; ring).
    assert (Hm_lo : k * U <= m).
    { apply round_half_even_ge; [exact HP|].
      replace (k * U * P) with (k * 2 ^ E) by (rewrite <- HUP; ring).
      lia. }
    assert (Hm_hi : m <= (k + 1) * U - 1).
    { apply round_half_even_le; [exact HP|].
      replace (((k + 1) * U - 1) * P) with (k * 2 ^ E + 2 ^ E - P)
        by (rewrite <- HUP; ring).
      lia. }
    assert (Hm_53 : m <= 2 ^ 53).
    { apply round_half_even_le; [exact HP|].
      replace (2 ^ 53 * P) with (2 ^ (Py.bit_length a))
        by (subst P s; rewrite <- Z.pow_add_r by lia; f_equal; lia).
      lia. }
    cbn [Py.mantissa Py.exponent]. fold m.
    assert (Ho : (0 <? m) && (1024 <? Py.bit_length m + (- E + s)) = false).
    { destruct (Z.ltb_spec 0 m) as [Hmpos|]; [|reflexivity].
      assert (Py.bit_length m <= 54).
      { apply bit_length_bound; [exact Hmpos|].
        change (2 ^ 54) with (2 * 2 ^ 53). lia. }
      apply Z.ltb_ge. lia. }
    rewrite Ho. eexists. split; [reflexivity|].
    unfold Py.int_of_float, Py.float_neg. cbn [Py.mantissa Py.exponent].
    assert (He : (0 <=? - E + s) = false) by (apply Z.leb_gt; lia).
    rewrite He. replace (- (- E + s)) with (E - s) by lia. fold U.
    assert (Hq : m / U = k).
    { symmetry. apply (Z.div_unique m U k (m - k * U)); lia. }
    rewrite Z.quot_opp_l by lia.
    rewrite Z.quot_div_nonneg by lia. now rewrite Hq.
  - (* the product has 53 bits: only [t = 1] *)
    assert (Hbl : Py.bit_length a = 53) by lia.
    rewrite Hbl in Hhi.
    assert (Ht1 : t = 1) by (subst a; nia).
    cbn [Py.mantissa Py.exponent].
    assert (Ho : (0 <? a) && (1024 <? Py.bit_length a + - E) = false).
    { rewrite Hbl. apply andb_false_iff. right. apply Z.ltb_ge. lia. }
    rewrite Ho. eexists. split; [reflexivity|].
    unfold Py.int_of_float, Py.float_neg. cbn [Py.mantissa Py.exponent].
    assert (He : (0 <=? - E) = false) by (apply Z.leb_gt; lia).
    rewrite He, Z.opp_involutive.
    assert (HaE : a < 2 ^ E).
    { assert (2 ^ 53 <= 2 ^ E) by (apply Z.pow_le_mono_r; lia). lia. }
    assert (Hk0 : k = 0).
    { subst k. apply Z.div_small. split; [lia|].
      subst t. assert (R < D * R) by lia. nia. }
    rewrite Z.quot_opp_l by lia.
    rewrite Z.quot_div_nonneg by lia.
    rewrite Z.div_small by lia. fold k. lia.
Qed.

Lemma int_of_Q_comp (p q : Q) : (p == q)%Q -> Py.int_of_Q p = Py.int_of_Q q.
Proof.
  destruct p as [n1 d1], q as [n2 d2]. unfold Qeq, Py.int_of_Q.
  cbn [Qnum Qden]. intros H.
  rewrite <- (Z.quot_mul_cancel_r n1 (Zpos d1) (Zpos d2)) by lia.
  rewrite <- (Z.quot_mul_cancel_r n2 (Zpos d2) (Zpos d1)) by lia.
  rewrite H. f_equal. lia.
Qed.

Lemma float_of_Q_comp (p q : Q) :
  (p == q)%Q -> Py.float_of_Q p = Py.float_of_Q q.
Proof.
  intros H. unfold Py.float_of_Q. now rewrite (Qred_complete p q H).
Qed.

Lemma float_of_tenth :
  Py.float_of_Q 0.1
  = Some {| Py.mantissa := 7205759403792794; Py.exponent := - 56 |}.
Proof. vm_compute. reflexivity. Qed.

Lemma float_of_fifth :
  Py.float_of_Q 0.2
  = Some {| Py.mantissa := 7205759403792794; Py.exponent := - 55 |}.
Proof. vm_compute. reflexivity. Qed.

Lemma int_mul_float_quotient (total : Z) (rate : Q) (R E : Z) (D : positive)
    (c : Z) :
  Spec.kiosk_amount total ->
  Py.float_of_Q rate = Some {| Py.mantissa := R; Py.exponent := - E |} ->
  (rate == 1 # D)%Q ->
  2 ^ 52 <= R < 2 ^ 53 ->
  54 <= E <= 60 ->
  0 <= c ->
  Zpos D * R = 2 ^ E + c ->
  c * 10 ^ 15 + c + 2 ^ 50 <= R ->
  Py.int_mul_float total rate
  = Some (Py.int_of_Q (inject_Z total * rate)).
Proof.
  intros [Hlo Hhi] Hrate Hq HR HE Hc HDR Hroom.
  assert (H53 : 10 ^ 15 < 2 ^ 53) by (vm_compute; reflexivity).
  assert (Hexact : Py.int_of_Q (inject_Z total * rate) = Z.quot total (Zpos D)).
  { rewrite (int_of_Q_comp _ (inject_Z total * (1 # D))) by now rewrite Hq.
    unfold Py.int_of_Q. cbn [Qnum Qden Qmult inject_Z].
    now rewrite Z.mul_1_r, Pos.mul_1_l. }
  rewrite Hexact. unfold Py.int_mul_float.
  rewrite float_of_int_exact by lia. rewrite Hrate.
  unfold Py.float_mul. cbn [Py.mantissa Py.exponent]. rewrite Z.add_0_l.
  unfold Py.float_round.
  destruct (Z.eqb_spec (total * R) 0) as [H0|Hne].
  - assert (total = 0).
    { apply Z.mul_eq_0 in H0. destruct H0; [assumption|lia]. }
    subst total. reflexivity.
  - destruct (Z.ltb_spec (total * R) 0) as [Hneg|Hpos].
    + assert (Ht : 0 < - total <= 10 ^ 15).
      { split; [|lia]. destruct (Z_lt_le_dec total 0); [lia|].
        assert (0 <= total * R) by (apply Z.mul_nonneg_nonneg; lia). lia. }
      destruct (float_round_pos_quotient (- total) R E (Zpos D) c Ht HR HE
                  ltac:(lia) Hc HDR Hroom) as (f & Hf & _ & Hi).
      replace (- (total * R)) with (- total * R) by ring.
      rewrite Hf. cbn [option_map]. rewrite Hi. f_equal.
      rewrite <- Z.quot_div_nonneg by lia.
      rewrite Z.quot_opp_l by lia. lia.
    + assert (Ht : 0 < total <= 10 ^ 15).
      { split; [|lia]. destruct (Z_lt_le_dec 0 total); [lia|].
        assert (total * R <= 0) by (apply Z.mul_nonpos_nonneg; lia). lia. }
      destruct (float_round_pos_quotient total R E (Zpos D) c Ht HR HE
                  ltac:(lia) Hc HDR Hroom) as (f & Hf & Hi & _).
      rewrite Hf. cbn [option_map]. rewrite Hi. f_equal.
      now rewrite Z.quot_div_nonneg by lia.
Qed.

(** For the totals of a kiosk and the rates 0.1 and 0.2, [int(total *
    rate)] in binary64 is the exact product truncated toward zero. *)
Lemma int_mul_float_exact (total : Z) (rate : Q) :
  Spec.kiosk_amount total ->
  (rate == 0.1 \/ rate == 0.2)%Q ->
  Py.int_mul_float total rate
  = Some (Py.int_of_Q (inject_Z total * rate)).
Proof.
  intros Ht [Hr|Hr].
  - apply (int_mul_float_quotient total rate 7205759403792794 56 10 4 Ht);
      [ rewrite (float_of_Q_comp rate 0.1 Hr); exact float_of_tenth
      | rewrite Hr; reflexivity
      | vm_compute; split; [discriminate|reflexivity]
      | vm_compute; split; discriminate
      | discriminate
      | reflexivity
      | vm_compute; discriminate ].
  - apply (int_mul_float_quotient total rate 7205759403792794 55 5 2 Ht);
      [ rewrite (float_of_Q_comp rate 0.2 Hr); exact float_of_fifth
      | rewrite Hr; reflexivity
      | vm_compute; split; [discriminate|reflexivity]
      | vm_compute; split; discriminate
      | discriminate
      | reflexivity
      | vm_compute; discriminate ].
Qed.

(** For an order of a kiosk, the tax that [calculate_amounts] holds is
    the tax the interpreter computes in binary64, and nothing is
    raised. *)
Lemma tax_in_binary64_exact (settings : Settings) (o : OrderService.Order) :
  Spec.configured_rate settings ->
  Spec.kiosk_amount (Py.sum (map OrderService.subtotal (OrderService.items o))) ->
  OrderService.tax_in_binary64 settings
    (Py.sum (map OrderService.subtotal (OrderService.items o)))
  = Some (OrderService.tax_amount (OrderService.calculate_amounts settings o)).
Proof.
  intros Hrate Ht.
  unfold OrderService.tax_in_binary64, OrderService.calculate_amounts.
  cbn [OrderService.tax_amount OrderService.items].
  destruct (Qlt_le_dec 0 (tax_rate settings)) as [Hpos|Hle]; [|reflexivity].
  destruct Hrate as [H0|Hrate]; [rewrite H0 in Hpos; discriminate|].
  rewrite <- (int_mul_float_exact _ _ Ht Hrate).
  destruct Hrate as [Hr|Hr].
  - rewrite (float_of_Q_comp _ 0.1 Hr), float_of_tenth. reflexivity.
  - rewrite (float_of_Q_comp _ 0.2 Hr), float_of_fifth. reflexivity.
Qed.

(** Beyond the totals of a kiosk the two part: at 7000000000000009 and
    the rate 0.1 the interpreter's tax is one above the exact quotient,
    and a total beyond the floats raises. *)
Lemma tax_in_binary64_beyond_kiosk :
  OrderService.tax_in_binary64 default_settings 7000000000000009
  = Some 700000000000001
  /\ Py.int_of_Q (inject_Z 7000000000000009 * tax_rate default_settings)
     = 700000000000000
  /\ OrderService.tax_in_binary64 default_settings (2 ^ 1024) = None.
Proof. vm_compute. repeat split. Qed.

(** C1, as amended.  For every order whose subtotals sum to at most
    10^15 in absolute value and for the tax rates 0, 0.1 and 0.2,
    [calculate_amounts] leaves [total_amount] equal to the sum of the
    items' subtotals, [tax_amount] equal to what [int(total_amount *
    tax_rate)] gives in binary64, which is [total_amount * tax_rate]
    truncated toward zero -- 0 when the rate is 0, and
    [floor(total_amount * tax_rate)] whenever the total is not negative
    or the items were built by [create_order_from_items] from the
    catalogue -- and [final_amount] equal to their sum. *)
Theorem calculate_amounts_invariant :
  forall (settings : Settings) (o : Order),
    Spec.configured_rate settings ->
    Spec.kiosk_amount (Py.sum (map subtotal (items o))) ->
    let o' := calculate_amounts settings o in
    items o' = items o
    /\ total_amount o' = Py.sum (map subtotal (items o))
    /\ tax_in_binary64 settings (total_amount o') = Some (tax_amount o')
    /\ tax_amount o'
       = Py.int_of_Q (inject_Z (total_amount o') * tax_rate settings)
    /\ ((tax_rate settings == 0)%Q -> tax_amount o' = 0)
    /\ (0 <= total_amount o'
        \/ (exists c items_data, items o = build_order_items c items_data) ->
        tax_amount o'
        = Qfloor (inject_Z (total_amount o') * tax_rate settings))
    /\ final_amount o' = total_amount o' + tax_amount o'.
Proof.
  intros settings o Hrate Hkiosk o'.
  assert (Hnn : (0 <= tax_rate settings)%Q).
  { destruct Hrate as [H|[H|H]]; rewrite H; discriminate. }
  assert (Htax := calculate_amounts_tax settings o Hnn).
  split; [reflexivity|]. split; [reflexivity|].
  split; [exact (tax_in_binary64_exact settings o Hrate Hkiosk)|].
  split; [exact Htax|].
  split.
  - intros Hz. subst o'. rewrite Htax. apply int_of_Q_zero.
    rewrite Hz. apply Qmult_0_r.
  - split; [|reflexivity].
    subst o'. rewrite Htax. cbn [calculate_amounts total_amount].
    intros [Htot|(c & items_data & Hbuilt)].
    + apply int_of_Q_nonneg.
      apply Qmult_le_0_compat; [|exact Hnn].
      change 0%Q with (inject_Z 0). rewrite <- Zle_Qle. exact Htot.
    + apply round_total_tax_exact; [|exact Hrate].
      rewrite Hbuilt. apply built_items_round.
Qed.

Lemma calculate_amounts_invariant_witness :
  Spec.configured_rate default_settings
  /\ Spec.kiosk_amount (Py.sum (map subtotal (items Spec.sample_order)))
  /\ total_amount (calculate_amounts default_settings Spec.sample_order)
     = 11000
  /\ tax_in_binary64 default_settings 11000 = Some 1100
  /\ tax_amount (calculate_amounts default_settings Spec.sample_order)
     = Qfloor (inject_Z 11000 * 0.1)
  /\ final_amount (calculate_amounts default_settings Spec.sample_order)
     = 12100.
Proof.
  assert (Hrate : Spec.configured_rate default_settings)
    by (right; left; reflexivity).
  assert (Hkiosk : Spec.kiosk_amount
                     (Py.sum (map subtotal (items Spec.sample_order))))
    by (vm_compute; split; discriminate).
  destruct (calculate_amounts_invariant default_settings Spec.sample_order
              Hrate Hkiosk) as (_ & Htotal & Hfloat & _ & _ & Hfloor & Hfinal).
  split; [exact Hrate|]. split; [exact Hkiosk|].
  split; [rewrite Htotal; reflexivity|].
  split; [exact Hfloat|].
  split; [rewrite Hfloor; [reflexivity | left; rewrite Htotal; vm_compute; discriminate]|].
  rewrite Hfinal. reflexivity.
Defined.

(** C1, the claim as stated fails on a negative total: a coupon line of
    -5 gives [int(-0.5) = 0], where the floor is -1. *)
Lemma calculate_amounts_negative_total_not_floor :
  tax_rate default_settings = 0.1%Q
  /\ total_amount Spec.coupon_order = -5
  /\ tax_amount Spec.coupon_order = 0
  /\ Qfloor (inject_Z (total_amount Spec.coupon_order)
             * tax_rate default_settings) = -1
  /\ tax_amount Spec.coupon_order
     <> Qfloor (inject_Z (total_amount Spec.coupon_order)
                * tax_rate default_settings).
Proof. repeat split; try reflexivity. vm_compute. discriminate. Qed.

End Amounts.

(* ================================================================== *)
(** * Item-list validation (OrderValidator.validate_order_items) *)
(* ================================================================== *)

Section ItemValidation.
Import Validators.

Lemma string_app_assoc (a b c : string) : (a ++ b) ++ c = a ++ (b ++ c).
Proof.
  induction a as [|x a IH]; [reflexivity|].
  change (String x ((a ++ b) ++ c) = String x (a ++ (b ++ c))).
  now f_equal.
Qed.

Lemma item_tag_tagged (idx : nat) (msg : string) :
  item_tag idx ++ msg = Spec.tagged (S idx) msg.
Proof.
  unfold item_tag, Spec.tagged.
  replace (idx + 1)%nat with (S idx) by lia.
  now rewrite !string_app_assoc.
Qed.

Lemma validate_quantity_valid (q : Z) :
  is_valid (validate_quantity q) = negb ((q <? 1) || (99 <? q)).
Proof.
  unfold validate_quantity.
  destruct (q <? 1) eqn:E1; [reflexivity|].
  rewrite Z.gtb_ltb. destruct (99 <? q); reflexivity.
Qed.

Lemma validate_quantity_too_large (q : Z) :
  99 < q ->
  validate_quantity q
  = {| is_valid := false;
       message := "한 번에 최대 99개까지 주문 가능합니다.";
       data := None; errors := ["quantity_too_large"] |}.
Proof.
  intros H. unfold validate_quantity.
  destruct (q <? 1) eqn:E1; [apply Z.ltb_lt in E1; lia|].
  rewrite Z.gtb_ltb. destruct (99 <? q) eqn:E2; [reflexivity|].
  apply Z.ltb_ge in E2. lia.
Qed.

Lemma size_check_bad (item : Item.t) (menu : string)
    (menu_item : MenuDatabase.MenuItem) :
  MenuDatabase.get_menu_item menu None = Some menu_item ->
  (exists msg, size_check item menu = Some msg
               /\ Spec.bad_size item menu_item = true)
  \/ (size_check item menu = None /\ Spec.bad_size item menu_item = false).
Proof.
  intros Hm. unfold size_check, Spec.bad_size, Spec.given, validate_size.
  destruct (Item.size item) as [s|]; [|right; split; reflexivity].
  destruct (Py.truthy s); [|right; split; reflexivity].
  destruct (Py.dict_get String.eqb size_map (Py.lower s)) as [sz|].
  - rewrite Hm.
    destruct (size_in sz (MenuDatabase.size_options menu_item)); cbn.
    + right; split; reflexivity.
    + left. eexists. split; reflexivity.
  - cbn. left. eexists. split; reflexivity.
Qed.

Lemma temperature_check_bad (item : Item.t) (menu : string)
    (menu_item : MenuDatabase.MenuItem) :
  MenuDatabase.get_menu_item menu None = Some menu_item ->
  (exists msg, temperature_check item menu = Some msg
               /\ Spec.bad_temperature item menu_item = true)
  \/ (temperature_check item menu = None
      /\ Spec.bad_temperature item menu_item = false).
Proof.
  intros Hm.
  unfold temperature_check, Spec.bad_temperature, Spec.given,
    validate_temperature.
  destruct (Item.temperature item) as [s|]; [|right; split; reflexivity].
  destruct (Py.truthy s); [|right; split; reflexivity].
  destruct (Py.dict_get String.eqb temp_map (Py.lower s)) as [tp|].
  - rewrite Hm.
    destruct (temperature_in tp (MenuDatabase.temperature_options menu_item));
      cbn.
    + right; split; reflexivity.
    + left. eexists. split; reflexivity.
  - cbn. left. eexists. split; reflexivity.
Qed.

(** One iteration appends an error exactly for a failing item, and the
    error carries the item's 1-based position. *)
Lemma check_item_spec (idx : nat) (item : Item.t) :
  (exists msg, check_item idx item = Some (Spec.tagged (S idx) msg)
               /\ Spec.item_fails item = true)
  \/ (check_item idx item = None /\ Spec.item_fails item = false).
Proof.
  unfold check_item, Spec.item_fails.
  destruct (Item.menu item) as [menu|].
  2:{ left. eexists. rewrite item_tag_tagged. split; reflexivity. }
  destruct (Item.quantity item) as [q|].
  2:{ left. eexists. rewrite item_tag_tagged. split; reflexivity. }
  unfold validate_menu_item.
  destruct (MenuDatabase.get_menu_item menu None) as [menu_item|] eqn:Hm.
  2:{ cbn. left. eexists. rewrite item_tag_tagged. split; reflexivity. }
  destruct (MenuDatabase.available menu_item); cbn [negb is_valid message].
  2:{ left. eexists. rewrite item_tag_tagged. split; reflexivity. }
  rewrite validate_quantity_valid, negb_involutive.
  destruct ((q <? 1) || (99 <? q)) eqn:Eq.
  { left. eexists. rewrite item_tag_tagged. split; [reflexivity|].
    cbn. now rewrite <- orb_assoc, Eq. }
  apply orb_false_elim in Eq as [Eq1 Eq2]. rewrite Eq1, Eq2. cbn [orb].
  destruct (size_check_bad item menu menu_item Hm)
    as [(msg & -> & ->)|[-> ->]].
  { left. eexists. rewrite item_tag_tagged. split; reflexivity. }
  destruct (temperature_check_bad item menu menu_item Hm)
    as [(msg & -> & ->)|[-> ->]].
  { left. eexists. rewrite item_tag_tagged. split; reflexivity. }
  right. split; reflexivity.
Qed.

Lemma one_error_per_position_app (ps1 ps2 : list nat) (e1 e2 : list string) :
  Spec.one_error_per_position ps1 e1 ->
  Spec.one_error_per_position ps2 e2 ->
  Spec.one_error_per_position (ps1 ++ ps2)%list (e1 ++ e2)%list.
Proof.
  revert e1. induction ps1 as [|p ps1 IH]; intros [|e e1] H1 H2;
    cbn in *; try contradiction; [exact H2|].
  destruct H1 as [Hm H1]. split; [exact Hm|]. now apply IH.
Qed.

Lemma one_error_per_position_length (ps : list nat) (es : list string) :
  Spec.one_error_per_position ps es -> List.length es = List.length ps.
Proof.
  revert es. induction ps as [|p ps IH]; intros [|e es] H; cbn in *;
    try contradiction; [reflexivity|].
  destruct H as [_ H]. now rewrite (IH es H).
Qed.

(** The loop: the accumulators grow by one tagged error per failing item
    and by the items that pass, in order. *)
Lemma validate_loop_spec (items : list Item.t) :
  forall (idx : nat) (errs : list string) (vals : list Item.t),
  exists new_errs,
    validate_loop idx items errs vals
    = ((errs ++ new_errs)%list,
       (vals ++ List.filter (fun it => negb (Spec.item_fails it)) items)%list)
    /\ Spec.one_error_per_position
         (Spec.failing_positions (S idx) items) new_errs.
Proof.
  induction items as [|item rest IH]; intros idx errs vals; cbn.
  - exists []. rewrite !app_nil_r. split; [reflexivity|exact I].
  - destruct (check_item_spec idx item) as [(msg & -> & ->)|[-> ->]]; cbn.
    + destruct (IH (S idx) (errs ++ [Spec.tagged (S idx) msg])%list vals)
        as (new_errs & -> & Hper).
      exists (Spec.tagged (S idx) msg :: new_errs).
      rewrite <- app_assoc. split; [reflexivity|].
      split; [now exists msg|exact Hper].
    + destruct (IH (S idx) errs (vals ++ [item])%list) as (new_errs & -> & Hper).
      exists new_errs. rewrite <- app_assoc. split; [reflexivity|exact Hper].
Qed.

Lemma failing_positions_nil (pos : nat) (items : list Item.t) :
  Spec.failing_positions pos items = []
  <-> existsb Spec.item_fails items = false.
Proof.
  revert pos. induction items as [|item rest IH]; intros pos; cbn.
  - tauto.
  - destruct (Spec.item_fails item); cbn; [split; discriminate|apply IH].
Qed.

Lemma filter_passing_all (items : list Item.t) :
  existsb Spec.item_fails items = false ->
  List.filter (fun it => negb (Spec.item_fails it)) items = items.
Proof.
  induction items as [|item rest IH]; simpl; [reflexivity|].
  destruct (Spec.item_fails item); simpl; [discriminate|].
  intros H. now rewrite IH.
Qed.

(** An error already recorded stays recorded. *)
Lemma validate_loop_keeps (items : list Item.t) :
  forall (idx : nat) (errs : list string) (vals : list Item.t) (e : string),
    In e errs -> In e (fst (validate_loop idx items errs vals)).
Proof.
  induction items as [|item rest IH]; intros idx errs vals e He; cbn;
    [exact He|].
  destruct (check_item idx item); apply IH; [|exact He].
  apply in_or_app. now left.
Qed.

(** The error of the item at offset [i] is among the errors returned. *)
Lemma validate_loop_records (items : list Item.t) :
  forall (idx i : nat) (errs : list string) (vals : list Item.t)
         (item : Item.t) (e : string),
    nth_error items i = Some item ->
    check_item (idx + i) item = Some e ->
    In e (fst (validate_loop idx items errs vals)).
Proof.
  induction items as [|item0 rest IH]; intros idx i errs vals item e Hn Hc.
  - destruct i; discriminate.
  - destruct i as [|i]; cbn in Hn.
    + injection Hn as ->. rewrite Nat.add_0_r in Hc. cbn. rewrite Hc.
      apply validate_loop_keeps. apply in_or_app. right. now left.
    + cbn. replace (idx + S i)%nat with (S idx + i)%nat in Hc by lia.
      destruct (check_item idx item0); eapply IH; eassumption.
Qed.

Lemma check_item_excessive_quantity (idx : nat) (item : Item.t)
    (menu : string) (menu_item : MenuDatabase.MenuItem) (q : Z) :
  Item.menu item = Some menu ->
  Item.quantity item = Some q ->
  MenuDatabase.get_menu_item menu None = Some menu_item ->
  MenuDatabase.available menu_item = true ->
  99 < q ->
  check_item idx item
  = Some (Spec.tagged (S idx) "한 번에 최대 99개까지 주문 가능합니다.").
Proof.
  intros Hm Hq Hg Ha Hlt. unfold check_item, validate_menu_item.
  rewrite Hm, Hq, Hg, Ha. cbn [negb is_valid message].
  rewrite (validate_quantity_too_large q Hlt). cbn [negb is_valid message].
  now rewrite item_tag_tagged.
Qed.

Lemma validate_order_items_cases (items : list Item.t) :
  items <> [] ->
  exists new_errs,
    validate_loop 0 items [] []
    = (new_errs, List.filter (fun it => negb (Spec.item_fails it)) items)
    /\ Spec.one_error_per_position (Spec.failing_positions 1 items) new_errs
    /\ validate_order_items items
       = match new_errs with
         | _ :: _ =>
             {| is_valid := false;
                message := "일부 주문 항목이 유효하지 않습니다.";
                data := None; errors := new_errs |}
         | [] =>
             {| is_valid := true; message := "모든 주문 항목이 유효합니다.";
                data := Some (List.filter
                                (fun it => negb (Spec.item_fails it)) items);
                errors := [] |}
         end.
Proof.
  intros Hne.
  destruct (validate_loop_spec items 0 [] []) as (new_errs & Hloop & Hper).
  cbn [app] in Hloop. exists new_errs.
  split; [exact Hloop|]. split; [exact Hper|].
  unfold validate_order_items.
  destruct items as [|item0 rest]; [contradiction|].
  rewrite Hloop. destruct new_errs; reflexivity.
Qed.

Lemma failing_positions_length (pos : nat) (items : list Item.t) :
  List.length (Spec.failing_positions pos items)
  = List.length (List.filter Spec.item_fails items).
Proof.
  revert pos. induction items as [|x l IH]; intros pos; simpl;
    [reflexivity|].
  destruct (Spec.item_fails x); simpl; now rewrite IH.
Qed.

(** C2.  On a non-empty list, [validate_order_items] is all-or-nothing:
    the list is valid exactly when no item fails; if some item fails the
    result is invalid, carries no data, and its errors are one message
    per failing item, each tagged with the item's 1-based position, in
    order; if none fails every item is returned.  In particular a list
    that holds, at any position, an item for "아메리카노" with quantity
    150 is rejected with the excessive-quantity message at that
    position. *)
Theorem validate_order_items_all_or_nothing :
  forall items : list Item.t,
    items <> [] ->
    let r := validate_order_items items in
    is_valid r = negb (existsb Spec.item_fails items)
    /\ (existsb Spec.item_fails items = true ->
        is_valid r = false /\ data r = None
        /\ Spec.one_error_per_position
             (Spec.failing_positions 1 items) (errors r)
        /\ List.length (errors r)
           = List.length (List.filter Spec.item_fails items))
    /\ (existsb Spec.item_fails items = false ->
        is_valid r = true /\ data r = Some items /\ errors r = [])
    /\ (forall (i : nat) (item : Item.t),
          nth_error items i = Some item ->
          Item.menu item = Some "아메리카노" ->
          Item.quantity item = Some 150 ->
          is_valid r = false
          /\ In (Spec.tagged (S i) "한 번에 최대 99개까지 주문 가능합니다.")
                (errors r)).
Proof.
  intros items Hne r. subst r.
  destruct (validate_order_items_cases items Hne)
    as (new_errs & Hloop & Hper & Hr).
  rewrite Hr. clear Hr.
  assert (Hfail : existsb Spec.item_fails items = true ->
                  exists e es, new_errs = e :: es).
  { intros Hex. destruct new_errs as [|e es]; [|now exists e, es].
    destruct (Spec.failing_positions 1 items) eqn:Hp; [|contradiction].
    apply failing_positions_nil in Hp. congruence. }
  assert (Hpass : existsb Spec.item_fails items = false -> new_errs = []).
  { intros Hex.
    pose proof (proj2 (failing_positions_nil 1 items) Hex) as Hp.
    rewrite Hp in Hper. now destruct new_errs. }
  split.
  { destruct (existsb Spec.item_fails items) eqn:Hex.
    - destruct (Hfail eq_refl) as (e & es & ->). reflexivity.
    - rewrite (Hpass eq_refl). reflexivity. }
  split.
  { intros Hex. destruct (Hfail Hex) as (e & es & ->).
    cbn [is_valid data errors]. repeat split; [exact Hper|].
    rewrite (one_error_per_position_length _ _ Hper).
    apply failing_positions_length. }
  split.
  { intros Hex. rewrite (Hpass Hex). cbn [is_valid data errors].
    rewrite (filter_passing_all items Hex). repeat split. }
  intros i item Hn Hm Hq.
  assert (Hc : check_item (0 + i) item
               = Some (Spec.tagged (S i)
                         "한 번에 최대 99개까지 주문 가능합니다.")).
  { eapply check_item_excessive_quantity; try eassumption;
      [reflexivity|reflexivity|lia]. }
  pose proof (validate_loop_records items 0 i [] [] item _ Hn Hc) as Hin.
  rewrite Hloop in Hin. cbn [fst] in Hin.
  destruct new_errs as [|e es]; [destruct Hin|].
  cbn [is_valid errors]. split; [reflexivity|exact Hin].
Qed.

End ItemValidation.

Lemma validate_order_items_all_or_nothing_witness :
  Spec.excessive_items <> []
  /\ Validators.is_valid (Validators.validate_order_items Spec.excessive_items)
     = false
  /\ In (Spec.tagged 1 "한 번에 최대 99개까지 주문 가능합니다.")
        (Validators.errors
           (Validators.validate_order_items Spec.excessive_items)).
Proof.
  assert (Hne : Spec.excessive_items <> []) by discriminate.
  split; [exact Hne|].
  destruct (validate_order_items_all_or_nothing Spec.excessive_items Hne)
    as (_ & _ & _ & Hex).
  apply (Hex 0%nat _ eq_refl eq_refl eq_refl).
Defined.

(* ================================================================== *)
(** * Deterministic fallback extraction (LLMService._fallback_extraction) *)
(* ================================================================== *)

Section FallbackExtraction.
Import LLMService.

Lemma fallback_loop_length (order_text order_lower : string)
    (menus : list string) :
  (List.length (fallback_loop order_text order_lower menus) <= 1)%nat.
Proof.
  induction menus as [|m rest IH]; simpl; [lia|].
  destruct (menu_matches order_lower m); simpl; [lia|exact IH].
Qed.

Lemma fallback_loop_nil (order_text order_lower : string)
    (menus : list string) :
  fallback_loop order_text order_lower menus = []
  <-> (forall m, In m menus -> menu_matches order_lower m = false).
Proof.
  induction menus as [|m rest IH]; simpl.
  - split; [intros _ m []|reflexivity].
  - destruct (menu_matches order_lower m) eqn:Hm.
    + split; [discriminate|]. intros H.
      specialize (H m (or_introl eq_refl)). congruence.
    + rewrite IH. split.
      * intros H m' [<-|Hin]; [exact Hm|now apply H].
      * intros H m' Hin. apply H. now right.
Qed.

Lemma fallback_loop_first (order_text order_lower : string)
    (menus : list string) (item : Item.t) :
  In item (fallback_loop order_text order_lower menus) ->
  exists before menu after,
    menus = (before ++ menu :: after)%list
    /\ (forall m, In m before -> menu_matches order_lower m = false)
    /\ menu_matches order_lower menu = true
    /\ fallback_loop order_text order_lower menus
       = [fallback_item order_text order_lower menu]
    /\ item = fallback_item order_text order_lower menu.
Proof.
  induction menus as [|m rest IH]; simpl; [intros []|].
  destruct (menu_matches order_lower m) eqn:Hm.
  - intros [<-|[]]. exists [], m, rest. repeat split; auto.
    intros m' [].
  - intros Hin. destruct (IH Hin) as (before & menu & after & -> & Hb & Ht & Hl & Hi).
    exists (m :: before), menu, after. repeat split; auto.
    intros m' [<-|Hin']; [exact Hm|now apply Hb].
Qed.

(** The loop stops at a menu name that matches when every other name of
    the list does not. *)
Lemma fallback_loop_hit (order_text order_lower : string)
    (menus : list string) (target : string) :
  In target menus ->
  menu_matches order_lower target = true ->
  (forall m, In m menus ->
             m = target \/ menu_matches order_lower m = false) ->
  fallback_loop order_text order_lower menus
  = [fallback_item order_text order_lower target].
Proof.
  intros Hin Ht Hothers.
  induction menus as [|m rest IH]; [destruct Hin|].
  cbn [fallback_loop].
  destruct (Hothers m (or_introl eq_refl)) as [->|Hno].
  - now rewrite Ht.
  - rewrite Hno. apply IH.
    + destruct Hin as [<-|Hin]; [congruence|exact Hin].
    + intros m' Hm'. apply Hothers. now right.
Qed.

(** Among the catalogue's menu names, only "아메리카노" matches the text
    "아메리카노 2개". *)
Lemma only_americano_matches :
  Forall (fun m => m = "아메리카노"
                   \/ menu_matches (Py.lower "아메리카노 2개") m = false)
         MenuDatabase.get_all_menu_names.
Proof.
  apply List.Forall_forall. intros m Hm. vm_compute in Hm.
  repeat (destruct Hm as [<-|Hm];
          [first [left; reflexivity | right; vm_compute; reflexivity]|]).
  destruct Hm.
Qed.

(** The catalogue's menu names and the order text of the scenario are
    made of ASCII characters and Hangul syllables. *)
Lemma catalogue_names_plain :
  forallb Py.is_plain MenuDatabase.get_all_menu_names = true
  /\ Py.is_plain "아메리카노 2개" = true.
Proof. split; vm_compute; reflexivity. Qed.

(** C3.  On an order text and menu names made of ASCII characters and
    Hangul syllables, where [Py.lower] and [Py.split] are [str.lower] and
    [str.split], the fallback extractor is a total function of the order
    text and the menu list.  It returns at most one item; it returns the
    empty list exactly when no menu name matches the lowercased text (by
    its full name or by a token of more than two characters); and an item
    it returns is built from the first menu name, in list order, that
    matches.  In particular, for the text "아메리카노 2개" and any list of
    catalogue menu names that holds "아메리카노", it returns exactly the
    item with menu "아메리카노", quantity 2, no size and no temperature. *)
Theorem fallback_extraction_first_match :
  (forall (order_text : string) (available_menus : list string),
     Py.is_plain order_text = true ->
     List.Forall (fun m => Py.is_plain m = true) available_menus ->
     let order_lower := Py.lower order_text in
     let r := _fallback_extraction order_text available_menus in
     (List.length r <= 1)%nat
     /\ (r = [] <->
         forall m, In m available_menus ->
                   menu_matches order_lower m = false)
     /\ (forall item, In item r ->
         exists before menu after,
           available_menus = (before ++ menu :: after)%list
           /\ (forall m, In m before -> menu_matches order_lower m = false)
           /\ menu_matches order_lower menu = true
           /\ Item.menu item = Some menu
           /\ r = [item]))
  /\ (forall available_menus : list string,
        (forall m, In m available_menus ->
                   In m MenuDatabase.get_all_menu_names) ->
        In "아메리카노" available_menus ->
        _fallback_extraction "아메리카노 2개" available_menus
        = [Spec.two_americanos]).
Proof.
  split.
  - intros order_text menus _ _ order_lower r. subst r order_lower.
    unfold _fallback_extraction.
    split; [apply fallback_loop_length|].
    split; [apply fallback_loop_nil|].
    intros item Hin.
    destruct (fallback_loop_first _ _ _ _ Hin)
      as (before & menu & after & Hsplit & Hb & Ht & Hl & Hi).
    exists before, menu, after. rewrite Hl, Hi. repeat split; auto.
  - intros menus Hcat Hin. unfold _fallback_extraction.
    rewrite (fallback_loop_hit _ _ menus "아메리카노" Hin);
      [reflexivity|reflexivity|].
    intros m Hm.
    exact (proj1 (List.Forall_forall _ _) only_americano_matches m
             (Hcat m Hm)).
Qed.

Lemma fallback_extraction_first_match_witness :
  Py.is_plain "라떼 hot" = true
  /\ List.Forall (fun m => Py.is_plain m = true) Spec.beverage_names
  /\ (List.length (_fallback_extraction "라떼 hot" Spec.beverage_names)
      <= 1)%nat
  /\ (forall m, In m Spec.beverage_names -> In m MenuDatabase.get_all_menu_names)
  /\ In "아메리카노" Spec.beverage_names
  /\ _fallback_extraction "아메리카노 2개" Spec.beverage_names
     = [Spec.two_americanos].
Proof.
  assert (H0 : Py.is_plain "라떼 hot" = true) by reflexivity.
  assert (Hp : List.Forall (fun m => Py.is_plain m = true)
                 Spec.beverage_names).
  { apply List.Forall_forall. intros m Hm. vm_compute in Hm.
    repeat (destruct Hm as [<-|Hm]; [reflexivity|]). destruct Hm. }
  assert (H1 : forall m, In m Spec.beverage_names ->
                         In m MenuDatabase.get_all_menu_names).
  { intros m Hm. vm_compute in Hm |- *. tauto. }
  assert (H2 : In "아메리카노" Spec.beverage_names) by (left; reflexivity).
  split; [exact H0|]. split; [exact Hp|].
  split;
    [exact (proj1 (proj1 fallback_extraction_first_match "라떼 hot"
                     Spec.beverage_names H0 Hp))|].
  split; [exact H1|]. split; [exact H2|].
  exact (proj2 fallback_extraction_first_match Spec.beverage_names H1 H2).
Defined.

End FallbackExtraction.

(* ================================================================== *)
(** * Category routing (CategoryRouter.route) *)
(* ================================================================== *)

Section CategoryRouting.
Import MenuDatabase CategoryRouter.

Lemma keyword_scores_shape (text : string) :
  exists b d m : nat,
    keyword_scores text = [(BEVERAGE, b); (DESSERT, d); (MEAL, m)].
Proof. unfold keyword_scores, category_keywords. cbn [map]. eauto. Qed.

Lemma existsb_positive (l : list nat) :
  (0 < fold_right Nat.add O l)%nat ->
  existsb (fun s => (0 <? s)%nat) l = true.
Proof.
  induction l as [|x l IH]; simpl; [lia|].
  intros H. destruct x as [|x]; simpl; [now apply IH|reflexivity].
Qed.

Lemma confidence_of_positive (mx total : nat) :
  (0 < confidence_of mx total)%Q ->
  (0 < total)%nat
  /\ confidence_of mx total = (Z.of_nat mx # Pos.of_nat total).
Proof.
  unfold confidence_of. destruct total as [|t]; simpl.
  - intros H. exfalso. revert H. apply Qlt_irrefl.
  - intros _. split; [lia|reflexivity].
Qed.

(** What [_classify_by_keywords] answers when the share of the top
    category is at least 0.6. *)
Lemma classify_by_keywords_confident (text : string) :
  (0.6 <= Spec.top_share text)%Q ->
  _classify_by_keywords text
  = Some {| category := fst (Spec.top_entry text);
            confidence := Spec.top_share text;
            reasoning :=
              "Keyword matching (score: "
              ++ Py.str_of_nat (snd (Spec.top_entry text)) ++ "/"
              ++ Py.str_of_nat (Spec.total_hits text) ++ ")" |}.
Proof.
  intros Hshare.
  assert (Hpos : (0 < Spec.top_share text)%Q) by lra.
  destruct (confidence_of_positive _ _ Hpos) as [Htotal _].
  unfold _classify_by_keywords.
  unfold Spec.top_share, Spec.top_entry, Spec.total_hits in *.
  rewrite (existsb_positive _ Htotal). cbn [negb].
  destruct (keyword_scores text) as [|first rest] eqn:Hs.
  { cbn in Htotal. lia. }
  destruct (max_entry first rest) as [c mx]. cbn [fst snd] in *.
  destruct (Qlt_le_dec (confidence_of mx (total_of (first :: rest))) 0.6)
    as [Hlt|Hge]; [lra|reflexivity].
Qed.

Lemma classify_by_keywords_unsure (text : string) :
  (Spec.top_share text < 0.6)%Q ->
  _classify_by_keywords text = None.
Proof.
  intros Hshare. unfold _classify_by_keywords.
  unfold Spec.top_share, Spec.top_entry, Spec.total_hits in *.
  destruct (negb _); [reflexivity|].
  destruct (keyword_scores text) as [|first rest]; [reflexivity|].
  destruct (max_entry first rest) as [c mx]. cbn [fst snd] in *.
  destruct (Qlt_le_dec _ 0.6) as [Hlt|Hge]; [reflexivity|lra].
Qed.

(** The fast path decides exactly when the top share exceeds 0.8. *)
Lemma fast_path_decides_iff (order_text : string) :
  Spec.fast_path_decides order_text = true
  <-> (0.8 < Spec.top_share (Validators.normalize_whitespace order_text))%Q.
Proof.
  unfold Spec.fast_path_decides, route.
  set (text := Validators.normalize_whitespace order_text).
  destruct (Qlt_le_dec (Spec.top_share text) 0.6) as [Hlow|Hhigh].
  - rewrite (classify_by_keywords_unsure text Hlow).
    split; [discriminate|lra].
  - rewrite (classify_by_keywords_confident text Hhigh). cbn [confidence].
    destruct (Qlt_le_dec 0.8 (Spec.top_share text)) as [H|H].
    + split; [intros _; exact H|reflexivity].
    + split; [discriminate|lra].
Qed.

Lemma count_if_ext {A} (p q : A -> bool) (l : list A) :
  (forall x, In x l -> p x = q x) -> Py.count_if p l = Py.count_if q l.
Proof.
  unfold Py.count_if. induction l as [|x l IH]; simpl; [reflexivity|].
  intros H. rewrite (H x (or_introl eq_refl)).
  assert (IH' := IH (fun y Hy => H y (or_intror Hy))).
  destruct (q x); simpl; now rewrite IH'.
Qed.

Lemma only_pizza_scores (text : string) :
  Spec.only_keyword "피자" text ->
  keyword_scores text = [(BEVERAGE, 0%nat); (DESSERT, 0%nat); (MEAL, 1%nat)].
Proof.
  intros Honly. unfold keyword_scores, category_keywords. cbn [map].
  unfold keyword_score.
  repeat match goal with
  | |- context [Py.count_if ?p ?l] =>
      lazymatch p with
      | (fun k => String.eqb k "피자") => fail
      | _ =>
        rewrite (count_if_ext p (fun k => String.eqb k "피자") l)
      end
  end.
  - reflexivity.
  - intros k Hk. eapply (Honly MEAL); [|exact Hk].
    right; right; left; reflexivity.
  - intros k Hk. eapply (Honly DESSERT); [|exact Hk].
    right; left; reflexivity.
  - intros k Hk. eapply (Honly BEVERAGE); [|exact Hk].
    left; reflexivity.
Qed.

(** C4.  For an order text of ASCII characters and Hangul syllables,
    where [Py.lower] and the whitespace of [Py.is_space] are those of
    [str.lower], [str.strip] and [\s]: when the keyword scores of the
    (whitespace-normalized) text give the top-scoring category a share of
    the total hits above 0.8, [route] returns that category with
    confidence [max_score / total_score], and it does so without a
    gateway call.  In particular such a text whose only keyword is "피자"
    is routed to Meal on the fast path, with a confidence of at least 0.6
    and no gateway call. *)
Theorem route_keyword_fast_path :
  (forall order_text : string,
     Py.is_plain order_text = true ->
     let text := Validators.normalize_whitespace order_text in
     (0.8 < Spec.top_share text)%Q ->
     let decision :=
       {| category := fst (Spec.top_entry text);
          confidence :=
            Z.of_nat (snd (Spec.top_entry text))
            # Pos.of_nat (Spec.total_hits text);
          reasoning :=
            "Keyword matching (score: "
            ++ Py.str_of_nat (snd (Spec.top_entry text)) ++ "/"
            ++ Py.str_of_nat (Spec.total_hits text) ++ ")" |} in
     (0 < Spec.total_hits text)%nat
     /\ route order_text = Done (Returned decision)
     /\ forall gw, run gw (route order_text) = (Returned decision, []))
  /\ (forall order_text : string,
        Py.is_plain order_text = true ->
        Spec.only_keyword "피자"
          (Validators.normalize_whitespace order_text) ->
        exists decision,
          route order_text = Done (Returned decision)
          /\ category decision = MEAL
          /\ (0.6 <= confidence decision)%Q
          /\ forall gw, run gw (route order_text) = (Returned decision, [])).
Proof.
  assert (Hmain : forall order_text : string,
     let text := Validators.normalize_whitespace order_text in
     (0.8 < Spec.top_share text)%Q ->
     (0 < Spec.total_hits text)%nat
     /\ route order_text
        = Done (Returned
            {| category := fst (Spec.top_entry text);
               confidence :=
                 Z.of_nat (snd (Spec.top_entry text))
                 # Pos.of_nat (Spec.total_hits text);
               reasoning :=
                 "Keyword matching (score: "
                 ++ Py.str_of_nat (snd (Spec.top_entry text)) ++ "/"
                 ++ Py.str_of_nat (Spec.total_hits text) ++ ")" |})).
  { intros order_text text Hshare.
    assert (Hpos : (0 < Spec.top_share text)%Q) by lra.
    destruct (confidence_of_positive _ _ Hpos) as [Htotal Hconf].
    split; [exact Htotal|].
    unfold route. fold text.
    rewrite (classify_by_keywords_confident text) by lra.
    cbn [confidence].
    destruct (Qlt_le_dec 0.8 (Spec.top_share text)) as [_|H]; [|lra].
    unfold Spec.top_share at 1. rewrite Hconf. reflexivity. }
  split.
  - intros order_text _ text Hshare decision.
    destruct (Hmain order_text Hshare) as [Htotal Hroute].
    split; [exact Htotal|]. split; [exact Hroute|].
    intros gw. fold text in Hroute. rewrite Hroute. reflexivity.
  - intros order_text _ Honly.
    pose proof (only_pizza_scores _ Honly) as Hscores.
    assert (Hshare : (0.8 < Spec.top_share
                              (Validators.normalize_whitespace order_text))%Q).
    { unfold Spec.top_share, Spec.top_entry, Spec.total_hits.
      rewrite Hscores. reflexivity. }
    destruct (Hmain order_text Hshare) as [_ Hroute].
    eexists. split; [exact Hroute|].
    unfold Spec.top_entry, Spec.total_hits. rewrite Hscores.
    split; [reflexivity|]. split; [cbn; discriminate|].
    intros gw. rewrite Hroute.
    unfold Spec.top_entry, Spec.total_hits. rewrite Hscores. reflexivity.
Qed.

(** " 피자  주세요 " holds the keyword "피자" and no other keyword. *)
Lemma only_keyword_pizza_order :
  Spec.only_keyword "피자" (Validators.normalize_whitespace " 피자  주세요 ").
Proof.
  intros c keywords k Hc Hk.
  repeat (destruct Hc as [Hc|Hc];
          [injection Hc as <- <-;
           repeat (destruct Hk as [<-|Hk]; [vm_compute; reflexivity|]);
           destruct Hk|]).
  destruct Hc.
Qed.

Lemma route_keyword_fast_path_witness :
  (Py.is_plain "피자" = true
   /\ (0.8 < Spec.top_share (Validators.normalize_whitespace "피자"))%Q
   /\ route "피자"
      = Done (Returned {| category := MEAL; confidence := 1 # 1;
                          reasoning := "Keyword matching (score: 1/1)" |})
   /\ run Spec.failing_gateway (route "피자")
      = (Returned {| category := MEAL; confidence := 1 # 1;
                     reasoning := "Keyword matching (score: 1/1)" |}, []))
  /\ (Py.is_plain " 피자  주세요 " = true
      /\ Spec.only_keyword "피자"
        (Validators.normalize_whitespace " 피자  주세요 ")
      /\ exists decision,
           route " 피자  주세요 " = Done (Returned decision)
           /\ category decision = MEAL
           /\ (0.6 <= confidence decision)%Q
           /\ forall gw,
                run gw (route " 피자  주세요 ") = (Returned decision, [])).
Proof.
  assert (H : (0.8 < Spec.top_share (Validators.normalize_whitespace "피자"))%Q)
    by (vm_compute; reflexivity).
  destruct (proj1 route_keyword_fast_path "피자" eq_refl H)
    as (_ & Hroute & Hrun).
  split.
  - split; [reflexivity|]. split; [exact H|].
    split; [exact Hroute|exact (Hrun Spec.failing_gateway)].
  - split; [reflexivity|]. split; [exact only_keyword_pizza_order|].
    exact (proj2 route_keyword_fast_path " 피자  주세요 " eq_refl
             only_keyword_pizza_order).
Defined.

(** The slow path of [route] when the gateway call raises. *)
Lemma route_slow_path_fallback (order_text : string)
    (gw : string -> Outcome string) (e : string) :
  Spec.fast_path_decides order_text = false ->
  gw (Validators.normalize_whitespace order_text) = Raised e ->
  run gw (route order_text)
  = (Returned fallback_decision,
     [Validators.normalize_whitespace order_text]).
Proof.
  intros Hslow Hraise.
  unfold Spec.fast_path_decides in Hslow. unfold route in *.
  set (text := Validators.normalize_whitespace order_text) in *.
  assert (Hrun : run gw (Classify text
                           (fun answer => Done (classify_with_llm answer)))
                 = (Returned fallback_decision, [text])).
  { cbn [run]. rewrite Hraise. reflexivity. }
  destruct (_classify_by_keywords text) as [kr|]; [|exact Hrun].
  destruct (Qlt_le_dec 0.8 (confidence kr)); [discriminate|exact Hrun].
Qed.

(** C5.  For an order text of ASCII characters and Hangul syllables,
    where [Py.lower] and the whitespace of [Py.is_space] are those of
    [str.lower], [str.strip] and [\s]: when the keyword fast path does
    not decide -- the share of the top category is not above 0.8, which
    includes a text with no keyword hit -- and the gateway's category
    classification raises, [route] returns normally: the exception does
    not propagate, and the decision is the Beverage category with
    confidence 0.5, after that one gateway call. *)
Theorem route_gateway_failure_fallback :
  forall (order_text : string) (gw : string -> Outcome string) (e : string),
    Py.is_plain order_text = true ->
    (Spec.top_share (Validators.normalize_whitespace order_text) <= 0.8)%Q ->
    gw (Validators.normalize_whitespace order_text) = Raised e ->
    Spec.fast_path_decides order_text = false
    /\ exists decision,
         run gw (route order_text)
         = (Returned decision, [Validators.normalize_whitespace order_text])
         /\ category decision = BEVERAGE
         /\ confidence decision = 0.5%Q
         /\ reasoning decision = "Fallback to default category".
Proof.
  intros order_text gw e _ Hshare Hraise.
  assert (Hslow : Spec.fast_path_decides order_text = false).
  { destruct (Spec.fast_path_decides order_text) eqn:Hfast; [|reflexivity].
    apply fast_path_decides_iff in Hfast. lra. }
  split; [exact Hslow|].
  exists fallback_decision.
  split; [now apply (route_slow_path_fallback order_text gw e)|].
  repeat split.
Qed.

Lemma route_gateway_failure_fallback_witness :
  Py.is_plain "안녕하세요" = true
  /\ (Spec.top_share (Validators.normalize_whitespace "안녕하세요") <= 0.8)%Q
  /\ Spec.failing_gateway (Validators.normalize_whitespace "안녕하세요")
     = Raised "Request timed out."
  /\ exists decision,
       run Spec.failing_gateway (route "안녕하세요")
       = (Returned decision, [Validators.normalize_whitespace "안녕하세요"])
       /\ category decision = BEVERAGE
       /\ confidence decision = 0.5%Q
       /\ reasoning decision = "Fallback to default category".
Proof.
  assert (H1 : (Spec.top_share (Validators.normalize_whitespace "안녕하세요")
                <= 0.8)%Q) by (vm_compute; discriminate).
  assert (H2 : Spec.failing_gateway
                 (Validators.normalize_whitespace "안녕하세요")
               = Raised "Request timed out.") by reflexivity.
  split; [reflexivity|]. split; [exact H1|]. split; [exact H2|].
  exact (proj2 (route_gateway_failure_fallback "안녕하세요"
                  Spec.failing_gateway "Request timed out." eq_refl H1 H2)).
Defined.

End CategoryRouting.

(* ================================================================== *)
(** * Serving decisions (ServingRouter.route) *)
(* ================================================================== *)

Section ServingRouting.
Import LLMService ServingRouter.

Lemma check_keeps_history (settings : Settings) (self : t)
    (obs : Observation) :
  serving_history (snd (_check_local_availability settings self obs))
  = serving_history self.
Proof.
  unfold _check_local_availability.
  destruct (last_checked (local_model_status self)) as [checked|];
    [|reflexivity].
  destruct (now obs - checked <? check_interval (local_model_status self));
    reflexivity.
Qed.

Lemma create_local_keeps_history (settings : Settings) (self : t)
    (sens : SensitivityLevel) (why : string) (obs : Observation) :
  serving_history (snd (_create_local_decision settings self sens why obs))
  = serving_history self.
Proof.
  unfold _create_local_decision.
  pose proof (check_keeps_history settings self obs) as H.
  destruct (_check_local_availability settings self obs) as [avail self'].
  cbn [snd] in H. destruct avail; cbn; exact H.
Qed.

(** After a check, the cached flag is the answer the check gave. *)
Lemma check_caches_answer (settings : Settings) (self : t)
    (obs : Observation) :
  available (local_model_status
               (snd (_check_local_availability settings self obs)))
  = fst (_check_local_availability settings self obs).
Proof.
  unfold _check_local_availability.
  destruct (last_checked (local_model_status self)) as [checked|];
    [|reflexivity].
  destruct (now obs - checked <? check_interval (local_model_status self));
    reflexivity.
Qed.

(** While the cache entry is fresh, the confirming check repeats the
    answer of the first one. *)
Lemma fresh_cache_confirms (settings : Settings) (self : t)
    (obs1 obs2 : Observation) :
  Spec.cache_fresh settings self obs1 obs2 ->
  Spec.confirming_check settings self obs1 obs2
  = Spec.first_check settings self obs1.
Proof.
  unfold Spec.cache_fresh, Spec.confirming_check, Spec.first_check.
  intros Hfresh. rewrite <- (check_caches_answer settings self obs1).
  set (self1 := snd (_check_local_availability settings self obs1)) in *.
  unfold _check_local_availability.
  destruct (last_checked (local_model_status self1)) as [checked|];
    [|contradiction].
  apply Z.ltb_lt in Hfresh. rewrite Hfresh. reflexivity.
Qed.

Lemma sensitivity_by_count (query : string) :
  ((2 <= sensitive_count query)%nat ->
   _analyze_sensitivity_fast query = HIGH)
  /\ (sensitive_count query = 1%nat ->
      _analyze_sensitivity_fast query = MEDIUM)
  /\ (sensitive_count query = 0%nat ->
      _analyze_sensitivity_fast query = LOW).
Proof.
  unfold _analyze_sensitivity_fast.
  repeat split; intros H.
  - apply Nat.leb_le in H. now rewrite H.
  - now rewrite H.
  - now rewrite H.
Qed.

(** The decision of [_auto_route], by sensitivity and by the answers of
    the availability checks. *)
Lemma auto_route_decision (settings : Settings) (self : t) (query : string)
    (obs1 obs2 : Observation) :
  let decision := fst (_auto_route settings self query obs1 obs2) in
  sensitivity decision = _analyze_sensitivity_fast query
  /\ match _analyze_sensitivity_fast query with
     | LOW =>
         target decision = CLOUD
         /\ fallback_available decision
            = Spec.first_check settings self obs1
     | _ =>
         target decision
         = if Spec.local_available settings self obs1 obs2
           then LOCAL else CLOUD
     end
  /\ model_name decision
     = match target decision with
       | LOCAL => ollama_model settings
       | CLOUD => gpt_standard_model settings
       end.
Proof.
  unfold _auto_route, Spec.local_available, Spec.first_check,
    Spec.confirming_check, _create_local_decision.
  destruct (_check_local_availability settings self obs1) as [a1 self1].
  cbn [fst snd].
  destruct (_check_local_availability settings self1 obs2) as [a2 self2].
  destruct (_analyze_sensitivity_fast query), a1, a2; cbn; repeat split.
Qed.

Lemma two_keywords_high (query : string) :
  Py.contains "전화번호" (Py.lower query) = true ->
  Py.contains "주소" (Py.lower query) = true ->
  _analyze_sensitivity_fast query = HIGH.
Proof.
  intros H1 H2. apply sensitivity_by_count.
  unfold sensitive_count, SENSITIVE_KEYWORDS, Py.count_if.
  cbn [List.filter]. rewrite H1, H2. cbn [List.length]. lia.
Qed.

(** C6.  Under the auto strategy and with no forced flag, the decision of
    [route] carries the sensitivity that the count of sensitive keywords
    in the lowercased query gives (high for two or more, medium for
    exactly one, low for none), and its target follows the table: high
    with local available is local, high with local unavailable is cloud,
    low is cloud with [fallback_available] recording the answer of the
    availability check, medium is local if available and cloud
    otherwise.  "Local available" is what the router's availability
    checks answer during the call; while the cache entry is fresh the
    confirming check repeats the first answer.  In particular a query
    that holds "전화번호" and "주소", with local available, is served
    locally with sensitivity high. *)
Theorem auto_route_decision_table :
  forall (settings : Settings) (self : t) (query : string)
         (obs1 obs2 : Observation),
    model_strategy settings = auto_strategy ->
    let decision := fst (route settings self query false false obs1 obs2) in
    let n := sensitive_count query in
    let local := Spec.local_available settings self obs1 obs2 in
    ((2 <= n)%nat -> sensitivity decision = HIGH)
    /\ (n = 1%nat -> sensitivity decision = MEDIUM)
    /\ (n = 0%nat -> sensitivity decision = LOW)
    /\ (sensitivity decision = HIGH -> local = true ->
        target decision = LOCAL)
    /\ (sensitivity decision = HIGH -> local = false ->
        target decision = CLOUD)
    /\ (sensitivity decision = LOW ->
        target decision = CLOUD
        /\ fallback_available decision
           = Spec.first_check settings self obs1)
    /\ (sensitivity decision = MEDIUM ->
        target decision = if local then LOCAL else CLOUD)
    /\ (Spec.cache_fresh settings self obs1 obs2 ->
        local = Spec.first_check settings self obs1)
    /\ (Py.contains "전화번호" (Py.lower query) = true ->
        Py.contains "주소" (Py.lower query) = true ->
        local = true ->
        target decision = LOCAL /\ sensitivity decision = HIGH).
Proof.
  intros settings self query obs1 obs2 Hauto decision n local.
  assert (Hd : decision = fst (_auto_route settings self query obs1 obs2)).
  { subst decision. unfold route. rewrite Hauto. reflexivity. }
  destruct (auto_route_decision settings self query obs1 obs2)
    as (Hsens & Htable & _).
  cbv zeta in Hsens, Htable. rewrite <- Hd in Hsens, Htable.
  fold local in Htable.
  destruct (sensitivity_by_count query) as (Hhigh & Hmed & Hlow).
  split; [intros H; rewrite Hsens; now apply Hhigh|].
  split; [intros H; rewrite Hsens; now apply Hmed|].
  split; [intros H; rewrite Hsens; now apply Hlow|].
  rewrite <- Hsens in Htable.
  split; [intros Hs Hl; rewrite Hs, Hl in Htable; exact Htable|].
  split; [intros Hs Hl; rewrite Hs, Hl in Htable; exact Htable|].
  split; [intros Hs; rewrite Hs in Htable; exact Htable|].
  split; [intros Hs; rewrite Hs in Htable; exact Htable|].
  split.
  { intros Hfresh. subst local. unfold Spec.local_available.
    rewrite (fresh_cache_confirms _ _ _ _ Hfresh).
    now destruct (Spec.first_check settings self obs1). }
  intros H1 H2 Hl.
  pose proof (two_keywords_high query H1 H2) as Hq.
  rewrite <- Hsens in Hq. rewrite Hq, Hl in Htable. split; assumption.
Qed.

Lemma auto_route_decision_table_witness :
  model_strategy Spec.local_settings = auto_strategy
  /\ Py.contains "전화번호" (Py.lower Spec.sensitive_query) = true
  /\ Py.contains "주소" (Py.lower Spec.sensitive_query) = true
  /\ Spec.local_available Spec.local_settings init
       (Spec.healthy_at 0) (Spec.healthy_at 1) = true
  /\ target (fst (route Spec.local_settings init Spec.sensitive_query
                    false false (Spec.healthy_at 0) (Spec.healthy_at 1)))
     = LOCAL
  /\ sensitivity (fst (route Spec.local_settings init Spec.sensitive_query
                         false false (Spec.healthy_at 0) (Spec.healthy_at 1)))
     = HIGH.
Proof.
  assert (H0 : model_strategy Spec.local_settings = auto_strategy)
    by reflexivity.
  assert (H1 : Py.contains "전화번호" (Py.lower Spec.sensitive_query) = true)
    by (vm_compute; reflexivity).
  assert (H2 : Py.contains "주소" (Py.lower Spec.sensitive_query) = true)
    by (vm_compute; reflexivity).
  assert (H3 : Spec.local_available Spec.local_settings init
                 (Spec.healthy_at 0) (Spec.healthy_at 1) = true)
    by (vm_compute; reflexivity).
  repeat (split; [assumption|]).
  destruct (auto_route_decision_table Spec.local_settings init
              Spec.sensitive_query (Spec.healthy_at 0) (Spec.healthy_at 1) H0)
    as (_ & _ & _ & _ & _ & _ & _ & _ & Hparticular).
  exact (Hparticular H1 H2 H3).
Defined.

Lemma auto_route_records (settings : Settings) (self : t) (query : string)
    (obs1 obs2 : Observation) :
  serving_history (snd (_auto_route settings self query obs1 obs2))
  = (serving_history self
     ++ [fst (_auto_route settings self query obs1 obs2)])%list.
Proof.
  unfold _auto_route.
  pose proof (check_keeps_history settings self obs1) as H1.
  destruct (_check_local_availability settings self obs1) as [a1 self1].
  cbn [snd] in H1.
  assert (Hlocal : forall sens why,
            serving_history
              (snd (_create_local_decision settings self1 sens why obs2))
            = serving_history self).
  { intros sens why. now rewrite create_local_keeps_history. }
  destruct (_analyze_sensitivity_fast query), a1;
    repeat match goal with
    | |- context [_create_local_decision settings self1 ?s ?w obs2] =>
        let H := fresh "H" in
        pose proof (Hlocal s w) as H;
        destruct (_create_local_decision settings self1 s w obs2)
    end;
    cbn [fst snd record_decision serving_history] in *; congruence.
Qed.

(** C7, what the code does.  [route] appends the returned decision to
    [serving_history] exactly when it takes the auto path (no forced flag
    and the auto strategy); on every short-circuit -- [force_cloud],
    [force_local], the [cloud_only] and [local_only] strategies -- it
    returns a decision and leaves the history as it was.  A forced-cloud
    call on a fresh router returns a cloud decision and the history stays
    empty. *)
Theorem route_history_only_on_auto_path :
  (forall (settings : Settings) (self : t) (query : string)
          (force_local force_cloud : bool) (obs1 obs2 : Observation),
     let result :=
       route settings self query force_local force_cloud obs1 obs2 in
     serving_history (snd result)
     = if Spec.takes_auto_path settings force_local force_cloud
       then (serving_history self ++ [fst result])%list
       else serving_history self)
  /\ target (fst (route default_settings init Spec.plain_query false true
                    (Spec.healthy_at 0) (Spec.healthy_at 1))) = CLOUD
  /\ serving_history
       (snd (route default_settings init Spec.plain_query false true
               (Spec.healthy_at 0) (Spec.healthy_at 1))) = []
  /\ List.length
       (serving_history
          (snd (route default_settings init Spec.plain_query false false
                  (Spec.healthy_at 0) (Spec.healthy_at 1)))) = 1%nat.
Proof.
  split; [|repeat split].
  intros settings self query force_local force_cloud obs1 obs2 result.
  subst result. unfold route, Spec.takes_auto_path.
  destruct force_cloud; [reflexivity|].
  destruct force_local; cbn [negb andb].
  { apply create_local_keeps_history. }
  destruct (model_strategy settings).
  - apply auto_route_records.
  - reflexivity.
  - apply create_local_keeps_history.
Qed.

End ServingRouting.

(* ================================================================== *)
(** * The order store (OrderService) *)
(* ================================================================== *)

Section OrderStore.
Import OrderService.

Lemma update_order_status_unknown (s : t) (id : string)
    (st : OrderStatus) (now : Z) :
  orders s !! id = None -> update_order_status s id st now = (false, s).
Proof. unfold update_order_status, get_order. now intros ->. Qed.

Lemma update_order_status_known (s : t) (id : string) (st : OrderStatus)
    (now : Z) (o : Order) :
  orders s !! id = Some o ->
  update_order_status s id st now
  = (true,
     if is_terminal st
     then {| orders := delete id (orders s);
             order_history :=
               (order_history s ++ [update_status o st now])%list |}
     else {| orders := <[id := update_status o st now]> (orders s);
             order_history := order_history s |}).
Proof.
  unfold update_order_status, get_order. intros ->.
  now destruct (is_terminal st).
Qed.

Lemma elem_of_map_filter {A B} (g : A -> B) (f : A -> bool) (l : list A)
    (x : B) :
  x ∈ map g (List.filter f l) -> x ∈ map g l.
Proof.
  induction l as [|a l IH]; simpl; [trivial|].
  destruct (f a); simpl; rewrite !elem_of_cons; intuition.
Qed.

Lemma NoDup_map_filter {A B} (g : A -> B) (f : A -> bool) (l : list A) :
  NoDup (map g l) -> NoDup (map g (List.filter f l)).
Proof.
  induction l as [|a l IH]; simpl; [trivial|].
  intros Hnd. apply NoDup_cons in Hnd as [Hnotin Hnd].
  destruct (f a); simpl; [|now apply IH].
  apply NoDup_cons. split; [|now apply IH].
  intros Hin. apply Hnotin. eapply elem_of_map_filter, Hin.
Qed.

Lemma init_invariant : Spec.store_invariant init.
Proof.
  unfold Spec.store_invariant, Spec.in_history, Spec.history_ids.
  cbn [init orders order_history map].
  split; [|split; [|split]].
  - intros id o H. rewrite lookup_empty in H. discriminate.
  - intros id _. apply lookup_empty.
  - constructor.
  - constructor.
Qed.

Lemma update_keeps_invariant (s : t) (id : string) (st : OrderStatus)
    (now : Z) :
  Spec.store_invariant s ->
  Spec.store_invariant (snd (update_order_status s id st now)).
Proof.
  intros (Hkey & Hhist & Hnd & Hterm).
  destruct (orders s !! id) as [o|] eqn:Ho.
  2:{ rewrite (update_order_status_unknown _ _ _ _ Ho).
      repeat split; assumption. }
  rewrite (update_order_status_known _ _ _ _ _ Ho). cbn [snd].
  unfold Spec.store_invariant, Spec.in_history, Spec.history_ids in *.
  destruct (is_terminal st) eqn:Ht; cbn [orders order_history].
  - split; [|split; [|split]].
    + intros id' o'. rewrite lookup_delete.
      case_decide; [discriminate|apply Hkey].
    + intros id'. rewrite map_app. cbn [map].
      rewrite elem_of_app, list_elem_of_singleton. intros [Hin| ->].
      * rewrite lookup_delete. case_decide; [reflexivity|now apply Hhist].
      * cbn. rewrite (Hkey _ _ Ho). apply lookup_delete_eq.
    + rewrite map_app. apply NoDup_app. split; [exact Hnd|].
      split; [|apply NoDup_singleton].
      intros x Hx Hin. apply list_elem_of_singleton in Hin. cbn in Hin.
      rewrite (Hkey _ _ Ho) in Hin. subst x.
      rewrite (Hhist _ Hx) in Ho. discriminate.
    + apply Forall_app. split; [exact Hterm|].
      constructor; [exact Ht|constructor].
  - split; [|split; [|split]]; try assumption.
    + intros id' o'. rewrite lookup_insert. case_decide.
      * intros [= <-]. subst id'. cbn. now apply Hkey.
      * apply Hkey.
    + intros id' Hin. rewrite lookup_insert. case_decide; [|now apply Hhist].
      subst id'. rewrite (Hhist _ Hin) in Ho. discriminate.
Qed.

Lemma apply_op_invariant (settings : Settings) (s : t) (op : Spec.Op) :
  Spec.store_invariant s ->
  (forall id, id ∈ Spec.created_ids [op] -> ~ Spec.present s id) ->
  Spec.store_invariant (Spec.apply_op settings s op).
Proof.
  intros Hinv Hfresh.
  destruct op as [items_data c notes id now|id st now|id now|days now];
    cbn [Spec.apply_op].
  - destruct Hinv as (Hkey & Hhist & Hnd & Hterm).
    assert (Hnew : ~ Spec.present s id).
    { apply Hfresh. cbn. apply list_elem_of_here. }
    unfold Spec.store_invariant, Spec.in_history, Spec.history_ids in *.
    cbn [create_order_from_items snd orders order_history].
    split; [|split; [|split]]; try assumption.
    + intros id' o'. rewrite lookup_insert. case_decide.
      * intros [= <-]. now subst id'.
      * apply Hkey.
    + intros id' Hin. rewrite lookup_insert. case_decide; [|now apply Hhist].
      subst id'. exfalso. apply Hnew. now right.
  - now apply update_keeps_invariant.
  - now apply update_keeps_invariant.
  - destruct Hinv as (Hkey & Hhist & Hnd & Hterm).
    unfold Spec.store_invariant, Spec.in_history, Spec.history_ids in *.
    cbn [clear_old_history orders order_history].
    split; [exact Hkey|]. split; [|split].
    + intros id Hin. apply Hhist. eapply elem_of_map_filter, Hin.
    + now apply NoDup_map_filter.
    + apply List.Forall_forall. intros o Ho.
      apply List.filter_In in Ho as [Ho _].
      exact (proj1 (List.Forall_forall _ _) Hterm o Ho).
Qed.

Lemma update_present (s : t) (id' : string) (st : OrderStatus) (now : Z)
    (id : string) :
  Spec.store_invariant s ->
  Spec.present (snd (update_order_status s id' st now)) id ->
  Spec.present s id.
Proof.
  intros (Hkey & _).
  unfold Spec.present, Spec.is_active, Spec.in_history, Spec.history_ids.
  destruct (orders s !! id') as [o|] eqn:Ho.
  2:{ now rewrite (update_order_status_unknown _ _ _ _ Ho). }
  rewrite (update_order_status_known _ _ _ _ _ Ho). cbn [snd].
  destruct (is_terminal st); cbn [orders order_history].
  - rewrite map_app. cbn [map].
    rewrite elem_of_app, list_elem_of_singleton, lookup_delete_is_Some.
    cbn [update_status order_id]. rewrite (Hkey _ _ Ho).
    intros [[_ H]|[H| ->]]; auto; left; rewrite Ho; eauto.
  - rewrite lookup_insert_is_Some'.
    intros [[<-|H]|H]; auto; left; rewrite Ho; eauto.
Qed.

(** An id the service holds after a call was held before it or is the id
    the call created. *)
Lemma apply_op_present (settings : Settings) (s : t) (op : Spec.Op)
    (id : string) :
  Spec.store_invariant s ->
  Spec.present (Spec.apply_op settings s op) id ->
  Spec.present s id \/ id ∈ Spec.created_ids [op].
Proof.
  intros Hinv.
  destruct op as [items_data c notes id' now|id' st now|id' now|days now];
    cbn [Spec.apply_op Spec.created_ids].
  - unfold Spec.present, Spec.is_active, Spec.in_history, Spec.history_ids.
    cbn [create_order_from_items snd orders order_history].
    rewrite lookup_insert_is_Some'. intros [[<-|H]|H]; auto.
    right. apply list_elem_of_here.
  - intros H. left. eapply update_present; eassumption.
  - intros H. left. eapply update_present; eassumption.
  - unfold Spec.present, Spec.is_active, Spec.in_history, Spec.history_ids.
    cbn [clear_old_history orders order_history].
    intros [H|H]; left; [now left|right].
    eapply elem_of_map_filter, H.
Qed.

(** Without a purge, an id the service holds stays held, and a created id
    is held. *)
Lemma apply_op_keeps (settings : Settings) (s : t) (op : Spec.Op)
    (id : string) :
  Spec.store_invariant s ->
  Spec.is_purge op = false ->
  Spec.present s id \/ id ∈ Spec.created_ids [op] ->
  Spec.present (Spec.apply_op settings s op) id.
Proof.
  intros (Hkey & _) Hpurge.
  unfold Spec.present, Spec.is_active, Spec.in_history, Spec.history_ids.
  destruct op as [items_data c notes id' now|id' st now|id' now|days now];
    cbn [Spec.apply_op Spec.created_ids]; [| | |discriminate].
  - cbn [create_order_from_items snd orders order_history].
    rewrite lookup_insert_is_Some', list_elem_of_singleton.
    intros [[H|H]|H]; auto.
  - intros [H|H]; [|now apply not_elem_of_nil in H].
    destruct (orders s !! id') as [o|] eqn:Ho.
    2:{ now rewrite (update_order_status_unknown _ _ _ _ Ho). }
    rewrite (update_order_status_known _ _ _ _ _ Ho). cbn [snd].
    destruct (is_terminal st); cbn [orders order_history].
    + rewrite map_app. cbn [map].
      rewrite elem_of_app, list_elem_of_singleton, lookup_delete_is_Some.
      cbn [update_status order_id]. rewrite (Hkey _ _ Ho).
      destruct (decide (id' = id)) as [->|Hne]; [auto|].
      destruct H as [H|H]; auto.
    + rewrite lookup_insert_is_Some'. destruct H as [H|H]; auto.
  - intros [H|H]; [|now apply not_elem_of_nil in H].
    unfold cancel_order.
    destruct (orders s !! id') as [o|] eqn:Ho.
    2:{ now rewrite (update_order_status_unknown _ _ _ _ Ho). }
    rewrite (update_order_status_known _ _ _ _ _ Ho). cbn [snd].
    cbn [is_terminal orders order_history].
    rewrite map_app. cbn [map].
    rewrite elem_of_app, list_elem_of_singleton, lookup_delete_is_Some.
    cbn [update_status order_id]. rewrite (Hkey _ _ Ho).
    destruct (decide (id' = id)) as [->|Hne]; [auto|].
    destruct H as [H|H]; auto.
Qed.

Lemma created_ids_cons (op : Spec.Op) (ops : list Spec.Op) :
  Spec.created_ids (op :: ops)
  = (Spec.created_ids [op] ++ Spec.created_ids ops)%list.
Proof. destruct op; reflexivity. Qed.

(** Running calls from a service that satisfies the invariant, when the
    ids they create are new to it and differ from each other. *)
Lemma run_from_invariant (settings : Settings) (ops : list Spec.Op) :
  forall s : t,
    Spec.store_invariant s ->
    NoDup (Spec.created_ids ops) ->
    (forall id, id ∈ Spec.created_ids ops -> ~ Spec.present s id) ->
    let s' := fold_left (Spec.apply_op settings) ops s in
    Spec.store_invariant s'
    /\ (forall id, Spec.present s' id ->
                   Spec.present s id \/ id ∈ Spec.created_ids ops)
    /\ (forallb (fun op => negb (Spec.is_purge op)) ops = true ->
        forall id, Spec.present s id \/ id ∈ Spec.created_ids ops ->
                   Spec.present s' id).
Proof.
  induction ops as [|op ops IH]; intros s Hinv Hnd Hfresh; cbn [fold_left].
  - split; [exact Hinv|]. split; [auto|].
    intros _ id [H|H]; [exact H|now apply not_elem_of_nil in H].
  - rewrite created_ids_cons in Hnd, Hfresh.
    apply NoDup_app in Hnd as (Hnd1 & Hdisj & Hnd2).
    assert (Hinv1 : Spec.store_invariant (Spec.apply_op settings s op)).
    { apply apply_op_invariant; [exact Hinv|].
      intros id Hid. apply Hfresh, elem_of_app. now left. }
    assert (Hfresh1 : forall id, id ∈ Spec.created_ids ops ->
                                 ~ Spec.present (Spec.apply_op settings s op) id).
    { intros id Hid Hp.
      destruct (apply_op_present settings s op id Hinv Hp) as [H|H].
      - apply (Hfresh id); [apply elem_of_app; now right|exact H].
      - exact (Hdisj id H Hid). }
    destruct (IH _ Hinv1 Hnd2 Hfresh1) as (Hi & Hsub & Hkeep).
    split; [exact Hi|]. split.
    + intros id Hp. rewrite created_ids_cons, elem_of_app.
      destruct (Hsub id Hp) as [H|H]; [|auto].
      destruct (apply_op_present settings s op id Hinv H); auto.
    + cbn [forallb]. intros Hpurge id Hid.
      apply andb_prop in Hpurge as [Hop Hrest].
      apply negb_true_iff in Hop.
      apply (Hkeep Hrest).
      rewrite created_ids_cons, elem_of_app in Hid.
      destruct Hid as [H|[H|H]]; [left|left|now right];
        apply apply_op_keeps; auto.
Qed.

(** C9.  In every state that a sequence of calls reaches from a fresh
    service -- the generated ids being unique, as the specification
    requires of the id generator -- no order id is both in the active map
    and in the history list, no id occurs twice in the history, every id
    the service holds was created, and (unless history was purged) every
    created id is held, so it is in exactly one of the two.
    [update_order_status] on an active id returns [True]; it moves the
    order to the end of the history exactly when the new status is
    Completed or Cancelled, and otherwise leaves it active with the new
    status.  [update_order_status] and [cancel_order] on an id that is not
    active return [False] and leave the service unchanged. *)
Theorem order_store_exactly_one :
  (forall (settings : Settings) (ops : list Spec.Op),
     Spec.ids_unique ops ->
     let s := Spec.run_ops settings ops in
     Spec.store_invariant s
     /\ (forall id, ~ (Spec.is_active s id /\ Spec.in_history s id))
     /\ NoDup (Spec.history_ids s)
     /\ (forall id, Spec.present s id -> id ∈ Spec.created_ids ops)
     /\ (forallb (fun op => negb (Spec.is_purge op)) ops = true ->
         forall id, id ∈ Spec.created_ids ops ->
           (Spec.is_active s id /\ ~ Spec.in_history s id)
           \/ (~ Spec.is_active s id /\ Spec.in_history s id)))
  /\ (forall (s : t) (id : string) (new_status : OrderStatus) (now : Z)
             (o : Order),
        Spec.store_invariant s ->
        orders s !! id = Some o ->
        let r := update_order_status s id new_status now in
        fst r = true
        /\ (is_terminal new_status = true ->
            ~ Spec.is_active (snd r) id
            /\ Spec.in_history (snd r) id
            /\ order_history (snd r)
               = (order_history s ++ [update_status o new_status now])%list)
        /\ (is_terminal new_status = false ->
            orders (snd r) !! id = Some (update_status o new_status now)
            /\ ~ Spec.in_history (snd r) id
            /\ order_history (snd r) = order_history s))
  /\ (forall (s : t) (id : string) (new_status : OrderStatus) (now : Z),
        orders s !! id = None ->
        update_order_status s id new_status now = (false, s)
        /\ cancel_order s id now = (false, s)).
Proof.
  split; [|split].
  - intros settings ops Huniq s.
    destruct (run_from_invariant settings ops init init_invariant Huniq)
      as (Hinv & Hsub & Hkeep).
    { intros id _ [[o Ho]|H].
      - cbn in Ho. rewrite lookup_empty in Ho. discriminate.
      - now apply not_elem_of_nil in H. }
    fold (Spec.run_ops settings ops) in Hinv, Hsub, Hkeep. fold s in Hinv, Hsub, Hkeep.
    assert (Hboth : forall id, ~ (Spec.is_active s id /\ Spec.in_history s id)).
    { intros id [[o Ho] Hh]. destruct Hinv as (_ & Hhist & _).
      rewrite (Hhist id Hh) in Ho. discriminate. }
    split; [exact Hinv|]. split; [exact Hboth|].
    split; [apply Hinv|]. split.
    + intros id Hp. destruct (Hsub id Hp) as [[[o Ho]|H]|H]; [| |exact H].
      * cbn in Ho. rewrite lookup_empty in Ho. discriminate.
      * now apply not_elem_of_nil in H.
    + intros Hpurge id Hid.
      destruct (Hkeep Hpurge id (or_intror Hid)) as [Ha|Hh].
      * left. split; [exact Ha|]. intros Hh. exact (Hboth id (conj Ha Hh)).
      * right. split; [|exact Hh]. intros Ha. exact (Hboth id (conj Ha Hh)).
  - intros s id st now o (Hkey & Hhist & _) Ho r. subst r.
    rewrite (update_order_status_known _ _ _ _ _ Ho). cbn [fst snd].
    split; [reflexivity|].
    unfold Spec.is_active, Spec.in_history, Spec.history_ids.
    split; intros ->; cbn [orders order_history].
    + split; [|split; [|reflexivity]].
      * rewrite lookup_delete_eq. intros [? [=]].
      * rewrite map_app, elem_of_app. right. cbn.
        rewrite (Hkey _ _ Ho). apply list_elem_of_here.
    + split; [apply lookup_insert_eq|]. split; [|reflexivity].
      intros Hin. rewrite (Hhist id Hin) in Ho. discriminate.
  - intros s id st now Ho. unfold cancel_order.
    now rewrite !(update_order_status_unknown _ _ _ _ Ho).
Qed.

Lemma sample_session_ids_unique : Spec.ids_unique Spec.sample_session.
Proof.
  unfold Spec.ids_unique. cbn [Spec.created_ids Spec.sample_session].
  apply NoDup_cons. split; [|apply NoDup_singleton].
  rewrite list_elem_of_singleton. discriminate.
Qed.

Lemma order_store_exactly_one_witness :
  Spec.ids_unique Spec.sample_session
  /\ (forall id,
        ~ (Spec.is_active (Spec.run_ops default_settings Spec.sample_session) id
           /\ Spec.in_history
                (Spec.run_ops default_settings Spec.sample_session) id))
  /\ Spec.history_ids (Spec.run_ops default_settings Spec.sample_session)
     = ["ORD-20260101090000-1a2b3c4d"; "ORD-20260101090005-5e6f7a8b"]
  /\ orders (Spec.run_ops default_settings Spec.sample_session) = ∅.
Proof.
  split; [exact sample_session_ids_unique|].
  split; [|split].
  - exact (proj1 (proj2 (proj1 order_store_exactly_one default_settings
                           Spec.sample_session sample_session_ids_unique))).
  - vm_compute. reflexivity.
  - vm_compute. reflexivity.
Defined.

End OrderStore.

(* ================================================================== *)
(** * Sizes between validation and order creation *)
(* ================================================================== *)

Section SizeParsing.
Import MenuDatabase OrderService.

Lemma noncanonical_not_parsed (s : string) :
  Spec.canonical_size s = false -> SizeOption_of_value s = None.
Proof.
  unfold Spec.canonical_size, SizeOption_of_value. intros H.
  apply orb_false_elim in H as [H H3]. apply orb_false_elim in H as [H1 H2].
  now rewrite H1, H2, H3.
Qed.

Lemma new_OrderItem_size (n : string) (q : Z) (c : MenuCategory) (p : Z)
    (sz : option SizeOption) (opts : list string) :
  size (new_OrderItem n q c p sz opts) = sz.
Proof.
  unfold new_OrderItem, calculate_subtotal. cbn [menu_name].
  now destruct (get_menu_item n None).
Qed.

(** C10.  A size label that [SizeOption] does not accept as written is
    dropped by [create_order_from_items]: the order item is the one built
    for the same dictionary without a size, so its size is [None].  Every
    label of the validator's own table ("톨", "tall", "그란데", "grande",
    "벤티", "venti") is such a label: a one-item list carrying it passes
    [validate_order_items], and the order created from it has size
    [None] and the amount of the base price -- 4500 for an americano
    asked as "grande", where the canonical "Grande" gives 5000. *)
Theorem noncanonical_size_dropped :
  (forall (c : MenuCategory) (item : Item.t) (s : string),
     Item.size item = Some s ->
     Spec.canonical_size s = false ->
     build_order_item c item = build_order_item c (Spec.without_size item)
     /\ forall order_item,
          build_order_item c item = Some order_item ->
          size order_item = None)
  /\ Forall (fun label =>
               Spec.recognized_size label <> None
               /\ Spec.canonical_size label = false
               /\ Validators.is_valid
                    (Validators.validate_order_items
                       [Spec.sized_item "아메리카노" 1 label]) = true
               /\ map size (items (Spec.order_of_size label)) = [None]
               /\ total_amount (Spec.order_of_size label) = 4500)
            Spec.validator_size_labels
  /\ Spec.recognized_size "grande" = Some GRANDE
  /\ map size (items (Spec.order_of_size "Grande")) = [Some GRANDE]
  /\ total_amount (Spec.order_of_size "Grande") = 5000.
Proof.
  split; [|split; [|repeat split]].
  - intros c item s Hs Hnc.
    assert (Hbuild : build_order_item c item
                     = build_order_item c (Spec.without_size item)).
    { unfold build_order_item, Spec.without_size. cbn [Item.menu Item.quantity
        Item.size Item.options]. rewrite Hs.
      rewrite (noncanonical_not_parsed s Hnc).
      now destruct (Py.truthy s). }
    split; [exact Hbuild|].
    intros order_item. rewrite Hbuild.
    unfold build_order_item, Spec.without_size. cbn [Item.menu Item.quantity
      Item.size Item.options].
    destruct (Item.menu item) as [n|]; [|discriminate].
    destruct (get_menu_item n (Some c)); [|discriminate].
    intros [= <-]. apply new_OrderItem_size.
  - unfold Spec.validator_size_labels, Validators.size_map.
    cbn [Py.dict_keys map fst].
    repeat (apply List.Forall_cons;
            [repeat split; try (vm_compute; reflexivity);
             vm_compute; discriminate|]).
    apply List.Forall_nil.
Qed.

Lemma noncanonical_size_dropped_witness :
  Item.size (Spec.sized_item "카페라떼" 2 "VENTI") = Some "VENTI"
  /\ Spec.canonical_size "VENTI" = false
  /\ build_order_item BEVERAGE (Spec.sized_item "카페라떼" 2 "VENTI")
     = Some (new_OrderItem "카페라떼" 2 BEVERAGE 5000 None [])
  /\ subtotal (new_OrderItem "카페라떼" 2 BEVERAGE 5000 None []) = 10000.
Proof.
  assert (H1 : Item.size (Spec.sized_item "카페라떼" 2 "VENTI")
               = Some "VENTI") by reflexivity.
  assert (H2 : Spec.canonical_size "VENTI" = false) by reflexivity.
  split; [exact H1|]. split; [exact H2|]. split; [|reflexivity].
  rewrite (proj1 (proj1 noncanonical_size_dropped BEVERAGE
                    (Spec.sized_item "카페라떼" 2 "VENTI") "VENTI" H1 H2)).
  reflexivity.
Defined.

End SizeParsing.

(* ================================================================== *)
(** * The catalogue (get_menu_item, get_all_menu_names, search_menu) *)
(* ================================================================== *)

Section Catalogue.
Import MenuDatabase.

Lemma dict_get_Some_In {V} (d : list (string * V)) (n : string) (v : V) :
  Py.dict_get String.eqb d n = Some v -> In (n, v) d.
Proof.
  induction d as [|[k x] d IH]; simpl; [discriminate|].
  destruct (String.eqb_spec k n) as [->|Hne].
  - intros [= ->]. now left.
  - intros H. right. now apply IH.
Qed.

Lemma dict_get_None_notin {V} (d : list (string * V)) (n : string) :
  Py.dict_get String.eqb d n = None <-> ~ In n (Py.dict_keys d).
Proof.
  induction d as [|[k x] d IH]; simpl; [tauto|].
  destruct (String.eqb_spec k n) as [->|Hne].
  - split; [discriminate|]. intros H. exfalso. apply H. now left.
  - rewrite IH. split; [intros H [?|?]; [contradiction|auto]|tauto].
Qed.

Lemma dict_get_In_NoDup {V} (d : list (string * V)) (n : string) (v : V) :
  NoDup (Py.dict_keys d) -> In (n, v) d ->
  Py.dict_get String.eqb d n = Some v.
Proof.
  induction d as [|[k x] d IH]; simpl; [intros _ []|].
  intros Hnd. apply NoDup_cons in Hnd as [Hk Hnd].
  intros [[= -> ->]|Hin].
  - now rewrite String.eqb_refl.
  - destruct (String.eqb_spec k n) as [->|Hne]; [|now apply IH].
    exfalso. apply Hk. apply list_elem_of_In.
    change n with (fst (n, v)). now apply in_map.
Qed.

(** No name occurs twice in the catalogue, within or across
    categories. *)
Lemma menu_names_NoDup : NoDup get_all_menu_names.
Proof.
  apply (bool_decide_unpack _). vm_compute. exact I.
Qed.


(** Each menu table files its entries under their own names and its own
    category, and every entry is available. *)
Lemma entries_well_filed (c : MenuCategory) (k : string) (it : MenuItem) :
  In (c, (k, it)) Notions.entries ->
  name it = k /\ category it = c /\ available it = true.
Proof.
  intros Hin.
  assert (Hall : forallb
            (fun '(c, (k, it)) =>
               String.eqb (name it) k && MenuCategory_eqb (category it) c
               && available it) Notions.entries = true)
    by (vm_compute; reflexivity).
  rewrite forallb_forall in Hall. specialize (Hall _ Hin). cbn beta iota in Hall.
  apply andb_prop in Hall as [Hall Hav]. apply andb_prop in Hall as [Hn Hc].
  apply String.eqb_eq in Hn. split; [exact Hn|]. split; [|exact Hav].
  destruct (category it), c; try discriminate; reflexivity.
Qed.

Lemma entries_by_category (c : MenuCategory) (k : string) (it : MenuItem) :
  In (c, (k, it)) Notions.entries <-> In (k, it) (get_menu_by_category c).
Proof.
  change Notions.entries
    with (map (pair BEVERAGE) BEVERAGE_MENU
          ++ (map (pair DESSERT) DESSERT_MENU
              ++ (map (pair MEAL) MEAL_MENU ++ [])))%list.
  rewrite !in_app_iff, !in_map_iff. split.
  - intros [(x & [= <- <-] & H)|[(x & [= <- <-] & H)|[(x & [= <- <-] & H)|[]]]];
      exact H.
  - intros H.
    destruct c; [left|right; left|right; right; left]; eexists; split;
      try reflexivity; exact H.
Qed.

Lemma category_menu_listed (c : MenuCategory) :
  In (get_menu_by_category c) (Py.dict_values MENU_DATABASE).
Proof.
  change (Py.dict_values MENU_DATABASE)
    with [get_menu_by_category BEVERAGE; get_menu_by_category DESSERT;
          get_menu_by_category MEAL].
  destruct c; cbn [In]; tauto.
Qed.

Lemma listed_menu_category (m : list (string * MenuItem)) :
  In m (Py.dict_values MENU_DATABASE) -> exists c, m = get_menu_by_category c.
Proof.
  change (Py.dict_values MENU_DATABASE)
    with [get_menu_by_category BEVERAGE; get_menu_by_category DESSERT;
          get_menu_by_category MEAL].
  intros [<-|[<-|[<-|[]]]]; eexists; reflexivity.
Qed.

Lemma search_all_Some (menus : list (list (string * MenuItem))) (n : string)
    (it : MenuItem) :
  search_all menus n = Some it -> exists m, In m menus /\ In (n, it) m.
Proof.
  induction menus as [|m menus IH]; cbn [search_all]; [discriminate|].
  destruct (Py.dict_get String.eqb m n) as [x|] eqn:Hm.
  - intros [= ->]. exists m. split; [now left|]. now apply dict_get_Some_In.
  - intros H. destruct (IH H) as (m' & Hin & Hm'). exists m'.
    split; [now right|exact Hm'].
Qed.

Lemma search_all_NoDup (menus : list (list (string * MenuItem))) (n : string)
    (it : MenuItem) (m : list (string * MenuItem)) :
  NoDup (concat (map Py.dict_keys menus)) ->
  In m menus -> In (n, it) m -> search_all menus n = Some it.
Proof.
  induction menus as [|m0 menus IH]; cbn [search_all map concat];
    [intros _ []|].
  intros Hnd. apply NoDup_app in Hnd as (Hnd0 & Hdisj & Hnd').
  intros [->|Hin] Hm.
  - now rewrite (dict_get_In_NoDup m n it Hnd0 Hm).
  - destruct (Py.dict_get String.eqb m0 n) as [x|] eqn:H0;
      [|now apply IH].
    exfalso. apply dict_get_Some_In in H0.
    apply (Hdisj n).
    + apply list_elem_of_In. change n with (fst (n, x)). now apply in_map.
    + apply list_elem_of_In. apply in_concat. exists (Py.dict_keys m).
      split; [now apply in_map|].
      change n with (fst (n, it)). now apply in_map.
Qed.

Lemma category_menu_NoDup (c : MenuCategory) :
  NoDup (Py.dict_keys (get_menu_by_category c)).
Proof.
  destruct c; apply (bool_decide_unpack _); vm_compute; exact I.
Qed.

Lemma get_menu_item_entry (n : string) (c : MenuCategory) (it : MenuItem) :
  get_menu_item n (Some c) = Some it <-> In (c, (n, it)) Notions.entries.
Proof.
  rewrite entries_by_category. cbn [get_menu_item]. split.
  - apply dict_get_Some_In.
  - apply dict_get_In_NoDup, category_menu_NoDup.
Qed.

Lemma get_menu_item_any_entry (n : string) (it : MenuItem) :
  get_menu_item n None = Some it
  <-> exists c, In (c, (n, it)) Notions.entries.
Proof.
  cbn [get_menu_item]. split.
  - intros H. apply search_all_Some in H as (m & Hm & Hin).
    apply listed_menu_category in Hm as [c ->]. exists c.
    now apply entries_by_category.
  - intros [c Hin]. apply entries_by_category in Hin.
    eapply search_all_NoDup; [exact menu_names_NoDup| |exact Hin].
    apply category_menu_listed.
Qed.

(** X1.  A lookup with a category and a lookup without one agree: the
    item found under the name [n] in category [c] is the item found
    under [n] with no category, and an item found with no category is
    found again under the category it carries, and under no other. *)
Theorem get_menu_item_category_agrees :
  forall (n : string) (c : MenuCategory) (it : MenuItem),
    get_menu_item n (Some c) = Some it
    <-> get_menu_item n None = Some it /\ category it = c.
Proof.
  intros n c it. rewrite get_menu_item_entry, get_menu_item_any_entry. split.
  - intros H. split; [now exists c|].
    now destruct (entries_well_filed _ _ _ H) as (_ & Hc & _).
  - intros [[c' H] Hc].
    destruct (entries_well_filed _ _ _ H) as (_ & Hc' & _).
    congruence.
Qed.

Lemma catalogue_item_named (n : string) (c : option MenuCategory)
    (it : MenuItem) :
  get_menu_item n c = Some it ->
  (exists c', In (c', (n, it)) Notions.entries)
  /\ name it = n /\ available it = true.
Proof.
  intros H.
  assert (Hent : exists c', In (c', (n, it)) Notions.entries).
  { destruct c as [c|].
    - exists c. now apply get_menu_item_entry.
    - now apply get_menu_item_any_entry. }
  split; [exact Hent|]. destruct Hent as [c' Hin].
  destruct (entries_well_filed _ _ _ Hin) as (Hn & _ & Hav). now split.
Qed.

Lemma catalogue_item_priced (n : string) (c : option MenuCategory)
    (it : MenuItem) :
  get_menu_item n c = Some it -> 0 < base_price it.
Proof.
  intros H. destruct (catalogue_item_named n c it H) as [[c' Hin] _].
  assert (Hall : forallb (fun '(_, (_, it)) => 0 <? base_price it)
                   Notions.entries = true) by (vm_compute; reflexivity).
  rewrite forallb_forall in Hall. specialize (Hall _ Hin).
  cbn beta iota in Hall. now apply Z.ltb_lt.
Qed.

(** X2.  Whatever the category argument, the item a lookup returns
    carries the name that was asked for, is available, and has a
    positive base price. *)
Theorem get_menu_item_named :
  forall (n : string) (c : option MenuCategory) (it : MenuItem),
    get_menu_item n c = Some it ->
    name it = n /\ available it = true /\ 0 < base_price it.
Proof.
  intros n c it H.
  destruct (catalogue_item_named n c it H) as (_ & Hn & Hav).
  split; [exact Hn|]. split; [exact Hav|].
  exact (catalogue_item_priced n c it H).
Qed.

Lemma get_menu_item_named_witness :
  exists it, get_menu_item "카페라떼" (Some BEVERAGE) = Some it
             /\ name it = "카페라떼" /\ available it = true
             /\ 0 < base_price it.
Proof.
  destruct (get_menu_item "카페라떼" (Some BEVERAGE)) as [it|] eqn:H.
  - exists it. split; [reflexivity|].
    exact (get_menu_item_named "카페라떼" (Some BEVERAGE) it H).
  - vm_compute in H. discriminate.
Defined.


Lemma menu_name_listed (n : string) :
  In n get_all_menu_names <-> exists c it, In (c, (n, it)) Notions.entries.
Proof.
  unfold get_all_menu_names. rewrite in_concat. split.
  - intros (keys & Hkeys & Hn). apply in_map_iff in Hkeys as (m & <- & Hm).
    apply listed_menu_category in Hm as [c ->].
    apply in_map_iff in Hn as ([k it] & Hk & Hin). cbn in Hk. subst k.
    exists c, it. now apply entries_by_category.
  - intros (c & it & Hin). apply entries_by_category in Hin.
    exists (Py.dict_keys (get_menu_by_category c)). split.
    + apply in_map, category_menu_listed.
    + change n with (fst (n, it)). now apply in_map.
Qed.

(** X3.  [get_all_menu_names] lists no name twice, and it lists exactly
    the names that [validate_menu_item] accepts: with the catalogue as
    shipped a name is rejected only as not found, never as sold out. *)
Theorem menu_names_are_the_valid_menus :
  NoDup get_all_menu_names
  /\ forall n : string,
       In n get_all_menu_names
       <-> Validators.is_valid (Validators.validate_menu_item n None) = true.
Proof.
  split; [exact menu_names_NoDup|]. intros n.
  rewrite menu_name_listed. unfold Validators.validate_menu_item.
  destruct (get_menu_item n None) as [it|] eqn:H.
  - destruct (catalogue_item_named n None it H) as (_ & _ & ->). cbn.
    split; [reflexivity|]. intros _.
    apply get_menu_item_any_entry in H as [c Hin]. now exists c, it.
  - cbn. split; [|discriminate].
    intros (c & it & Hin).
    assert (Hs : get_menu_item n None = Some it)
      by (apply get_menu_item_any_entry; now exists c).
    congruence.
Qed.

Lemma prefix_refl (s : string) : String.prefix s s = true.
Proof.
  induction s as [|c s IH]; [reflexivity|].
  cbn. now destruct (ascii_dec c c).
Qed.

Lemma contains_refl (s : string) : Py.contains s s = true.
Proof.
  destruct s; unfold Py.contains; fold Py.contains;
    now rewrite prefix_refl.
Qed.

Lemma in_concat_filter {A B} (p : B -> bool) (f : A -> list B) (l : list A)
    (x : B) :
  In x (concat (map (fun a => List.filter p (f a)) l))
  <-> In x (concat (map f l)) /\ p x = true.
Proof.
  induction l as [|a l IH]; cbn [map concat]; [cbn; tauto|].
  rewrite !in_app_iff, filter_In, IH. tauto.
Qed.

Lemma all_items_entries (it : MenuItem) :
  In it Notions.all_items <-> exists c k, In (c, (k, it)) Notions.entries.
Proof.
  unfold Notions.all_items. rewrite in_concat. split.
  - intros (vals & Hvals & Hit). apply in_map_iff in Hvals as (m & <- & Hm).
    apply listed_menu_category in Hm as [c ->].
    apply in_map_iff in Hit as ([k it'] & Hk & Hin). cbn in Hk. subst it'.
    exists c, k. now apply entries_by_category.
  - intros (c & k & Hin). apply entries_by_category in Hin.
    exists (Py.dict_values (get_menu_by_category c)). split.
    + apply in_map, category_menu_listed.
    + change it with (snd (k, it)). now apply in_map.
Qed.

Lemma search_menu_In (keyword : string) (it : MenuItem) :
  In it (search_menu keyword)
  <-> In it Notions.all_items
      /\ Py.contains (Py.lower keyword) (Py.lower (name it))
         || Py.contains (Py.lower keyword) (Py.lower (description it))
         = true.
Proof.
  unfold search_menu, Notions.all_items.
  exact (in_concat_filter _ Py.dict_values _ it).
Qed.

Lemma search_menu_finds_named_item (n : string) (c : option MenuCategory)
    (it : MenuItem) :
  get_menu_item n c = Some it -> In it (search_menu n).
Proof.
  intros H. apply search_menu_In. split.
  - apply (get_menu_item_In n c it H).
  - destruct (catalogue_item_named n c it H) as (_ & -> & _).
    now rewrite contains_refl.
Qed.

Lemma search_menu_results_retrievable (keyword : string) (it : MenuItem) :
  In it (search_menu keyword) ->
  get_menu_item (name it) None = Some it
  /\ get_menu_item (name it) (Some (category it)) = Some it.
Proof.
  intros H. apply search_menu_In in H as [H _].
  apply all_items_entries in H as (c & k & Hin).
  destruct (entries_well_filed _ _ _ Hin) as (Hn & Hc & _). subst k c.
  split.
  - apply get_menu_item_any_entry. now exists (category it).
  - now apply get_menu_item_entry.
Qed.

(** X4.  [search_menu] and [get_menu_item] agree.  Searching for the
    exact name of an item finds that item: what [get_menu_item] returns
    for [n] is among the results of [search_menu n].  And every result
    of a search, for any keyword, is a catalogue item that
    [get_menu_item] returns when asked for the result's own name, with
    or without its category. *)
Theorem search_menu_round_trip :
  (forall (n : string) (c : option MenuCategory) (it : MenuItem),
     get_menu_item n c = Some it -> In it (search_menu n))
  /\ (forall (keyword : string) (it : MenuItem),
        In it (search_menu keyword) ->
        get_menu_item (name it) None = Some it
        /\ get_menu_item (name it) (Some (category it)) = Some it).
Proof.
  split.
  - exact search_menu_finds_named_item.
  - exact search_menu_results_retrievable.
Qed.

Lemma search_menu_round_trip_witness :
  exists it, In it (search_menu "초콜릿")
             /\ get_menu_item (name it) None = Some it
             /\ In it (search_menu (name it)).
Proof.
  destruct (search_menu "초콜릿") as [|it l] eqn:H.
  - vm_compute in H. discriminate.
  - exists it.
    assert (Hin : In it (search_menu "초콜릿")) by (rewrite H; now left).
    destruct (proj2 search_menu_round_trip "초콜릿" it Hin) as [Hget _].
    split; [now left|]. split; [exact Hget|].
    exact (proj1 search_menu_round_trip (name it) None it Hget).
Defined.

End Catalogue.

(* ================================================================== *)
(** * Order text (validate_order_text, normalize_whitespace) *)
(* ================================================================== *)

Section OrderText.
Import Validators.

Lemma space_not_continuation (c : ascii) :
  Py.is_space c = true -> Py.is_continuation c = false.
Proof.
  unfold Py.is_space, Py.is_continuation. intros H.
  apply andb_false_iff. left. apply N.leb_gt.
  apply orb_prop in H as [H|H]; apply andb_prop in H as [_ H];
    apply N.leb_le in H; lia.
Qed.

Lemma rstrip_cons (c : ascii) (s : string) :
  Py.rstrip (String c s)
  = match Py.rstrip s with
    | EmptyString => if Py.is_space c then EmptyString else String c EmptyString
    | r => String c r
    end.
Proof. reflexivity. Qed.

Lemma rstrip_idempotent (s : string) : Py.rstrip (Py.rstrip s) = Py.rstrip s.
Proof.
  induction s as [|c s IH]; [reflexivity|]. rewrite rstrip_cons.
  destruct (Py.rstrip s) as [|d r] eqn:Hr.
  - destruct (Py.is_space c) eqn:Hc; [reflexivity|].
    rewrite rstrip_cons. cbn [Py.rstrip]. now rewrite Hc.
  - rewrite rstrip_cons, IH. reflexivity.
Qed.

Lemma lstrip_starts_clean (s : string) : Notions.starts_clean (Py.lstrip s) = true.
Proof.
  induction s as [|c s IH]; [reflexivity|]. cbn [Py.lstrip].
  destruct (Py.is_space c) eqn:Hc; [exact IH|]. cbn. now rewrite Hc.
Qed.

Lemma lstrip_clean (s : string) : Notions.starts_clean s = true -> Py.lstrip s = s.
Proof.
  destruct s as [|c s]; [reflexivity|]. cbn.
  now destruct (Py.is_space c).
Qed.

Lemma rstrip_starts_clean (s : string) :
  Notions.starts_clean s = true -> Notions.starts_clean (Py.rstrip s) = true.
Proof.
  destruct s as [|c s]; [reflexivity|]. rewrite rstrip_cons.
  cbn [Notions.starts_clean]. intros Hc.
  destruct (Py.rstrip s); [|exact Hc].
  destruct (Py.is_space c) eqn:E; [reflexivity|]. cbn. now rewrite E.
Qed.

Lemma strip_idempotent (s : string) : Py.strip (Py.strip s) = Py.strip s.
Proof.
  unfold Py.strip.
  rewrite (lstrip_clean (Py.rstrip (Py.lstrip s))).
  - apply rstrip_idempotent.
  - apply rstrip_starts_clean, lstrip_starts_clean.
Qed.

Lemma len_cons (c : ascii) (s : string) :
  Py.len (String c s)
  = if Py.is_continuation c then Py.len s else S (Py.len s).
Proof. reflexivity. Qed.

Lemma len_lstrip (s : string) : (Py.len (Py.lstrip s) <= Py.len s)%nat.
Proof.
  induction s as [|c s IH]; [reflexivity|]. cbn [Py.lstrip].
  destruct (Py.is_space c) eqn:Hc; [|reflexivity].
  rewrite len_cons, (space_not_continuation c Hc). lia.
Qed.

Lemma len_rstrip (s : string) : (Py.len (Py.rstrip s) <= Py.len s)%nat.
Proof.
  induction s as [|c s IH]; [reflexivity|]. rewrite rstrip_cons.
  destruct (Py.rstrip s) as [|d r] eqn:Hr.
  - destruct (Py.is_space c); rewrite !len_cons; cbn [Py.len];
      destruct (Py.is_continuation c); lia.
  - rewrite (len_cons c (String d r)), (len_cons c s).
    destruct (Py.is_continuation c); lia.
Qed.

Lemma len_strip (s : string) : (Py.len (Py.strip s) <= Py.len s)%nat.
Proof.
  unfold Py.strip. etransitivity; [apply len_rstrip|apply len_lstrip].
Qed.

Lemma validate_order_text_valid (order_text : string) :
  is_valid (validate_order_text order_text) = true
  <-> (2 <= Py.len (Py.strip order_text))%nat
      /\ (Py.len order_text <= 500)%nat.
Proof.
  unfold validate_order_text.
  destruct (negb (Py.truthy order_text)
            || negb (Py.truthy (Py.strip order_text))) eqn:He.
  - cbn. split; [discriminate|]. intros [H2 _]. exfalso.
    apply orb_prop in He as [He|He]; apply negb_true_iff in He.
    + destruct order_text; [cbn in H2; lia|discriminate].
    + destruct (Py.strip order_text); [cbn in H2; lia|discriminate].
  - destruct (Py.len (Py.strip order_text) <? 2)%nat eqn:H2.
    { apply Nat.ltb_lt in H2. cbn. split; [discriminate|lia]. }
    apply Nat.ltb_ge in H2.
    destruct (500 <? Py.len order_text)%nat eqn:H5.
    { apply Nat.ltb_lt in H5. cbn. split; [discriminate|lia]. }
    apply Nat.ltb_ge in H5. cbn. split; [auto|reflexivity].
Qed.

(** X5.  On a text of ASCII characters and Hangul syllables, where
    [Py.strip] is [str.strip], [validate_order_text] accepts the text
    exactly when its trimmed form has at least two characters and the
    text as given has at most 500; the emptiness test adds nothing to the
    length tests.  An accepted text is returned trimmed, a rejected one
    carries no data and exactly one error code. *)
Theorem validate_order_text_accepts :
  forall order_text : string,
    Py.is_plain order_text = true ->
    (is_valid (validate_order_text order_text) = true
     <-> (2 <= Py.len (Py.strip order_text))%nat
         /\ (Py.len order_text <= 500)%nat)
    /\ (is_valid (validate_order_text order_text) = true ->
        data (validate_order_text order_text) = Some (Py.strip order_text)
        /\ errors (validate_order_text order_text) = [])
    /\ (is_valid (validate_order_text order_text) = false ->
        data (validate_order_text order_text) = None
        /\ List.length (errors (validate_order_text order_text)) = 1%nat).
Proof.
  intros s _. split; [apply validate_order_text_valid|].
  unfold validate_order_text.
  destruct (negb (Py.truthy s) || negb (Py.truthy (Py.strip s)));
    [cbn; split; [discriminate|auto]|].
  destruct (Py.len (Py.strip s) <? 2)%nat;
    [cbn; split; [discriminate|auto]|].
  destruct (500 <? Py.len s)%nat; cbn; split; auto; discriminate.
Qed.

Lemma validate_order_text_accepts_witness :
  Py.is_plain "  아메리카노 2잔  " = true
  /\ is_valid (validate_order_text "  아메리카노 2잔  ") = true
  /\ data (validate_order_text "  아메리카노 2잔  ") = Some "아메리카노 2잔"
  /\ errors (validate_order_text "  아메리카노 2잔  ") = [].
Proof.
  destruct (validate_order_text_accepts "  아메리카노 2잔  " eq_refl)
    as (Hiff & Hdata & _).
  assert (Hv : is_valid (validate_order_text "  아메리카노 2잔  ") = true).
  { apply Hiff. vm_compute. split; lia. }
  split; [reflexivity|]. split; [exact Hv|]. exact (Hdata Hv).
Defined.

(** X6.  On a text of ASCII characters and Hangul syllables, where
    [Py.strip] is [str.strip], validating the text that
    [validate_order_text] returned gives the same result again: an
    accepted text stays accepted, and trimming it a second time changes
    nothing. *)
Theorem validate_order_text_stable :
  forall order_text : string,
    Py.is_plain order_text = true ->
    is_valid (validate_order_text order_text) = true ->
    validate_order_text (Py.strip order_text)
    = validate_order_text order_text.
Proof.
  intros s _ Hv.
  destruct (proj1 (validate_order_text_valid s) Hv) as [H2 H5].
  assert (Hs : Py.len (Py.strip s) <> O) by lia.
  unfold validate_order_text. rewrite strip_idempotent.
  assert (Ht : Py.truthy (Py.strip s) = true)
    by (destruct (Py.strip s); [contradiction|reflexivity]).
  assert (Ht' : Py.truthy s = true).
  { destruct s; [|reflexivity]. cbn in Hs. contradiction. }
  rewrite Ht, Ht'. cbn [negb orb].
  pose proof (len_strip s) as Hle.
  destruct (Py.len (Py.strip s) <? 2)%nat eqn:E2;
    [apply Nat.ltb_lt in E2; lia|].
  destruct (500 <? Py.len (Py.strip s))%nat eqn:E5;
    [apply Nat.ltb_lt in E5; lia|].
  destruct (500 <? Py.len s)%nat eqn:E5';
    [apply Nat.ltb_lt in E5'; lia|].
  reflexivity.
Qed.

Lemma validate_order_text_stable_witness :
  Py.is_plain "  아메리카노 2잔  " = true
  /\ is_valid (validate_order_text "  아메리카노 2잔  ") = true
  /\ validate_order_text (Py.strip "  아메리카노 2잔  ")
     = validate_order_text "  아메리카노 2잔  ".
Proof.
  assert (H : is_valid (validate_order_text "  아메리카노 2잔  ") = true)
    by (vm_compute; reflexivity).
  split; [reflexivity|]. split; [exact H|].
  exact (validate_order_text_stable "  아메리카노 2잔  " eq_refl H).
Defined.

Lemma rstrip_fixed_cons (c : ascii) (s : string) :
  Py.rstrip (String c s) = String c s ->
  Py.rstrip s = s /\ (s = EmptyString -> Py.is_space c = false).
Proof.
  rewrite rstrip_cons. destruct (Py.rstrip s) as [|d r] eqn:Hr.
  - destruct (Py.is_space c); [discriminate|].
    intros [= <-]. split; [reflexivity|reflexivity].
  - intros [= <-]. split; [reflexivity|discriminate].
Qed.

Lemma collapse_spaced (s : string) :
  Py.rstrip s = s -> s <> EmptyString ->
  forall in_run : bool,
    Notions.spaced (Py.collapse_spaces s in_run) in_run = true.
Proof.
  induction s as [|c s IH]; [contradiction|]. intros Hfix _ in_run.
  apply rstrip_fixed_cons in Hfix as [Hfix Hlast].
  cbn [Py.collapse_spaces]. destruct (Py.is_space c) eqn:Hc.
  - assert (Hne : s <> EmptyString)
      by (intros ->; specialize (Hlast eq_refl); discriminate).
    destruct in_run; [now apply IH|].
    cbn [Notions.spaced]. change (Py.is_space " ") with true.
    cbn [negb andb]. change (Ascii.eqb " " " ") with true. cbn [andb].
    now apply IH.
  - cbn [Notions.spaced]. rewrite Hc.
    destruct s as [|d s']; [reflexivity|]. now apply IH.
Qed.

Lemma spaced_collapse (s : string) :
  forall after_space : bool,
    Notions.spaced s after_space = true ->
    Py.collapse_spaces s after_space = s.
Proof.
  induction s as [|c s IH]; intros b H; [reflexivity|].
  cbn [Notions.spaced] in H. cbn [Py.collapse_spaces].
  destruct (Py.is_space c) eqn:Hc.
  - apply andb_prop in H as [H Hs]. apply andb_prop in H as [Hb Heq].
    apply negb_true_iff in Hb. subst b. apply Ascii.eqb_eq in Heq. subst c.
    now rewrite (IH true Hs).
  - now rewrite (IH false H).
Qed.

Lemma spaced_rstrip (s : string) :
  forall after_space : bool,
    Notions.spaced s after_space = true -> Py.rstrip s = s.
Proof.
  induction s as [|c s IH]; intros b H; [reflexivity|].
  cbn [Notions.spaced] in H. rewrite rstrip_cons.
  destruct (Py.is_space c) eqn:Hc.
  - apply andb_prop in H as [_ Hs]. rewrite (IH true Hs).
    destruct s; [discriminate|reflexivity].
  - rewrite (IH false H). now destruct s.
Qed.

Lemma spaced_clean (s : string) :
  Notions.starts_clean s = true -> s <> EmptyString ->
  Notions.spaced s true = Notions.spaced s false.
Proof.
  destruct s as [|c s]; [contradiction|]. cbn. intros Hc _.
  apply negb_true_iff in Hc. now rewrite Hc.
Qed.

Lemma collapse_starts_clean (s : string) :
  Notions.starts_clean s = true ->
  Notions.starts_clean (Py.collapse_spaces s false) = true
  /\ (s <> EmptyString -> Py.collapse_spaces s false <> EmptyString).
Proof.
  destruct s as [|c s]; [split; [reflexivity|contradiction]|].
  cbn. intros Hc. apply negb_true_iff in Hc. rewrite Hc. cbn.
  rewrite Hc. split; [reflexivity|discriminate].
Qed.

Lemma strip_trimmed (s : string) :
  Notions.starts_clean (Py.strip s) = true
  /\ Py.rstrip (Py.strip s) = Py.strip s.
Proof.
  unfold Py.strip. split.
  - apply rstrip_starts_clean, lstrip_starts_clean.
  - apply rstrip_idempotent.
Qed.

Lemma normalize_single_spaced (text : string) :
  Notions.single_spaced (normalize_whitespace text) = true.
Proof.
  unfold normalize_whitespace, Notions.single_spaced.
  destruct (strip_trimmed text) as [Hclean Hfix].
  destruct (Py.strip text) as [|c s] eqn:Hs; [reflexivity|].
  assert (Hne : String c s <> EmptyString) by discriminate.
  destruct (collapse_starts_clean _ Hclean) as [Hclean' Hne'].
  specialize (Hne' Hne).
  pose proof (collapse_spaced _ Hfix Hne false) as Hsp.
  rewrite <- (spaced_clean _ Hclean' Hne') in Hsp.
  destruct (Py.collapse_spaces (String c s) false); [reflexivity|exact Hsp].
Qed.

Lemma single_spaced_fixed (text : string) :
  Notions.single_spaced text = true -> normalize_whitespace text = text.
Proof.
  unfold normalize_whitespace, Notions.single_spaced.
  destruct text as [|c s]; [reflexivity|]. intros H.
  assert (Hclean : Notions.starts_clean (String c s) = true).
  { cbn in H |- *. destruct (Py.is_space c); [discriminate|reflexivity]. }
  unfold Py.strip. rewrite (lstrip_clean _ Hclean), (spaced_rstrip _ _ H).
  apply spaced_collapse. rewrite <- spaced_clean; [exact H|exact Hclean|].
  discriminate.
Qed.

Lemma non_space_cons (c : ascii) (s : string) :
  Notions.non_space (String c s)
  = if Py.is_space c then Notions.non_space s else c :: Notions.non_space s.
Proof.
  unfold Notions.non_space. cbn [list_ascii_of_string List.filter].
  now destruct (Py.is_space c).
Qed.

Lemma non_space_lstrip (s : string) :
  Notions.non_space (Py.lstrip s) = Notions.non_space s.
Proof.
  induction s as [|c s IH]; [reflexivity|]. cbn [Py.lstrip].
  destruct (Py.is_space c) eqn:Hc; [|reflexivity].
  now rewrite non_space_cons, Hc.
Qed.

Lemma non_space_rstrip (s : string) :
  Notions.non_space (Py.rstrip s) = Notions.non_space s.
Proof.
  induction s as [|c s IH]; [reflexivity|]. rewrite rstrip_cons.
  rewrite (non_space_cons c s), <- IH.
  destruct (Py.rstrip s) as [|d r].
  - destruct (Py.is_space c) eqn:Hc; [reflexivity|].
    now rewrite non_space_cons, Hc.
  - now rewrite non_space_cons.
Qed.

Lemma non_space_collapse (s : string) (in_run : bool) :
  Notions.non_space (Py.collapse_spaces s in_run) = Notions.non_space s.
Proof.
  revert in_run. induction s as [|c s IH]; intros b; [reflexivity|].
  cbn [Py.collapse_spaces]. rewrite (non_space_cons c s).
  destruct (Py.is_space c) eqn:Hc.
  - destruct b; [apply IH|].
    rewrite non_space_cons. change (Py.is_space " ") with true. apply IH.
  - now rewrite non_space_cons, Hc, IH.
Qed.

(** X7.  On a text of ASCII characters and Hangul syllables, whose
    whitespace is the ASCII one of [Py.is_space], [normalize_whitespace]
    returns a text that is trimmed and whose words are separated by
    single spaces; it keeps every character that is not whitespace, in
    order; normalising twice is the same as normalising once; and the
    texts it leaves as they are are exactly the trimmed, single-spaced
    ones. *)
Theorem normalize_whitespace_canonical :
  forall text : string,
    Py.is_plain text = true ->
    Notions.single_spaced (normalize_whitespace text) = true
    /\ Notions.non_space (normalize_whitespace text) = Notions.non_space text
    /\ normalize_whitespace (normalize_whitespace text)
       = normalize_whitespace text
    /\ (normalize_whitespace text = text
        <-> Notions.single_spaced text = true).
Proof.
  intros text _. split; [apply normalize_single_spaced|]. split; [|split].
  - unfold normalize_whitespace, Py.strip.
    now rewrite non_space_collapse, non_space_rstrip, non_space_lstrip.
  - apply single_spaced_fixed, normalize_single_spaced.
  - split.
    + intros H. rewrite <- H. apply normalize_single_spaced.
    + apply single_spaced_fixed.
Qed.

Lemma normalize_whitespace_canonical_witness :
  Py.is_plain "  아이스   라떼 " = true
  /\ normalize_whitespace "  아이스   라떼 " = "아이스 라떼"
  /\ Notions.single_spaced (normalize_whitespace "  아이스   라떼 ") = true
  /\ normalize_whitespace (normalize_whitespace "  아이스   라떼 ")
     = normalize_whitespace "  아이스   라떼 ".
Proof.
  destruct (normalize_whitespace_canonical "  아이스   라떼 " eq_refl)
    as (Hsingle & _ & Hidem & _).
  split; [reflexivity|]. split; [reflexivity|].
  split; [exact Hsingle|exact Hidem].
Defined.

End OrderText.

(* ================================================================== *)
(** * Editing an order (Order.add_item, Order.remove_item) *)
(* ================================================================== *)

Section OrderEditing.
Import OrderService.
Variable settings : Settings.

Lemma filter_length_le {A} (p : A -> bool) (l : list A) :
  (List.length (List.filter p l) <= List.length l)%nat.
Proof.
  induction l as [|x l IH]; cbn; [lia|]. destruct (p x); cbn; lia.
Qed.

Lemma filter_same_length {A} (p : A -> bool) (l : list A) :
  List.length (List.filter p l) = List.length l -> List.filter p l = l.
Proof.
  induction l as [|x l IH]; cbn; [reflexivity|].
  pose proof (filter_length_le p l) as Hle.
  destruct (p x); cbn; intros H; [f_equal; apply IH; lia|lia].
Qed.

Lemma filter_shorter {A} (p : A -> bool) (l : list A) :
  (List.length (List.filter p l) <? List.length l)%nat = true
  <-> exists x, In x l /\ p x = false.
Proof.
  rewrite Nat.ltb_lt. induction l as [|x l IH]; cbn.
  - split; [lia|intros (x & [] & _)].
  - pose proof (filter_length_le p l) as Hle.
    destruct (p x) eqn:Hx; cbn.
    + rewrite <- Nat.succ_lt_mono, IH. split.
      * intros (y & Hy & Hp). exists y. auto.
      * intros (y & [<-|Hy] & Hp); [congruence|]. now exists y.
    + split; [|lia]. intros _. exists x. auto.
Qed.

Lemma with_items_same (o : Order) : with_items o (items o) = o.
Proof. now destruct o. Qed.

Lemma calculate_amounts_touch (o : Order) (now : Z) :
  calculate_amounts settings (touch o now)
  = touch (calculate_amounts settings o) now.
Proof. reflexivity. Qed.

Lemma calculate_amounts_idempotent (o : Order) :
  calculate_amounts settings (calculate_amounts settings o)
  = calculate_amounts settings o.
Proof. reflexivity. Qed.

Lemma names_filter_out (n : string) (l : list OrderItem) :
  ~ In n (map menu_name l) ->
  List.filter (fun item => negb (String.eqb (menu_name item) n)) l = l.
Proof.
  induction l as [|x l IH]; cbn [List.filter map In]; [reflexivity|].
  intros H.
  destruct (String.eqb_spec (menu_name x) n) as [Heq|Hne]; cbn [negb].
  - exfalso. apply H. now left.
  - f_equal. apply IH. tauto.
Qed.

Lemma remove_item_found (o : Order) (n : string) (now : Z) :
  In n (map menu_name (items o)) ->
  fst (remove_item settings o n now) = true
  /\ snd (remove_item settings o n now)
     = touch (calculate_amounts settings
                (with_items o
                   (List.filter
                      (fun item => negb (String.eqb (menu_name item) n))
                      (items o)))) now.
Proof.
  intros Hin. unfold remove_item. cbn [items with_items].
  set (keep := fun item : OrderItem => negb (String.eqb (menu_name item) n)).
  assert (E : (List.length (List.filter keep (items o))
               <? List.length (items o))%nat = true).
  { apply filter_shorter. apply in_map_iff in Hin as (x & Hn & Hx).
    exists x. split; [exact Hx|]. unfold keep.
    rewrite Hn, String.eqb_refl. reflexivity. }
  rewrite E. split; reflexivity.
Qed.

(** X8.  [remove_item] reports a removal exactly when the order has a
    line of that menu.  Afterwards no line of that menu is left, and the
    lines of other menus are the ones the order had. *)
Theorem remove_item_removes_every_line :
  forall (self : Order) (name : string) (now : Z),
    (fst (remove_item settings self name now) = true
     <-> In name (map menu_name (items self)))
    /\ ~ In name (map menu_name
                    (items (snd (remove_item settings self name now))))
    /\ forall line : OrderItem,
         menu_name line <> name ->
         (In line (items (snd (remove_item settings self name now)))
          <-> In line (items self)).
Proof.
  intros o n now. unfold remove_item. cbn [items with_items].
  set (keep := fun item : OrderItem => negb (String.eqb (menu_name item) n)).
  assert (Hitems :
    items (snd (if (List.length (List.filter keep (items o))
                    <? List.length (items o))%nat
                then (true, touch (calculate_amounts settings
                              (with_items o (List.filter keep (items o)))) now)
                else (false, with_items o (List.filter keep (items o)))))
    = List.filter keep (items o)).
  { destruct (_ <? _)%nat; reflexivity. }
  rewrite Hitems. split; [|split].
  - destruct (List.length (List.filter keep (items o))
              <? List.length (items o))%nat eqn:E; cbn [fst].
    + split; [intros _|reflexivity].
      apply filter_shorter in E as (x & Hx & Hp).
      apply negb_false_iff, String.eqb_eq in Hp. subst n. now apply in_map.
    + split; [discriminate|]. intros Hin. exfalso.
      apply in_map_iff in Hin as (x & Hn & Hx).
      assert (Ex : exists x, In x (items o) /\ keep x = false).
      { exists x. split; [exact Hx|]. unfold keep.
        rewrite Hn, String.eqb_refl. reflexivity. }
      apply filter_shorter in Ex. congruence.
  - intros Hin. apply in_map_iff in Hin as (x & Hn & Hx).
    apply filter_In in Hx as [_ Hk]. unfold keep in Hk.
    rewrite Hn, String.eqb_refl in Hk. discriminate.
  - intros line Hne. rewrite filter_In. unfold keep.
    apply String.eqb_neq in Hne. rewrite Hne. cbn. tauto.
Qed.

Lemma remove_item_absent_unchanged (o : Order) (n : string) (now : Z) :
  ~ In n (map menu_name (items o)) ->
  remove_item settings o n now = (false, o).
Proof.
  intros H. unfold remove_item. cbn [items with_items].
  rewrite (names_filter_out n (items o) H), Nat.ltb_irrefl.
  now rewrite with_items_same.
Qed.

Lemma remove_item_items (o : Order) (n : string) (now : Z) :
  items (snd (remove_item settings o n now))
  = List.filter (fun item => negb (String.eqb (menu_name item) n)) (items o).
Proof.
  unfold remove_item. cbn [items with_items].
  destruct (_ <? _)%nat; reflexivity.
Qed.

(** X9.  What [remove_item] does to the rest of the order, at a tax
    rate of 0, 0.1 or 0.2 and with lines left whose subtotals sum to at
    most 10^15 in absolute value.  A removal that finds no line of the
    menu changes nothing: the flag is false and the order, its amounts
    and its update time included, is the order as it was.  A removal
    that finds a line recomputes the amounts from the lines that are
    left, with the tax that [int(total_amount * tax_rate)] gives in
    binary64, and stamps the time of the call; the id, the status, the
    creation time and the notes stay. *)
Theorem remove_item_outcome :
  forall (self : Order) (name : string) (now : Z),
    Spec.configured_rate settings ->
    Spec.kiosk_amount
      (Py.sum (map subtotal
                 (items (snd (remove_item settings self name now))))) ->
    (~ In name (map menu_name (items self)) ->
     remove_item settings self name now = (false, self))
    /\ (In name (map menu_name (items self)) ->
        let after := snd (remove_item settings self name now) in
        Notions.amounts_consistent settings after
        /\ total_amount after = Py.sum (map subtotal (items after))
        /\ tax_in_binary64 settings (total_amount after)
           = Some (tax_amount after)
        /\ final_amount after = total_amount after + tax_amount after
        /\ updated_at after = now
        /\ (order_id after, status after, created_at after,
            customer_notes after)
           = (order_id self, status self, created_at self,
              customer_notes self)).
Proof.
  intros o n now Hrate Hkiosk. split; [apply remove_item_absent_unchanged|].
  intros H after.
  destruct (remove_item_found o n now H) as [Hflag Heq].
  rewrite remove_item_items in Hkiosk.
  pose proof (tax_in_binary64_exact settings
                (with_items o
                   (List.filter
                      (fun item => negb (String.eqb (menu_name item) n))
                      (items o))) Hrate Hkiosk) as Hfloat.
  subst after. rewrite Heq.
  split; [reflexivity|]. split; [reflexivity|].
  split; [exact Hfloat|]. repeat split.
Qed.

Lemma sum_app (l1 l2 : list Z) :
  Py.sum (l1 ++ l2)%list = Py.sum l1 + Py.sum l2.
Proof.
  unfold Py.sum. induction l1 as [|x l1 IH]; cbn; [reflexivity|].
  rewrite IH. lia.
Qed.

Lemma add_item_total (o : Order) (item : OrderItem) (now : Z) :
  Py.sum (map subtotal (items (with_items o (items o ++ [item])%list)))
  = Py.sum (map subtotal (items o)) + subtotal item.
Proof. cbn [items with_items]. rewrite map_app, sum_app. cbn. lia. Qed.

(** X10.  At a tax rate of 0, 0.1 or 0.2 and with a new total of at most
    10^15 in absolute value, [add_item] puts the line last and keeps the
    others; the new total is the sum of the subtotals the order's lines
    carried plus the subtotal the new line carries, the tax is the one
    that [int(total_amount * tax_rate)] gives in binary64, the final
    amount follows from the two, and the update time is the time of the
    call. *)
Theorem add_item_appends :
  forall (self : Order) (item : OrderItem) (now : Z),
    Spec.configured_rate settings ->
    Spec.kiosk_amount (Py.sum (map subtotal (items self)) + subtotal item) ->
    let after := add_item settings self item now in
    items after = (items self ++ [item])%list
    /\ total_amount after
       = Py.sum (map subtotal (items self)) + subtotal item
    /\ tax_in_binary64 settings (total_amount after)
       = Some (tax_amount after)
    /\ Notions.amounts_consistent settings after
    /\ updated_at after = now.
Proof.
  intros o item now Hrate Hkiosk after. subst after. unfold add_item.
  rewrite <- (add_item_total o item now) in Hkiosk.
  pose proof (tax_in_binary64_exact settings
                (with_items o (items o ++ [item])%list) Hrate Hkiosk)
    as Hfloat.
  split; [reflexivity|].
  split; [exact (add_item_total o item now)|].
  split; [exact Hfloat|]. split; reflexivity.
Qed.

(** X11.  Adding a line for a menu the order does not have and then
    removing that menu gives the order back, up to the update time,
    whenever the amounts of the order were up to date. *)
Theorem add_then_remove_restores :
  forall (self : Order) (item : OrderItem) (t1 t2 : Z),
    ~ In (menu_name item) (map menu_name (items self)) ->
    Notions.amounts_consistent settings self ->
    remove_item settings (add_item settings self item t1) (menu_name item) t2
    = (true, touch self t2).
Proof.
  intros o item t1 t2 Habs Hcons.
  assert (Hin : In (menu_name item)
                  (map menu_name (items (add_item settings o item t1)))).
  { cbn [add_item items touch calculate_amounts with_items].
    rewrite map_app. apply in_or_app. right. now left. }
  destruct (remove_item_found _ _ t2 Hin) as [Hflag Heq].
  rewrite (surjective_pairing (remove_item _ _ _ _)), Hflag, Heq.
  f_equal.
  cbn [add_item items touch calculate_amounts with_items].
  rewrite List.filter_app, (names_filter_out _ _ Habs).
  cbn [List.filter]. rewrite String.eqb_refl. cbn [negb].
  rewrite app_nil_r. unfold Notions.amounts_consistent in Hcons.
  transitivity (touch (calculate_amounts settings o) t2);
    [reflexivity|now rewrite Hcons].
Qed.

End OrderEditing.

Lemma remove_item_outcome_witness :
  Spec.configured_rate default_settings
  /\ Spec.kiosk_amount
       (Py.sum (map OrderService.subtotal
                  (OrderService.items
                     (snd (OrderService.remove_item default_settings
                             Spec.sample_order "아메리카노" 7)))))
  /\ ~ In "와플" (map OrderService.menu_name
                 (OrderService.items Spec.sample_order))
  /\ OrderService.remove_item default_settings Spec.sample_order "와플" 5
     = (false, Spec.sample_order)
  /\ In "아메리카노" (map OrderService.menu_name
                       (OrderService.items Spec.sample_order))
  /\ OrderService.total_amount
       (snd (OrderService.remove_item default_settings Spec.sample_order
               "아메리카노" 7)) = 0
  /\ OrderService.tax_in_binary64 default_settings 0 = Some 0
  /\ OrderService.updated_at
       (snd (OrderService.remove_item default_settings Spec.sample_order
               "아메리카노" 7)) = 7.
Proof.
  assert (Habs : ~ In "와플" (map OrderService.menu_name
                               (OrderService.items Spec.sample_order)))
    by (vm_compute; intros [H|[]]; discriminate H).
  assert (Hin : In "아메리카노" (map OrderService.menu_name
                                  (OrderService.items Spec.sample_order)))
    by (vm_compute; left; reflexivity).
  assert (Hrate : Spec.configured_rate default_settings)
    by (right; left; reflexivity).
  assert (Hk5 : Spec.kiosk_amount
                  (Py.sum (map OrderService.subtotal
                     (OrderService.items
                        (snd (OrderService.remove_item default_settings
                                Spec.sample_order "와플" 5))))))
    by (vm_compute; split; discriminate).
  assert (Hk7 : Spec.kiosk_amount
                  (Py.sum (map OrderService.subtotal
                     (OrderService.items
                        (snd (OrderService.remove_item default_settings
                                Spec.sample_order "아메리카노" 7))))))
    by (vm_compute; split; discriminate).
  split; [exact Hrate|]. split; [exact Hk7|].
  split; [exact Habs|]. split.
  - exact (proj1 (remove_item_outcome default_settings Spec.sample_order
                    "와플" 5 Hrate Hk5) Habs).
  - split; [exact Hin|].
    destruct (proj2 (remove_item_outcome default_settings Spec.sample_order
                       "아메리카노" 7 Hrate Hk7) Hin)
      as (_ & Htotal & Hfloat & _ & Hnow & _).
    split; [rewrite Htotal; reflexivity|].
    split; [exact Hfloat|exact Hnow].
Defined.

Lemma add_item_appends_witness :
  Spec.configured_rate default_settings
  /\ Spec.kiosk_amount
       (Py.sum (map OrderService.subtotal
                  (OrderService.items Spec.sample_order))
        + OrderService.subtotal Spec.coupon_line)
  /\ OrderService.total_amount
       (OrderService.add_item default_settings Spec.sample_order
          Spec.coupon_line 3) = 10995
  /\ OrderService.tax_in_binary64 default_settings 10995 = Some 1099
  /\ OrderService.updated_at
       (OrderService.add_item default_settings Spec.sample_order
          Spec.coupon_line 3) = 3.
Proof.
  assert (Hrate : Spec.configured_rate default_settings)
    by (right; left; reflexivity).
  assert (Hk : Spec.kiosk_amount
                 (Py.sum (map OrderService.subtotal
                            (OrderService.items Spec.sample_order))
                  + OrderService.subtotal Spec.coupon_line))
    by (vm_compute; split; discriminate).
  destruct (add_item_appends default_settings Spec.sample_order
              Spec.coupon_line 3 Hrate Hk)
    as (_ & Htotal & Hfloat & _ & Hnow).
  split; [exact Hrate|]. split; [exact Hk|].
  split; [rewrite Htotal; reflexivity|].
  split; [exact Hfloat|exact Hnow].
Defined.

Lemma add_then_remove_restores_witness :
  ~ In (OrderService.menu_name Spec.coupon_line)
       (map OrderService.menu_name (OrderService.items Spec.sample_order))
  /\ Notions.amounts_consistent default_settings Spec.sample_order
  /\ OrderService.remove_item default_settings
       (OrderService.add_item default_settings Spec.sample_order
          Spec.coupon_line 3)
       (OrderService.menu_name Spec.coupon_line) 4
     = (true, OrderService.touch Spec.sample_order 4).
Proof.
  assert (H : ~ In (OrderService.menu_name Spec.coupon_line)
                   (map OrderService.menu_name
                      (OrderService.items Spec.sample_order)))
    by (vm_compute; intros [H|[]]; discriminate H).
  assert (Hc : Notions.amounts_consistent default_settings Spec.sample_order)
    by (vm_compute; reflexivity).
  split; [exact H|]. split; [exact Hc|].
  exact (add_then_remove_restores default_settings Spec.sample_order
           Spec.coupon_line 3 4 H Hc).
Defined.

(* ================================================================== *)
(** * Reports of the order service (get_order_history,
      get_popular_items, calculate_daily_revenue) *)
(* ================================================================== *)

Section Reports.
Import OrderService.

Lemma get_order_history_last (self : t) (limit : Z) :
  0 < limit ->
  exists older : list Order,
    order_history self = (older ++ get_order_history self limit)%list
    /\ List.length (get_order_history self limit)
       = Nat.min (Z.to_nat limit) (List.length (order_history self)).
Proof.
  intros Hpos. unfold get_order_history, Py.slice_from.
  set (h := order_history self).
  set (k := Py.slice_index (- limit) (List.length h)).
  exists (firstn k h). split; [now rewrite firstn_skipn|].
  rewrite length_skipn. subst k. unfold Py.slice_index.
  destruct (- limit <? 0) eqn:E; [|apply Z.ltb_ge in E; lia]. lia.
Qed.

Lemma get_order_history_nonpositive_limit (self : t) (limit : Z) :
  limit <= 0 ->
  get_order_history self limit
  = skipn (Z.to_nat (- limit)) (order_history self)
  /\ (limit = 0 -> get_order_history self limit = order_history self).
Proof.
  intros Hle.
  assert (Heq : get_order_history self limit
                = skipn (Z.to_nat (- limit)) (order_history self)).
  { unfold get_order_history, Py.slice_from, Py.slice_index.
    set (h := order_history self).
    destruct (- limit <? 0) eqn:E; [apply Z.ltb_lt in E; lia|].
    destruct (Z_le_gt_dec (- limit) (Z.of_nat (List.length h))) as [Hin|Hout].
    - f_equal. lia.
    - replace (Z.to_nat (Z.min (Z.max (- limit) 0) (Z.of_nat (List.length h))))
        with (List.length h) by lia.
      rewrite skipn_all. symmetry. apply skipn_all2. lia. }
  split; [exact Heq|]. intros ->. now rewrite Heq.
Qed.

(** X12.  What [limit] means to [get_order_history].  For a positive
    [limit] the result is the last [limit] orders of the history, in
    order, or the whole history when it is shorter.  A [limit] that is
    not positive does not limit the way its name says: with [limit = 0]
    the whole history is returned, and with a negative [limit] the first
    [-limit] orders are dropped and all later ones returned. *)
Theorem get_order_history_limit :
  forall (self : t) (limit : Z),
    (0 < limit ->
     exists older : list Order,
       order_history self = (older ++ get_order_history self limit)%list
       /\ List.length (get_order_history self limit)
          = Nat.min (Z.to_nat limit) (List.length (order_history self)))
    /\ (limit <= 0 ->
        get_order_history self limit
        = skipn (Z.to_nat (- limit)) (order_history self))
    /\ (limit = 0 -> get_order_history self limit = order_history self).
Proof.
  intros self limit. split; [apply get_order_history_last|]. split.
  - intros Hle. now apply get_order_history_nonpositive_limit.
  - intros ->. now apply get_order_history_nonpositive_limit.
Qed.

Lemma get_order_history_limit_witness :
  List.length
    (get_order_history (Spec.run_ops default_settings Spec.sample_session) 1)
  = Nat.min (Z.to_nat 1)
      (List.length
         (order_history (Spec.run_ops default_settings Spec.sample_session)))
  /\ get_order_history (Spec.run_ops default_settings Spec.sample_session) 0
     = order_history (Spec.run_ops default_settings Spec.sample_session).
Proof.
  destruct (get_order_history_limit
              (Spec.run_ops default_settings Spec.sample_session) 1)
    as [Hlast _].
  destruct (Hlast ltac:(lia)) as (older & _ & Hlen).
  split; [exact Hlen|].
  destruct (get_order_history_limit
              (Spec.run_ops default_settings Spec.sample_session) 0)
    as (_ & _ & Hall).
  exact (Hall eq_refl).
Defined.

(** ** Counters *)

Lemma sum_cons (x : Z) (l : list Z) : Py.sum (x :: l) = x + Py.sum l.
Proof. reflexivity. Qed.

Lemma dict_add_get (d : list (string * Z)) (k : string) (v : Z) (k' : string) :
  Py.dict_get String.eqb (Py.dict_add d k v) k'
  = if String.eqb k k'
    then Some (match Py.dict_get String.eqb d k with
               | Some n => n
               | None => 0
               end + v)
    else Py.dict_get String.eqb d k'.
Proof.
  induction d as [|[k0 n] d IH]; cbn [Py.dict_add Py.dict_get].
  - reflexivity.
  - destruct (String.eqb_spec k0 k) as [->|Hne]; cbn [Py.dict_get].
    + now destruct (String.eqb k k').
    + rewrite IH. destruct (String.eqb_spec k0 k') as [->|Hne'];
        [|reflexivity].
      apply String.eqb_neq in Hne. rewrite String.eqb_sym in Hne.
      now rewrite Hne.
Qed.

Lemma dict_add_keys_In (d : list (string * Z)) (k : string) (v : Z)
    (k' : string) :
  In k' (Py.dict_keys (Py.dict_add d k v)) <-> k' = k \/ In k' (Py.dict_keys d).
Proof.
  induction d as [|[k0 n] d IH]; cbn [Py.dict_add].
  - cbn. intuition congruence.
  - destruct (String.eqb_spec k0 k) as [->|Hne].
    + cbn. intuition congruence.
    + cbn [Py.dict_keys map In fst] in *. rewrite IH. tauto.
Qed.

Lemma dict_add_NoDup (d : list (string * Z)) (k : string) (v : Z) :
  NoDup (Py.dict_keys d) -> NoDup (Py.dict_keys (Py.dict_add d k v)).
Proof.
  induction d as [|[k0 n] d IH]; cbn [Py.dict_add].
  - intros _. cbn. apply NoDup_singleton.
  - destruct (String.eqb_spec k0 k) as [->|Hne]; [trivial|].
    cbn [Py.dict_keys map fst]. rewrite !NoDup_cons.
    intros [Hk0 Hnd]. split; [|now apply IH].
    rewrite list_elem_of_In in *. fold (Py.dict_keys (Py.dict_add d k v)).
    rewrite dict_add_keys_In. intros [->|H]; [congruence|].
    now apply Hk0.
Qed.

Lemma dict_add_sum (d : list (string * Z)) (k : string) (v : Z) :
  Py.sum (Py.dict_values (Py.dict_add d k v)) = Py.sum (Py.dict_values d) + v.
Proof.
  induction d as [|[k0 n] d IH]; cbn [Py.dict_add].
  - cbn. lia.
  - destruct (String.eqb k0 k).
    + cbn. lia.
    + change (Py.dict_values ((k0, n) :: Py.dict_add d k v))
        with (n :: Py.dict_values (Py.dict_add d k v)).
      change (Py.dict_values ((k0, n) :: d)) with (n :: Py.dict_values d).
      rewrite !sum_cons, IH. lia.
Qed.

(** The quantity of the lines of a menu. *)
Lemma fold_count_get (lines : list OrderItem) :
  forall (d : list (string * Z)) (n : string),
    Py.dict_get String.eqb (fold_left count_item lines d) n
    = let q := Py.sum (map quantity
                         (List.filter
                            (fun line => String.eqb (menu_name line) n)
                            lines)) in
      match Py.dict_get String.eqb d n with
      | Some v => Some (v + q)
      | None =>
          if existsb (fun line => String.eqb (menu_name line) n) lines
          then Some q else None
      end.
Proof.
  induction lines as [|x lines IH]; intros d n;
    cbn [fold_left List.filter existsb].
  - cbn. destruct (Py.dict_get String.eqb d n); [f_equal; lia|reflexivity].
  - rewrite IH. unfold count_item. rewrite dict_add_get. cbn zeta.
    destruct (String.eqb_spec (menu_name x) n) as [Heq|Hne]; cbn [orb].
    + rewrite Heq. cbn [map]. rewrite sum_cons.
      destruct (Py.dict_get String.eqb d n); f_equal; lia.
    + reflexivity.
Qed.

Lemma fold_count_NoDup (lines : list OrderItem) :
  forall d : list (string * Z),
    NoDup (Py.dict_keys d) ->
    NoDup (Py.dict_keys (fold_left count_item lines d)).
Proof.
  induction lines as [|x lines IH]; intros d Hd; cbn [fold_left];
    [exact Hd|].
  apply IH. now apply dict_add_NoDup.
Qed.

Lemma fold_count_order (history : list Order) :
  forall d : list (string * Z),
    fold_left count_order history d
    = fold_left count_item
        (flat_map items
           (List.filter
              (fun order => OrderStatus_eqb (status order) COMPLETED)
              history)) d.
Proof.
  induction history as [|o history IH]; intros d; cbn [fold_left List.filter];
    [reflexivity|].
  rewrite IH. unfold count_order.
  destruct (OrderStatus_eqb (status o) COMPLETED); [|reflexivity].
  cbn [flat_map]. now rewrite fold_left_app.
Qed.

Lemma item_counts_entry (self : t) (n : string) (c : Z) :
  In (n, c) (fold_left count_order (order_history self) [])
  <-> Notions.sold self n /\ c = Notions.sold_quantity self n.
Proof.
  rewrite fold_count_order.
  fold (Notions.completed_lines self).
  assert (Hnd : NoDup (Py.dict_keys
                         (fold_left count_item (Notions.completed_lines self)
                            [])))
    by (apply fold_count_NoDup; constructor).
  pose proof (fold_count_get (Notions.completed_lines self) [] n) as Hget.
  cbn [Py.dict_get] in Hget. cbn zeta in Hget.
  fold (Notions.sold_quantity self n) in Hget.
  assert (Hsold : existsb (fun line => String.eqb (menu_name line) n)
                    (Notions.completed_lines self) = true
                  <-> Notions.sold self n).
  { unfold Notions.sold. rewrite existsb_exists, in_map_iff.
    split; intros (x & H1 & H2).
    - apply String.eqb_eq in H2. now exists x.
    - exists x. split; [exact H2|]. now apply String.eqb_eq. }
  split.
  - intros Hin. apply (dict_get_In_NoDup _ _ _ Hnd) in Hin.
    rewrite Hget in Hin.
    destruct (existsb _ _); [|discriminate].
    injection Hin as <-. split; [now apply Hsold|reflexivity].
  - intros [Hs ->]. apply dict_get_Some_In. rewrite Hget.
    apply Hsold in Hs. now rewrite Hs.
Qed.

(** ** Sorting *)

Lemma insert_desc_Permutation {A} (key : A -> Z) (x : A) (l : list A) :
  Permutation (Py.insert_desc key x l) (x :: l).
Proof.
  induction l as [|y l IH]; cbn [Py.insert_desc]; [reflexivity|].
  destruct (key x <? key y); [|reflexivity].
  rewrite IH. apply perm_swap.
Qed.

Lemma sorted_desc_Permutation {A} (key : A -> Z) (l : list A) :
  Permutation (Py.sorted_desc key l) l.
Proof.
  induction l as [|x l IH]; cbn [Py.sorted_desc]; [reflexivity|].
  rewrite insert_desc_Permutation. now constructor.
Qed.

Lemma descending_cons (a : string * Z) (l : list (string * Z)) :
  Notions.descending (a :: l) = true
  <-> List.Forall (fun b => snd b <= snd a) l /\ Notions.descending l = true.
Proof.
  revert a. induction l as [|b l IH]; intros a.
  - cbn. split; [split; [constructor|reflexivity]|reflexivity].
  - change (Notions.descending (a :: b :: l))
      with ((snd b <=? snd a) && Notions.descending (b :: l)).
    rewrite andb_true_iff, Z.leb_le. split.
    + intros [Hba Hd]. split; [|exact Hd]. constructor; [exact Hba|].
      apply IH in Hd as [Hall _].
      eapply List.Forall_impl; [|exact Hall]. cbn. intros; lia.
    + intros [Hall Hd]. split; [|exact Hd]. now inversion Hall.
Qed.

Lemma insert_desc_descending (x : string * Z) (l : list (string * Z)) :
  Notions.descending l = true ->
  Notions.descending (Py.insert_desc snd x l) = true.
Proof.
  induction l as [|y l IH]; intros Hd; cbn [Py.insert_desc]; [reflexivity|].
  destruct (snd x <? snd y) eqn:E.
  - apply Z.ltb_lt in E. apply descending_cons in Hd as [Hall Hd].
    apply descending_cons. split; [|now apply IH].
    apply List.Forall_forall. intros b Hb.
    apply (Permutation_in _ (insert_desc_Permutation snd x l)) in Hb.
    destruct Hb as [<-|Hb]; [lia|].
    exact (proj1 (List.Forall_forall _ _) Hall b Hb).
  - apply Z.ltb_ge in E. apply descending_cons. split; [|exact Hd].
    apply descending_cons in Hd as [Hall _].
    constructor; [exact E|].
    eapply List.Forall_impl; [|exact Hall]. cbn. intros; lia.
Qed.

Lemma sorted_desc_descending (l : list (string * Z)) :
  Notions.descending (Py.sorted_desc snd l) = true.
Proof.
  induction l as [|x l IH]; cbn [Py.sorted_desc]; [reflexivity|].
  now apply insert_desc_descending.
Qed.

Lemma descending_firstn (l : list (string * Z)) :
  forall k : nat,
    Notions.descending l = true ->
    Notions.descending (firstn k l) = true
    /\ forall x y, In x (firstn k l) -> In y (skipn k l) -> snd y <= snd x.
Proof.
  induction l as [|a l IH]; intros k Hd.
  - rewrite firstn_nil. split; [reflexivity|intros x y []].
  - destruct k as [|k]; [split; [reflexivity|intros x y []]|].
    cbn [firstn skipn]. apply descending_cons in Hd as [Hall Hd].
    destruct (IH k Hd) as [Hfirst Hcut]. split.
    + apply descending_cons. split; [|exact Hfirst].
      apply List.Forall_forall. intros b Hb.
      apply (proj1 (List.Forall_forall _ _) Hall).
      rewrite <- (firstn_skipn k l). apply in_or_app. now left.
    + intros x y [<-|Hx] Hy; [|now apply Hcut].
      apply (proj1 (List.Forall_forall _ _) Hall).
      rewrite <- (firstn_skipn k l). apply in_or_app. now right.
Qed.

(** X13.  Every entry of [get_popular_items] names a menu that has a
    line in some completed order of the history, and its count is the
    sum of the quantities of all such lines; no menu is listed twice.
    Orders that are not completed do not count. *)
Theorem get_popular_items_counts :
  forall (self : t) (top_n : Z),
    NoDup (map fst (get_popular_items self top_n))
    /\ forall (n : string) (c : Z),
         In (n, c) (get_popular_items self top_n) ->
         Notions.sold self n /\ c = Notions.sold_quantity self n.
Proof.
  intros self top_n. unfold get_popular_items, Py.slice_to.
  set (counts := fold_left count_order (order_history self) []).
  set (k := Py.slice_index top_n _).
  assert (Hnd : NoDup (map fst (Py.sorted_desc snd counts))).
  { rewrite (Permutation_map fst (sorted_desc_Permutation snd counts)).
    subst counts. rewrite fold_count_order.
    apply fold_count_NoDup. constructor. }
  split.
  - rewrite <- (firstn_skipn k (Py.sorted_desc snd counts)), map_app in Hnd.
    now apply NoDup_app in Hnd as [Hnd _].
  - intros n c Hin. apply item_counts_entry.
    apply (Permutation_in _ (sorted_desc_Permutation snd counts)).
    rewrite <- (firstn_skipn k (Py.sorted_desc snd counts)).
    apply in_or_app. now left.
Qed.

(** X14.  For [top_n >= 0], [get_popular_items] returns at most [top_n]
    entries, in order of decreasing count, and they are the best sold:
    a sold menu that is left out has sold no more than any menu listed.
    When fewer than [top_n] entries come back, no sold menu is left
    out. *)
Theorem get_popular_items_top :
  forall (self : t) (top_n : Z),
    0 <= top_n ->
    let popular := get_popular_items self top_n in
    (List.length popular <= Z.to_nat top_n)%nat
    /\ Notions.descending popular = true
    /\ (forall n : string,
          Notions.sold self n ->
          In n (map fst popular)
          \/ forall (m : string) (c : Z),
               In (m, c) popular -> Notions.sold_quantity self n <= c)
    /\ ((List.length popular < Z.to_nat top_n)%nat ->
        forall n : string, Notions.sold self n -> In n (map fst popular)).
Proof.
  intros self top_n Hpos popular. subst popular.
  unfold get_popular_items, Py.slice_to.
  set (counts := fold_left count_order (order_history self) []).
  set (sorted := Py.sorted_desc snd counts).
  set (k := Py.slice_index top_n (List.length sorted)).
  assert (Hk : k = Nat.min (Z.to_nat top_n) (List.length sorted)).
  { subst k. unfold Py.slice_index.
    destruct (top_n <? 0) eqn:E; [apply Z.ltb_lt in E; lia|]. lia. }
  destruct (descending_firstn sorted k (sorted_desc_descending counts))
    as [Hdesc Hcut].
  assert (Hsold : forall n, Notions.sold self n ->
                    In (n, Notions.sold_quantity self n) sorted).
  { intros n Hs.
    apply (Permutation_in _
             (Permutation_sym (sorted_desc_Permutation snd counts))).
    apply item_counts_entry. now split. }
  split; [rewrite length_firstn; lia|]. split; [exact Hdesc|]. split.
  - intros n Hs. specialize (Hsold n Hs).
    rewrite <- (firstn_skipn k sorted) in Hsold.
    apply in_app_or in Hsold as [Hin|Hout].
    + left. change n with (fst (n, Notions.sold_quantity self n)).
      now apply in_map.
    + right. intros m c Hm. exact (Hcut (m, c) _ Hm Hout).
  - rewrite length_firstn. intros Hlt n Hs. specialize (Hsold n Hs).
    rewrite firstn_all2 by lia.
    change n with (fst (n, Notions.sold_quantity self n)).
    now apply in_map.
Qed.

Lemma get_popular_items_top_witness :
  0 <= 5
  /\ (List.length
        (get_popular_items
           (Spec.run_ops default_settings Spec.sample_session) 5) <= 5)%nat
  /\ Notions.descending
       (get_popular_items
          (Spec.run_ops default_settings Spec.sample_session) 5) = true.
Proof.
  assert (H : 0 <= 5) by lia.
  split; [exact H|].
  destruct (get_popular_items_top
              (Spec.run_ops default_settings Spec.sample_session) 5 H)
    as (Hlen & Hdesc & _).
  split; [exact Hlen|exact Hdesc].
Defined.

(** ** Revenue *)

Lemma fold_item_revenue_sum (lines : list OrderItem) :
  forall d : list (string * Z),
    Py.sum (Py.dict_values (fold_left add_item_revenue lines d))
    = Py.sum (Py.dict_values d) + Py.sum (map subtotal lines).
Proof.
  induction lines as [|x lines IH]; intros d; cbn [fold_left map].
  - cbn. lia.
  - rewrite IH. unfold add_item_revenue. rewrite dict_add_sum, sum_cons. lia.
Qed.

Lemma fold_order_revenue_sum (todays : list Order) :
  forall d : list (string * Z),
    Py.sum (Py.dict_values (fold_left add_order_revenue todays d))
    = Py.sum (Py.dict_values d)
      + Py.sum (map (fun order => Py.sum (map subtotal (items order))) todays).
Proof.
  induction todays as [|o todays IH]; intros d; cbn [fold_left map].
  - cbn. lia.
  - rewrite IH. unfold add_order_revenue.
    rewrite fold_item_revenue_sum, sum_cons. lia.
Qed.

Lemma consistent_amounts (settings : Settings) (order : Order) :
  Notions.amounts_consistent settings order ->
  total_amount order = Py.sum (map subtotal (items order))
  /\ final_amount order = total_amount order + tax_amount order.
Proof.
  unfold Notions.amounts_consistent. intros H. rewrite <- H.
  split; reflexivity.
Qed.

Lemma update_status_consistent (settings : Settings) (order : Order)
    (new_status : OrderStatus) (now : Z) :
  Notions.amounts_consistent settings order ->
  Notions.amounts_consistent settings (update_status order new_status now).
Proof.
  unfold Notions.amounts_consistent. intros H.
  change (calculate_amounts settings (update_status order new_status now))
    with (update_status (calculate_amounts settings order) new_status now).
  now rewrite H.
Qed.

Lemma update_up_to_date (settings : Settings) (self : t) (id : string)
    (new_status : OrderStatus) (now : Z) :
  Notions.amounts_up_to_date settings self ->
  Notions.amounts_up_to_date settings
    (snd (update_order_status self id new_status now)).
Proof.
  intros [Hact Hhist]. unfold update_order_status, get_order.
  destruct (orders self !! id) as [order|] eqn:Ho; [|now split].
  pose proof (update_status_consistent settings order new_status now
                (map_Forall_lookup_1 _ _ _ _ Hact Ho)) as Hc.
  destruct (is_terminal new_status); cbn [snd]; split; cbn [orders order_history].
  - now apply map_Forall_delete.
  - apply List.Forall_app. split; [exact Hhist|]. now constructor.
  - now apply map_Forall_insert_2.
  - exact Hhist.
Qed.

Lemma apply_op_up_to_date (settings : Settings) (self : t) (op : Spec.Op) :
  Notions.amounts_up_to_date settings self ->
  Notions.amounts_up_to_date settings (Spec.apply_op settings self op).
Proof.
  intros Hinv. destruct op as [items_data c notes id now|id st now|id now|days now];
    cbn [Spec.apply_op].
  - destruct Hinv as [Hact Hhist]. split; cbn [snd create_order_from_items orders order_history];
      [|exact Hhist].
    apply map_Forall_insert_2; [reflexivity|exact Hact].
  - now apply update_up_to_date.
  - now apply update_up_to_date.
  - destruct Hinv as [Hact Hhist]. split; [exact Hact|].
    cbn [clear_old_history order_history].
    apply List.Forall_forall. intros o Ho. apply filter_In in Ho as [Ho _].
    exact (proj1 (List.Forall_forall _ _) Hhist o Ho).
Qed.

Lemma run_ops_up_to_date (settings : Settings) (ops : list Spec.Op) :
  Notions.amounts_up_to_date settings (Spec.run_ops settings ops).
Proof.
  unfold Spec.run_ops.
  assert (Hgen : forall self, Notions.amounts_up_to_date settings self ->
            Notions.amounts_up_to_date settings
              (fold_left (Spec.apply_op settings) ops self)).
  { induction ops as [|op ops IH]; intros self H; cbn [fold_left];
      [exact H|].
    apply IH. now apply apply_op_up_to_date. }
  apply Hgen. split; [apply map_Forall_empty|constructor].
Qed.

Lemma sum_final_amounts (settings : Settings) (todays : list Order) :
  List.Forall (Notions.amounts_consistent settings) todays ->
  Py.sum (map final_amount todays)
  = Py.sum (map (fun order => Py.sum (map subtotal (items order))) todays)
    + Py.sum (map tax_amount todays).
Proof.
  induction 1 as [|o todays Ho _ IH]; [reflexivity|].
  cbn [map]. rewrite !sum_cons, IH.
  destruct (consistent_amounts settings o Ho) as [Ht Hf]. lia.
Qed.

(** X15.  In every state the service can reach, the revenue of the day
    splits by category: the total revenue that [calculate_daily_revenue]
    reports is the sum of the revenues it reports per category plus the
    tax of the day's completed orders. *)
Theorem daily_revenue_splits_by_category :
  forall (settings : Settings) (ops : list Spec.Op) (now : Z),
    let self := Spec.run_ops settings ops in
    let report := calculate_daily_revenue self now in
    total_revenue report
    = Py.sum (Py.dict_values (category_revenue report))
      + Py.sum (map tax_amount (today_orders self now)).
Proof.
  intros settings ops now self report. subst report.
  cbn [calculate_daily_revenue total_revenue category_revenue].
  rewrite fold_order_revenue_sum. cbn [Py.dict_values map].
  change (Py.sum []) with 0. rewrite Z.add_0_l.
  apply (sum_final_amounts settings).
  destruct (run_ops_up_to_date settings ops) as [_ Hhist].
  fold self in Hhist. unfold today_orders.
  apply List.Forall_forall. intros o Ho. apply filter_In in Ho as [Ho _].
  exact (proj1 (List.Forall_forall _ _) Hhist o Ho).
Qed.

(** X16.  The average order value that [calculate_daily_revenue] reports
    is the revenue divided by the number of orders, rounded down; on a
    day with no completed order the report is all zeros and lists no
    category. *)
Theorem daily_revenue_average :
  forall (self : t) (now : Z),
    let report := calculate_daily_revenue self now in
    (total_orders report = O ->
     average_order_value report = 0 /\ total_revenue report = 0
     /\ category_revenue report = [])
    /\ ((0 < total_orders report)%nat ->
        average_order_value report * Z.of_nat (total_orders report)
        <= total_revenue report
        < (average_order_value report + 1) * Z.of_nat (total_orders report)).
Proof.
  intros self now report. subst report.
  cbn [calculate_daily_revenue total_orders average_order_value
       total_revenue category_revenue].
  set (todays := today_orders self now). split.
  - intros H0. apply length_zero_iff_nil in H0. rewrite H0.
    cbn. repeat split.
  - intros Hpos. apply Nat.ltb_lt in Hpos as Hb. rewrite Hb.
    set (n := Z.of_nat (List.length todays)).
    assert (Hn : 0 < n) by (subst n; lia).
    pose proof (Z.mul_div_le (Py.sum (map final_amount todays)) n Hn).
    pose proof (Z.mul_succ_div_gt (Py.sum (map final_amount todays)) n Hn).
    nia.
Qed.

End Reports.

(* ================================================================== *)
(** * From extracted items to a stored order (validate_category_items,
      validate_order_items, create_order_from_items, get_order) *)
(* ================================================================== *)

Section OrderCreation.
Import MenuDatabase OrderService.
Variable settings : Settings.

Lemma available_menus_lookup (c : MenuCategory) (n : string) :
  In n (CategoryRouter.get_available_menus c)
  <-> exists menu_item, get_menu_item n (Some c) = Some menu_item.
Proof.
  unfold CategoryRouter.get_available_menus. rewrite in_map_iff. split.
  - intros ([k it] & Hk & Hin). cbn in Hk. subst k.
    apply filter_In in Hin as [Hin _]. exists it.
    apply get_menu_item_entry. now apply entries_by_category.
  - intros [mi H]. exists (n, mi). split; [reflexivity|].
    apply filter_In. split.
    + apply entries_by_category. now apply get_menu_item_entry.
    + now destruct (catalogue_item_named n (Some c) mi H) as (_ & _ & Hav).
Qed.

Lemma menu_in_lookup (c : MenuCategory) (item : Item.t) :
  CategoryRouter.menu_in (Item.menu item) (CategoryRouter.get_available_menus c)
  = true
  <-> exists n menu_item,
        Item.menu item = Some n /\ get_menu_item n (Some c) = Some menu_item.
Proof.
  unfold CategoryRouter.menu_in. destruct (Item.menu item) as [n|].
  - rewrite existsb_exists. split.
    + intros (k & Hk & Heq). apply String.eqb_eq in Heq. subst k.
      apply available_menus_lookup in Hk as [mi Hmi]. now exists n, mi.
    + intros (n' & mi & [= <-] & Hmi). exists n. split.
      * apply available_menus_lookup. now exists mi.
      * apply String.eqb_refl.
  - split; [discriminate|]. intros (n & mi & H & _). discriminate.
Qed.

Lemma build_order_item_None (c : MenuCategory) (item : Item.t) :
  build_order_item c item = None
  <-> CategoryRouter.menu_in (Item.menu item)
        (CategoryRouter.get_available_menus c) = false.
Proof.
  rewrite <- not_true_iff_false, menu_in_lookup. unfold build_order_item.
  destruct (Item.menu item) as [n|].
  - destruct (get_menu_item n (Some c)) as [mi|] eqn:Hmi.
    + split; [discriminate|]. intros H. exfalso. apply H. now exists n, mi.
    + split; [|reflexivity]. intros _ (n' & mi & [= <-] & H). congruence.
  - split; [|reflexivity]. intros _ (n' & mi & H & _). discriminate.
Qed.

Lemma build_order_items_filtered (c : MenuCategory) (items_data : list Item.t) :
  build_order_items c (CategoryRouter.validate_category_items c items_data)
  = build_order_items c items_data
  /\ List.length (build_order_items c items_data)
     = List.length (CategoryRouter.validate_category_items c items_data).
Proof.
  unfold CategoryRouter.validate_category_items.
  induction items_data as [|item rest [IH1 IH2]];
    cbn [List.filter build_order_items]; [split; reflexivity|].
  destruct (CategoryRouter.menu_in (Item.menu item)
              (CategoryRouter.get_available_menus c)) eqn:Hin.
  - cbn [build_order_items].
    destruct (build_order_item c item) as [line|] eqn:Hb.
    + cbn [List.length]. now rewrite IH1, IH2.
    + apply build_order_item_None in Hb. congruence.
  - apply build_order_item_None in Hin. rewrite Hin. now split.
Qed.

(** X17.  At a tax rate of 0, 0.1 or 0.2 and with lines whose
    subtotals sum to at most 10^15 in absolute value, an order that
    [create_order_from_items] returns is the order that [get_order] finds
    under the generated id afterwards; it is Pending, carries that id,
    the notes and, as its creation time, the clock reading taken for it,
    and its amounts are up to date, with the tax that
    [int(total_amount * tax_rate)] gives in binary64.  Orders under other
    ids and the history are as they were. *)
Theorem create_then_get_order :
  forall (self : t) (items_data : list Item.t) (c : MenuCategory)
         (notes id : string) (now : Z),
    Spec.configured_rate settings ->
    Spec.kiosk_amount
      (Py.sum (map subtotal (build_order_items c items_data))) ->
    let order :=
      fst (create_order_from_items settings self items_data c notes id now) in
    let after :=
      snd (create_order_from_items settings self items_data c notes id now) in
    get_order after id = Some order
    /\ (forall other : string,
          other <> id -> get_order after other = get_order self other)
    /\ order_history after = order_history self
    /\ (order_id order, status order, created_at order, customer_notes order)
       = (id, PENDING, now, notes)
    /\ total_amount order
       = Py.sum (map subtotal (build_order_items c items_data))
    /\ tax_in_binary64 settings (total_amount order)
       = Some (tax_amount order)
    /\ Notions.amounts_consistent settings order.
Proof.
  intros self items_data c notes id now Hrate Hkiosk order after.
  pose proof (tax_in_binary64_exact settings
                {| order_id := id; items := build_order_items c items_data;
                   status := PENDING; created_at := now; updated_at := now;
                   customer_notes := notes; total_amount := 0;
                   tax_amount := 0; final_amount := 0 |} Hrate Hkiosk)
    as Hfloat.
  subst order after. unfold create_order_from_items, get_order.
  cbn [fst snd orders order_history]. split; [apply lookup_insert_eq|].
  split; [intros other Hne; now apply lookup_insert_ne|].
  split; [reflexivity|]. split; [reflexivity|]. split; [reflexivity|].
  split; [exact Hfloat|reflexivity].
Qed.

Lemma create_stores_empty_order (self : t) (items_data : list Item.t)
    (c : MenuCategory) (notes id : string) (now : Z) :
  CategoryRouter.validate_category_items c items_data = [] ->
  let order :=
    fst (create_order_from_items settings self items_data c notes id now) in
  items order = []
  /\ (total_amount order, tax_amount order, final_amount order) = (0, 0, 0)
  /\ get_order
       (snd (create_order_from_items settings self items_data c notes id
               now)) id = Some order.
Proof.
  intros Hnone order. subst order.
  destruct (build_order_items_filtered c items_data) as [_ Hlen].
  rewrite Hnone in Hlen. apply length_zero_iff_nil in Hlen.
  unfold create_order_from_items, get_order.
  cbn [fst snd orders]. rewrite Hlen. split; [reflexivity|].
  split; [|apply lookup_insert_eq].
  unfold new_Order, calculate_amounts.
  cbn [items map Py.sum fold_right total_amount tax_amount final_amount].
  destruct (Qlt_le_dec 0 (tax_rate settings)); [|reflexivity].
  assert (Hz : Py.int_of_Q (inject_Z 0 * tax_rate settings) = 0).
  { apply int_of_Q_zero. apply Qmult_0_l. }
  now rewrite Hz.
Qed.

(** X18.  [create_order_from_items] skips without an error every item
    that does not name an available menu of the category, so filtering
    the items with [validate_category_items] first changes nothing, and
    the order has as many lines as that filter keeps items.  It never
    refuses: when no item is kept it still stores an order, one with no
    lines and with total, tax and final amount 0. *)
Theorem create_skips_items_outside_category :
  forall (self : t) (items_data : list Item.t) (c : MenuCategory)
         (notes id : string) (now : Z),
    let order :=
      fst (create_order_from_items settings self items_data c notes id now) in
    create_order_from_items settings self
      (CategoryRouter.validate_category_items c items_data) c notes id now
    = create_order_from_items settings self items_data c notes id now
    /\ List.length (items order)
       = List.length (CategoryRouter.validate_category_items c items_data)
    /\ (CategoryRouter.validate_category_items c items_data = [] ->
        items order = []
        /\ (total_amount order, tax_amount order, final_amount order)
           = (0, 0, 0)
        /\ get_order
             (snd (create_order_from_items settings self items_data c notes
                     id now)) id = Some order).
Proof.
  intros self items_data c notes id now order. subst order.
  destruct (build_order_items_filtered c items_data) as [Heq Hlen].
  split; [|split].
  - unfold create_order_from_items. now rewrite Heq.
  - exact Hlen.
  - apply create_stores_empty_order.
Qed.

Lemma valid_items_pass (items_data : list Item.t) :
  Validators.is_valid (Validators.validate_order_items items_data) = true ->
  existsb Spec.item_fails items_data = false.
Proof.
  intros Hv. destruct items_data as [|item rest]; [discriminate|].
  destruct (validate_order_items_cases (item :: rest)) as (errs & _ & Hper & Hres);
    [discriminate|].
  rewrite Hres in Hv. destruct errs as [|e errs]; [|discriminate].
  apply (failing_positions_nil 1).
  destruct (Spec.failing_positions 1 (item :: rest)); [reflexivity|].
  contradiction.
Qed.

Lemma get_price_at_least_base (menu_item : MenuItem) (sz : option SizeOption) :
  MenuDatabase.base_price menu_item <= get_price menu_item sz.
Proof.
  unfold get_price. destruct sz as [[ | | ]|]; lia.
Qed.

Lemma build_valid_item (c : MenuCategory) (item : Item.t) :
  CategoryRouter.menu_in (Item.menu item)
    (CategoryRouter.get_available_menus c) = true ->
  Spec.item_fails item = false ->
  exists line : OrderItem,
    build_order_item c item = Some line
    /\ Item.menu item = Some (menu_name line)
    /\ Item.quantity item = Some (quantity line)
    /\ category line = c
    /\ 1 <= quantity line <= 99
    /\ 0 < subtotal line.
Proof.
  intros Hin Hok. apply menu_in_lookup in Hin as (n & mi & Hn & Hmi).
  assert (Hany : get_menu_item n None = Some mi).
  { apply get_menu_item_any_entry. exists c. now apply get_menu_item_entry. }
  pose proof (catalogue_item_priced n None mi Hany) as Hprice.
  unfold Spec.item_fails in Hok. rewrite Hn in Hok.
  destruct (Item.quantity item) as [q|] eqn:Hq; [|discriminate].
  rewrite Hany in Hok.
  apply orb_false_elim in Hok as [Hok _].
  apply orb_false_elim in Hok as [Hok _].
  apply orb_false_elim in Hok as [Hok H99].
  apply orb_false_elim in Hok as [_ H1].
  apply Z.ltb_ge in H1, H99.
  unfold build_order_item. rewrite Hn, Hq, Hmi.
  eexists. split; [reflexivity|].
  unfold new_OrderItem, calculate_subtotal.
  cbn [menu_name size options quantity OrderService.base_price].
  rewrite Hany. cbn [set_subtotal menu_name quantity category subtotal].
  repeat split; try lia.
  pose proof (get_price_at_least_base mi
                match Item.size item with
                | Some s => if Py.truthy s then SizeOption_of_value s else None
                | None => None
                end).
  nia.
Qed.

(** X19.  The steps of order processing fit together: when the items
    that [validate_category_items] keeps pass [validate_order_items],
    [create_order_from_items] builds one line per item, in order, with
    the item's menu and quantity; each line is of the category, has a
    quantity from 1 to 99 and a positive subtotal. *)
Theorem validated_items_become_lines :
  forall (c : MenuCategory) (extracted : list Item.t),
    let items_data := CategoryRouter.validate_category_items c extracted in
    Validators.is_valid (Validators.validate_order_items items_data) = true ->
    let lines := build_order_items c items_data in
    map Item.menu items_data = map (fun line => Some (menu_name line)) lines
    /\ map Item.quantity items_data
       = map (fun line => Some (quantity line)) lines
    /\ List.Forall
         (fun line =>
            category line = c /\ 1 <= quantity line <= 99
            /\ 0 < subtotal line) lines.
Proof.
  intros c extracted items_data Hv lines. subst lines.
  apply valid_items_pass in Hv.
  assert (Hkept : forallb
            (fun item => CategoryRouter.menu_in (Item.menu item)
                           (CategoryRouter.get_available_menus c))
            items_data = true).
  { apply forallb_forall. intros item Hin. subst items_data.
    unfold CategoryRouter.validate_category_items in Hin.
    now apply filter_In in Hin as [_ Hin]. }
  clearbody items_data.
  induction items_data as [|item rest IH]; cbn [build_order_items map];
    [repeat split; constructor|].
  cbn [existsb forallb] in Hv, Hkept.
  apply orb_false_elim in Hv as [Hok Hv].
  apply andb_prop in Hkept as [Hin Hkept].
  destruct (build_valid_item c item Hin Hok)
    as (line & -> & Hm & Hq & Hc & Hrange & Hsub).
  destruct (IH Hv Hkept) as (IHm & IHq & IHall).
  cbn [map]. rewrite Hm, Hq, IHm, IHq.
  split; [reflexivity|]. split; [reflexivity|].
  constructor; [|exact IHall]. auto.
Qed.

Lemma floor_of_tenth (k : Z) (rate : Q) :
  (rate == 0.1)%Q -> Qfloor (inject_Z (100 * k) * rate) = 10 * k.
Proof.
  intros Hr. rewrite <- (Qfloor_Z (10 * k)). apply Qfloor_comp.
  rewrite Hr. unfold Qeq. cbn. lia.
Qed.

Lemma floor_of_fifth (k : Z) (rate : Q) :
  (rate == 0.2)%Q -> Qfloor (inject_Z (100 * k) * rate) = 20 * k.
Proof.
  intros Hr. rewrite <- (Qfloor_Z (20 * k)). apply Qfloor_comp.
  rewrite Hr. unfold Qeq. cbn. lia.
Qed.

(** X20.  On an order that [create_order_from_items] returns, with
    lines whose subtotals sum to at most 10^15 in absolute value, the tax
    is exact, with nothing lost to the rounding of the binary64 product
    or to truncation: at the rate 0.1 the tax that [int(total_amount *
    tax_rate)] gives in binary64 is one tenth of the total, and at the
    rate 0.2 it is one fifth. *)
Theorem created_order_tax_exact :
  forall (self : t) (items_data : list Item.t) (c : MenuCategory)
         (notes id : string) (now : Z),
    Spec.kiosk_amount
      (Py.sum (map subtotal (build_order_items c items_data))) ->
    let order :=
      fst (create_order_from_items settings self items_data c notes id now) in
    ((tax_rate settings == 0.1)%Q ->
     tax_in_binary64 settings (total_amount order) = Some (tax_amount order)
     /\ 10 * tax_amount order = total_amount order)
    /\ ((tax_rate settings == 0.2)%Q ->
        tax_in_binary64 settings (total_amount order)
        = Some (tax_amount order)
        /\ 5 * tax_amount order = total_amount order).
Proof.
  intros self items_data c notes id now Hkiosk order. subst order.
  unfold create_order_from_items, new_Order. cbn [fst].
  set (o := {| order_id := id; items := build_order_items c items_data;
               status := PENDING; created_at := now; updated_at := now;
               customer_notes := notes; total_amount := 0; tax_amount := 0;
               final_amount := 0 |}).
  assert (Htotal : total_amount (calculate_amounts settings o)
                   = Py.sum (map subtotal (build_order_items c items_data)))
    by reflexivity.
  assert (Hfloat : Spec.configured_rate settings ->
            tax_in_binary64 settings (total_amount (calculate_amounts settings o))
            = Some (tax_amount (calculate_amounts settings o))).
  { intros Hrate. exact (tax_in_binary64_exact settings o Hrate Hkiosk). }
  destruct (built_items_round c items_data) as [k Hk].
  split; intros Hr.
  - split; [apply Hfloat; right; left; exact Hr|].
    rewrite Htotal, Hk.
    rewrite calculate_amounts_tax by (rewrite Hr; discriminate).
    cbn [items o]. rewrite Hk.
    rewrite round_total_tax_exact; [|now exists k|auto].
    replace (k * 100) with (100 * k) by lia.
    rewrite (floor_of_tenth k _ Hr). lia.
  - split; [apply Hfloat; right; right; exact Hr|].
    rewrite Htotal, Hk.
    rewrite calculate_amounts_tax by (rewrite Hr; discriminate).
    cbn [items o]. rewrite Hk.
    rewrite round_total_tax_exact; [|now exists k|auto].
    replace (k * 100) with (100 * k) by lia.
    rewrite (floor_of_fifth k _ Hr). lia.
Qed.

End OrderCreation.

Lemma create_skips_items_outside_category_witness :
  CategoryRouter.validate_category_items MenuDatabase.BEVERAGE
    [Spec.sized_item "피자" 1 "Tall"] = []
  /\ OrderService.items
       (fst (OrderService.create_order_from_items default_settings
               OrderService.init [Spec.sized_item "피자" 1 "Tall"]
               MenuDatabase.BEVERAGE "" "ORD-20260101120000-0a1b2c3d" 0))
     = [].
Proof.
  assert (H : CategoryRouter.validate_category_items MenuDatabase.BEVERAGE
                [Spec.sized_item "피자" 1 "Tall"] = [])
    by (vm_compute; reflexivity).
  split; [exact H|].
  destruct (create_skips_items_outside_category default_settings
              OrderService.init [Spec.sized_item "피자" 1 "Tall"]
              MenuDatabase.BEVERAGE "" "ORD-20260101120000-0a1b2c3d" 0)
    as (_ & _ & Hempty).
  exact (proj1 (Hempty H)).
Defined.

Lemma validated_items_become_lines_witness :
  Validators.is_valid
    (Validators.validate_order_items
       (CategoryRouter.validate_category_items MenuDatabase.BEVERAGE
          [Spec.two_americanos; Spec.sized_item "피자" 1 "Tall"])) = true
  /\ map Item.menu
       (CategoryRouter.validate_category_items MenuDatabase.BEVERAGE
          [Spec.two_americanos; Spec.sized_item "피자" 1 "Tall"])
     = map (fun line => Some (OrderService.menu_name line))
         (OrderService.build_order_items MenuDatabase.BEVERAGE
            (CategoryRouter.validate_category_items MenuDatabase.BEVERAGE
               [Spec.two_americanos; Spec.sized_item "피자" 1 "Tall"])).
Proof.
  assert (H : Validators.is_valid
                (Validators.validate_order_items
                   (CategoryRouter.validate_category_items
                      MenuDatabase.BEVERAGE
                      [Spec.two_americanos; Spec.sized_item "피자" 1 "Tall"]))
              = true)
    by (vm_compute; reflexivity).
  split; [exact H|].
  destruct (validated_items_become_lines MenuDatabase.BEVERAGE
              [Spec.two_americanos; Spec.sized_item "피자" 1 "Tall"] H)
    as [Hmenus _].
  exact Hmenus.
Defined.

Lemma create_then_get_order_witness :
  Spec.configured_rate default_settings
  /\ Spec.kiosk_amount
       (Py.sum (map OrderService.subtotal
                  (OrderService.build_order_items MenuDatabase.BEVERAGE
                     [Spec.two_americanos])))
  /\ OrderService.total_amount
       (fst (OrderService.create_order_from_items default_settings
               OrderService.init [Spec.two_americanos] MenuDatabase.BEVERAGE
               "" "ORD-20260101120000-0a1b2c3d" 0)) = 9000
  /\ OrderService.tax_in_binary64 default_settings 9000 = Some 900
  /\ OrderService.get_order
       (snd (OrderService.create_order_from_items default_settings
               OrderService.init [Spec.two_americanos] MenuDatabase.BEVERAGE
               "" "ORD-20260101120000-0a1b2c3d" 0))
       "ORD-20260101120000-0a1b2c3d"
     = Some (fst (OrderService.create_order_from_items default_settings
                    OrderService.init [Spec.two_americanos]
                    MenuDatabase.BEVERAGE "" "ORD-20260101120000-0a1b2c3d"
                    0)).
Proof.
  assert (Hrate : Spec.configured_rate default_settings)
    by (right; left; reflexivity).
  assert (Hk : Spec.kiosk_amount
                 (Py.sum (map OrderService.subtotal
                            (OrderService.build_order_items
                               MenuDatabase.BEVERAGE [Spec.two_americanos]))))
    by (vm_compute; split; discriminate).
  destruct (create_then_get_order default_settings OrderService.init
              [Spec.two_americanos] MenuDatabase.BEVERAGE ""
              "ORD-20260101120000-0a1b2c3d" 0 Hrate Hk)
    as (Hget & _ & _ & _ & Htotal & Hfloat & _).
  split; [exact Hrate|]. split; [exact Hk|].
  split; [rewrite Htotal; vm_compute; reflexivity|].
  split; [exact Hfloat|exact Hget].
Defined.

Lemma created_order_tax_exact_witness :
  Spec.kiosk_amount
    (Py.sum (map OrderService.subtotal
               (OrderService.build_order_items MenuDatabase.BEVERAGE
                  [Spec.two_americanos])))
  /\ (tax_rate default_settings == 0.1)%Q
  /\ OrderService.tax_in_binary64 default_settings 9000 = Some 900
  /\ 10 * OrderService.tax_amount
            (fst (OrderService.create_order_from_items default_settings
                    OrderService.init [Spec.two_americanos]
                    MenuDatabase.BEVERAGE "" "ORD-20260101120000-0a1b2c3d"
                    0))
     = 9000.
Proof.
  assert (Hk : Spec.kiosk_amount
                 (Py.sum (map OrderService.subtotal
                            (OrderService.build_order_items
                               MenuDatabase.BEVERAGE [Spec.two_americanos]))))
    by (vm_compute; split; discriminate).
  assert (Hr : (tax_rate default_settings == 0.1)%Q) by reflexivity.
  destruct (proj1 (created_order_tax_exact default_settings OrderService.init
                     [Spec.two_americanos] MenuDatabase.BEVERAGE ""
                     "ORD-20260101120000-0a1b2c3d" 0 Hk) Hr)
    as [Hfloat Hten].
  split; [exact Hk|]. split; [exact Hr|].
  split; [exact Hfloat|]. rewrite Hten. vm_compute. reflexivity.
Defined.

(* ================================================================== *)
(** * What the fallback extractor hands to validation
      (_fallback_extraction, get_available_menus) *)
(* ================================================================== *)

Section FallbackItems.
Import MenuDatabase LLMService.

Lemma scan_digits_range (digits : list nat) (order_text : string) :
  scan_digits digits order_text = 1
  \/ exists i, In i digits /\ scan_digits digits order_text = Z.of_nat i.
Proof.
  induction digits as [|i rest IH]; cbn [scan_digits]; [now left|].
  destruct (Py.contains (Py.str_of_nat i) order_text).
  - right. exists i. split; [now left|reflexivity].
  - destruct IH as [H|(j & Hj & H)]; [now left|].
    right. exists j. split; [now right|exact H].
Qed.

Lemma extract_quantity_range (order_text : string) :
  1 <= extract_quantity order_text <= 9.
Proof.
  unfold extract_quantity.
  destruct (scan_digits_range (seq 1 9) order_text) as [->|(i & Hi & ->)];
    [lia|].
  apply in_seq in Hi. lia.
Qed.

Lemma extract_size_canonical (order_lower : string) :
  match extract_size order_lower with
  | Some s => Spec.canonical_size s = true
              /\ exists sz, Spec.recognized_size s = Some sz
                            /\ SizeOption_of_value s = Some sz
  | None => True
  end.
Proof.
  unfold extract_size.
  repeat match goal with
         | |- context [if ?b then _ else _] => destruct b
         end;
    try exact I; (split; [reflexivity|]); eexists; split; reflexivity.
Qed.

Lemma extract_temperature_recognized (order_lower : string) :
  match extract_temperature order_lower with
  | Some s => exists tp,
      Py.truthy s = true
      /\ Py.dict_get String.eqb Validators.temp_map (Py.lower s) = Some tp
  | None => True
  end.
Proof.
  unfold extract_temperature.
  repeat match goal with
         | |- context [if ?b then _ else _] => destruct b
         end;
    try exact I; eexists; split; reflexivity.
Qed.

Lemma fallback_item_passes (order_text order_lower menu : string)
    (menu_item : MenuItem) :
  get_menu_item menu None = Some menu_item ->
  Notions.offers_everything menu_item = true ->
  Spec.item_fails (fallback_item order_text order_lower menu) = false.
Proof.
  intros Hmi Hall. unfold Spec.item_fails, fallback_item.
  cbn [Item.menu Item.quantity]. rewrite Hmi.
  destruct (catalogue_item_named menu None menu_item Hmi) as (_ & _ & ->).
  pose proof (extract_quantity_range order_text) as [H1 H9].
  apply Z.ltb_ge in H1. rewrite H1.
  assert (H99 : (99 <? extract_quantity order_text) = false)
    by (apply Z.ltb_ge; lia).
  rewrite H99. cbn [negb orb].
  unfold Notions.offers_everything in Hall.
  apply andb_prop in Hall as [Hsizes Htemps].
  rewrite forallb_forall in Hsizes, Htemps.
  assert (Hsize : Spec.bad_size
                    {| Item.menu := Some menu;
                       Item.quantity := Some (extract_quantity order_text);
                       Item.size := extract_size order_lower;
                       Item.temperature := extract_temperature order_lower;
                       Item.options := Some [] |} menu_item = false).
  { unfold Spec.bad_size, Spec.given. cbn [Item.size].
    pose proof (extract_size_canonical order_lower) as Hs.
    destruct (extract_size order_lower) as [s|]; [|reflexivity].
    destruct Hs as (Hcanon & sz & Hrec & _).
    assert (Ht : Py.truthy s = true).
    { destruct s; [discriminate Hcanon|reflexivity]. }
    rewrite Ht. unfold Spec.recognized_size in Hrec. rewrite Hrec.
    apply negb_false_iff, Hsizes. destruct sz; cbn; tauto. }
  assert (Htemp : Spec.bad_temperature
                    {| Item.menu := Some menu;
                       Item.quantity := Some (extract_quantity order_text);
                       Item.size := extract_size order_lower;
                       Item.temperature := extract_temperature order_lower;
                       Item.options := Some [] |} menu_item = false).
  { unfold Spec.bad_temperature, Spec.given. cbn [Item.temperature].
    pose proof (extract_temperature_recognized order_lower) as Hs.
    destruct (extract_temperature order_lower) as [s|]; [|reflexivity].
    destruct Hs as (tp & Ht & Hrec). rewrite Ht, Hrec.
    apply negb_false_iff, Htemps. destruct tp; cbn; tauto. }
  now rewrite Hsize, Htemp.
Qed.

(** X21.  For an order text of ASCII characters and Hangul syllables,
    where [Py.lower] is [str.lower], an item that the fallback extractor
    builds from the menus of a category is one the later steps can work
    with: it names an available menu of the category, so
    [validate_category_items] keeps it; its quantity is from 1 to 9; and
    its size, when it has one, is one of the values that order creation
    parses.  When the menu offers every size and both temperatures,
    [validate_order_items] accepts it. *)
Theorem fallback_item_fits_pipeline :
  forall (order_text : string) (c : MenuCategory) (item : Item.t),
    Py.is_plain order_text = true ->
    In item (_fallback_extraction order_text
               (CategoryRouter.get_available_menus c)) ->
    CategoryRouter.validate_category_items c [item] = [item]
    /\ (exists q, Item.quantity item = Some q /\ 1 <= q <= 9)
    /\ (forall s, Item.size item = Some s -> SizeOption_of_value s <> None)
    /\ (forall menu menu_item,
          Item.menu item = Some menu ->
          get_menu_item menu None = Some menu_item ->
          Notions.offers_everything menu_item = true ->
          Validators.is_valid (Validators.validate_order_items [item]) = true).
Proof.
  intros order_text c item _ Hin. unfold _fallback_extraction in Hin.
  apply fallback_loop_first in Hin
    as (before & menu & after & Hmenus & _ & _ & _ & ->).
  assert (Hmenu : In menu (CategoryRouter.get_available_menus c)).
  { rewrite Hmenus. apply in_or_app. right. now left. }
  split; [|split; [|split]].
  - unfold CategoryRouter.validate_category_items. cbn [List.filter].
    assert (Hk : CategoryRouter.menu_in
                   (Item.menu (fallback_item order_text (Py.lower order_text)
                                 menu))
                   (CategoryRouter.get_available_menus c) = true).
    { cbn [fallback_item Item.menu CategoryRouter.menu_in].
      apply existsb_exists. exists menu. split; [exact Hmenu|].
      apply String.eqb_refl. }
    now rewrite Hk.
  - exists (extract_quantity order_text). split; [reflexivity|].
    apply extract_quantity_range.
  - cbn [fallback_item Item.size]. intros s Hs.
    pose proof (extract_size_canonical (Py.lower order_text)) as Hc.
    rewrite Hs in Hc. destruct Hc as (_ & sz & _ & ->). discriminate.
  - cbn [fallback_item Item.menu]. intros menu' menu_item [= <-] Hmi Hall.
    pose proof (fallback_item_passes order_text (Py.lower order_text) menu
                  menu_item Hmi Hall) as Hok.
    destruct (validate_order_items_cases
                [fallback_item order_text (Py.lower order_text) menu])
      as (errs & _ & Hper & ->); [discriminate|].
    cbn [Spec.failing_positions] in Hper. rewrite Hok in Hper.
    destruct errs; [reflexivity|contradiction].
Qed.

Lemma fallback_item_fits_pipeline_witness :
  Py.is_plain "아메리카노 2잔 톨 사이즈" = true
  /\ exists item,
    In item (_fallback_extraction "아메리카노 2잔 톨 사이즈"
               (CategoryRouter.get_available_menus BEVERAGE))
    /\ CategoryRouter.validate_category_items BEVERAGE [item] = [item]
    /\ Validators.is_valid (Validators.validate_order_items [item]) = true.
Proof.
  split; [reflexivity|].
  destruct (_fallback_extraction "아메리카노 2잔 톨 사이즈"
              (CategoryRouter.get_available_menus BEVERAGE))
    as [|item rest] eqn:H.
  - vm_compute in H. discriminate.
  - assert (Hin : In item
                    (_fallback_extraction "아메리카노 2잔 톨 사이즈"
                       (CategoryRouter.get_available_menus BEVERAGE)))
      by (rewrite H; now left).
    exists item. split; [now left|].
    destruct (fallback_item_fits_pipeline "아메리카노 2잔 톨 사이즈" BEVERAGE
                item eq_refl Hin)
      as (Hkept & _ & _ & Hvalid).
    split; [exact Hkept|].
    vm_compute in H. injection H as <- _.
    apply (Hvalid "아메리카노"
             (snd (beverage "아메리카노" 4500
                     "진한 에스프레소에 물을 더한 클래식 커피"
                     all_sizes hot_ice ["샷 추가"; "시럽 추가"])));
      reflexivity.
Defined.

End FallbackItems.

(* ================================================================== *)
(** * Category routing always decides (CategoryRouter.route) *)
(* ================================================================== *)

Section RouteTotal.
Import MenuDatabase CategoryRouter.

Lemma top_share_at_most_one (text : string) : (Spec.top_share text <= 1)%Q.
Proof.
  unfold Spec.top_share, Spec.top_entry, Spec.total_hits.
  destruct (keyword_scores_shape text) as (b & d & m & ->).
  unfold max_entry, total_of. cbn [fold_left snd Py.dict_values map fold_right].
  set (total := (b + (d + (m + 0)))%nat).
  assert (Hmax : (snd (if (snd (if (b <? d)%nat then (DESSERT, d)
                                   else (BEVERAGE, b)) <? m)%nat
                       then (MEAL, m)
                       else if (b <? d)%nat then (DESSERT, d)
                            else (BEVERAGE, b)) <= total)%nat).
  { subst total. destruct (b <? d)%nat; cbn [snd];
      match goal with |- context [(?x <? ?y)%nat] => destruct (x <? y)%nat end;
      cbn [snd]; lia. }
  revert Hmax. generalize (snd (if (snd (if (b <? d)%nat then (DESSERT, d)
                                   else (BEVERAGE, b)) <? m)%nat
                       then (MEAL, m)
                       else if (b <? d)%nat then (DESSERT, d)
                            else (BEVERAGE, b))).
  intros mx Hmax. unfold confidence_of.
  destruct total as [|t]; [cbn; discriminate|].
  cbn [Nat.ltb Nat.leb]. unfold Qle. cbn [Qnum Qden].
  rewrite <- Pos.of_nat_succ, Zpos_P_of_succ_nat. lia.
Qed.

(** X22.  For an order text of ASCII characters and Hangul syllables,
    where [Py.lower] and the whitespace of [Py.is_space] are those of
    [str.lower], [str.strip] and [\s], [route] always comes back with a
    decision, whatever the gateway does.  It calls the gateway at most
    once, and then with the whitespace-normalised text.  Without a call
    the decision is the keyword one, with a confidence above 0.8 and at
    most 1; with a call it is the gateway's answer parsed, at confidence
    0.9, or, when the call fails, the default category at confidence
    0.5. *)
Theorem route_always_decides :
  forall (gw : string -> Outcome string) (order_text : string),
    Py.is_plain order_text = true ->
    let text := Validators.normalize_whitespace order_text in
    exists (decision : RouteDecision) (calls : list string),
      run gw (route order_text) = (Returned decision, calls)
      /\ ((calls = [] /\ (0.8 < confidence decision)%Q
           /\ (confidence decision <= 1)%Q)
          \/ (calls = [text]
              /\ decision = match gw text with
                            | Returned category_str => llm_decision category_str
                            | Raised _ => fallback_decision
                            end)).
Proof.
  intros gw order_text _ text. unfold route. fold text.
  assert (Hslow : exists decision calls,
            run gw (Classify text
                      (fun answer => Done (classify_with_llm answer)))
            = (Returned decision, calls)
            /\ ((calls = [] /\ (0.8 < confidence decision)%Q
                 /\ (confidence decision <= 1)%Q)
                \/ (calls = [text]
                    /\ decision = match gw text with
                                  | Returned category_str =>
                                      llm_decision category_str
                                  | Raised _ => fallback_decision
                                  end))).
  { cbn [run]. unfold classify_with_llm.
    destruct (gw text) as [category_str|e]; cbn [and_then try_except];
      eexists; eexists; (split; [reflexivity|right; split; reflexivity]). }
  destruct (Qlt_le_dec (Spec.top_share text) 0.6) as [Hlow|Hhigh].
  - rewrite (classify_by_keywords_unsure text Hlow). exact Hslow.
  - rewrite (classify_by_keywords_confident text Hhigh). cbn [confidence].
    destruct (Qlt_le_dec 0.8 (Spec.top_share text)) as [H|H]; [|exact Hslow].
    eexists. exists []. split; [reflexivity|]. left. cbn [confidence].
    split; [reflexivity|]. split; [exact H|apply top_share_at_most_one].
Qed.

Lemma route_always_decides_witness :
  Py.is_plain "  안녕   하세요 " = true
  /\ exists decision,
       run Spec.failing_gateway (route "  안녕   하세요 ")
       = (Returned decision, ["안녕 하세요"])
       /\ decision = fallback_decision.
Proof.
  split; [reflexivity|].
  destruct (route_always_decides Spec.failing_gateway "  안녕   하세요 "
              eq_refl) as (decision & calls & Hrun & Hcases).
  exists decision. destruct Hcases as [(Hcalls & _)|(Hcalls & Hdecision)].
  - exfalso. rewrite Hcalls in Hrun. vm_compute in Hrun. discriminate Hrun.
  - rewrite Hcalls in Hrun. split; [exact Hrun|exact Hdecision].
Defined.

(** X23.  [_parse_category] reads back every name the category table
    knows: an answer that is, up to case and surrounding whitespace, one
    of the Korean or English category names gives that name's category.
    In particular the value of each [MenuCategory] parses to itself. *)
Theorem parse_category_reads_names :
  forall (category_str key : string) (value : MenuCategory),
    In (key, value) category_map ->
    Py.lower (Py.strip category_str) = key ->
    _parse_category category_str = value
    /\ _parse_category (MenuCategory_value value) = value.
Proof.
  intros s key value Hin Hkey. unfold _parse_category at 1. rewrite Hkey.
  unfold category_map in Hin. cbn [In] in Hin.
  destruct Hin as [H|[H|[H|[H|[H|[H|[]]]]]]]; injection H as <- <-;
    split; vm_compute; reflexivity.
Qed.

Lemma parse_category_reads_names_witness :
  In ("dessert", DESSERT) category_map
  /\ Py.lower (Py.strip "  Dessert ") = "dessert"
  /\ _parse_category "  Dessert " = DESSERT.
Proof.
  assert (H1 : In ("dessert", DESSERT) category_map)
    by (vm_compute; tauto).
  assert (H2 : Py.lower (Py.strip "  Dessert ") = "dessert")
    by (vm_compute; reflexivity).
  split; [exact H1|]. split; [exact H2|].
  exact (proj1 (parse_category_reads_names "  Dessert " "dessert" DESSERT
                  H1 H2)).
Defined.

End RouteTotal.

(* ================================================================== *)
(** * Serving decisions over a session (ServingRouter.route,
      _check_local_availability, analyze_sensitivity_with_llm) *)
(* ================================================================== *)

Section ServingSession.
Import LLMService ServingRouter.
Variable settings : Settings.

Lemma check_fresh (self : t) (obs : Observation) (checked : Z) :
  last_checked (local_model_status self) = Some checked ->
  now obs - checked < check_interval (local_model_status self) ->
  _check_local_availability settings self obs
  = (available (local_model_status self), self).
Proof.
  intros Hc Hfresh. unfold _check_local_availability. rewrite Hc.
  apply Z.ltb_lt in Hfresh. now rewrite Hfresh.
Qed.

Lemma create_local_fresh (self : t) (sens : SensitivityLevel) (why : string)
    (obs obs' : Observation) (checked : Z) :
  last_checked (local_model_status self) = Some checked ->
  now obs - checked < check_interval (local_model_status self) ->
  now obs' = now obs ->
  _create_local_decision settings self sens why obs
  = _create_local_decision settings self sens why obs'
  /\ snd (_create_local_decision settings self sens why obs) = self.
Proof.
  intros Hc Hfresh Hnow. unfold _create_local_decision.
  rewrite (check_fresh self obs checked Hc Hfresh).
  rewrite (check_fresh self obs' checked Hc) by (rewrite Hnow; exact Hfresh).
  split; [reflexivity|]. now destruct (available (local_model_status self)).
Qed.

(** X24.  While the cached availability is fresh, routing does not look
    at the local backend: if every availability check of a call falls
    within [check_interval] of the last probe, the decision is the same
    whatever the backend's health is at that moment, and the cached
    status stays as it was. *)
Theorem fresh_cache_hides_backend :
  forall (self : t) (query : string) (force_local force_cloud : bool)
         (obs1 obs2 : Observation) (checked : Z) (health1 health2 : bool),
    last_checked (local_model_status self) = Some checked ->
    now obs1 - checked < check_interval (local_model_status self) ->
    now obs2 - checked < check_interval (local_model_status self) ->
    route settings self query force_local force_cloud obs1 obs2
    = route settings self query force_local force_cloud
        {| now := now obs1; health_ok := health1 |}
        {| now := now obs2; health_ok := health2 |}
    /\ local_model_status
         (snd (route settings self query force_local force_cloud obs1 obs2))
       = local_model_status self.
Proof.
  intros self query fl fc obs1 obs2 checked h1 h2 Hc Hf1 Hf2.
  set (obs1' := {| now := now obs1; health_ok := h1 |}).
  set (obs2' := {| now := now obs2; health_ok := h2 |}).
  destruct (create_local_fresh self HIGH "Forced local serving" obs1 obs1'
              checked Hc Hf1 eq_refl) as [Hforced Hforced'].
  destruct (create_local_fresh self MEDIUM "Local-only strategy" obs1 obs1'
              checked Hc Hf1 eq_refl) as [Honly Honly'].
  unfold route. destruct fc; [split; reflexivity|].
  destruct fl; [split; [exact Hforced|now rewrite Hforced']|].
  destruct (model_strategy settings);
    [|split; reflexivity|split; [exact Honly|now rewrite Honly']].
  unfold _auto_route.
  rewrite (check_fresh self obs1 checked Hc Hf1).
  rewrite (check_fresh self obs1' checked Hc Hf1).
  assert (Hloc : forall sens why,
            _create_local_decision settings self sens why obs2
            = _create_local_decision settings self sens why obs2'
            /\ snd (_create_local_decision settings self sens why obs2)
               = self).
  { intros sens why. now apply (create_local_fresh self sens why obs2 obs2'
                                  checked Hc Hf2). }
  destruct (_analyze_sensitivity_fast query),
    (available (local_model_status self)) eqn:Hav;
    try (split; reflexivity).
  - destruct (Hloc MEDIUM "Medium sensitivity, local model available")
      as [<- Hsame].
    destruct (_create_local_decision settings self MEDIUM
                "Medium sensitivity, local model available" obs2)
      as [decision after].
    cbn [snd] in Hsame. subst after. split; reflexivity.
  - destruct (Hloc HIGH "High sensitivity, using local model for privacy")
      as [<- Hsame].
    destruct (_create_local_decision settings self HIGH
                "High sensitivity, using local model for privacy" obs2)
      as [decision after].
    cbn [snd] in Hsame. subst after. split; reflexivity.
Qed.

Lemma check_interval_kept (self : t) (obs : Observation) :
  check_interval
    (local_model_status (snd (_check_local_availability settings self obs)))
  = check_interval (local_model_status self).
Proof.
  unfold _check_local_availability.
  destruct (last_checked (local_model_status self)) as [checked|];
    [|reflexivity].
  destruct (now obs - checked <? check_interval (local_model_status self));
    reflexivity.
Qed.

Lemma create_local_shape (self : t) (sens : SensitivityLevel) (why : string)
    (obs : Observation) :
  let decision := fst (_create_local_decision settings self sens why obs) in
  let after := snd (_create_local_decision settings self sens why obs) in
  model_name decision
  = match target decision with
    | LOCAL => ollama_model settings
    | CLOUD => gpt_standard_model settings
    end
  /\ (target decision = LOCAL ->
      fallback_available decision = true
      /\ available (local_model_status after) = true)
  /\ check_interval (local_model_status after)
     = check_interval (local_model_status self)
  /\ (available (local_model_status after) = false ->
      target decision = CLOUD).
Proof.
  unfold _create_local_decision.
  pose proof (check_caches_answer settings self obs) as Hcache.
  pose proof (check_interval_kept self obs) as Hint.
  destruct (_check_local_availability settings self obs) as [avail after].
  cbn [fst snd] in *. destruct avail; cbn [negb fst snd target model_name
    fallback_available _create_cloud_decision].
  - repeat split; auto. congruence.
  - repeat split; auto; discriminate.
Qed.

(** X25.  What every decision of [route] satisfies, whatever the
    arguments and the state of the router.  The model named is the one
    of the target: the local model for LOCAL, the standard cloud model
    for CLOUD.  A LOCAL decision is never given under [force_cloud], has
    a fallback, and leaves the cache saying that local is available.
    [force_cloud] wins over [force_local] and leaves the router
    untouched.  The check interval never changes. *)
Theorem route_decision_shape :
  forall (self : t) (query : string) (force_local force_cloud : bool)
         (obs1 obs2 : Observation),
    let decision :=
      fst (route settings self query force_local force_cloud obs1 obs2) in
    let after :=
      snd (route settings self query force_local force_cloud obs1 obs2) in
    model_name decision
    = match target decision with
      | LOCAL => ollama_model settings
      | CLOUD => gpt_standard_model settings
      end
    /\ (target decision = LOCAL ->
        force_cloud = false /\ fallback_available decision = true
        /\ available (local_model_status after) = true)
    /\ (force_cloud = true ->
        target decision = CLOUD /\ sensitivity decision = LOW
        /\ after = self)
    /\ check_interval (local_model_status after)
       = check_interval (local_model_status self).
Proof.
  intros self query fl fc obs1 obs2. unfold route.
  destruct fc.
  { cbn. repeat split; auto; discriminate. }
  destruct fl.
  { destruct (create_local_shape self HIGH "Forced local serving" obs1)
      as (Hm & Hl & Hi & _).
    cbn zeta in *. repeat split; auto; try discriminate; now apply Hl. }
  destruct (model_strategy settings).
  - (* auto *)
    unfold _auto_route.
    pose proof (check_caches_answer settings self obs1) as Hcache.
    pose proof (check_interval_kept self obs1) as Hint.
    destruct (_check_local_availability settings self obs1) as [a1 self1].
    cbn [fst snd] in Hcache, Hint.
    assert (Hloc : forall sens why,
              let d := fst (_create_local_decision settings self1 sens why
                              obs2) in
              let s := snd (_create_local_decision settings self1 sens why
                              obs2) in
              model_name d
              = match target d with
                | LOCAL => ollama_model settings
                | CLOUD => gpt_standard_model settings
                end
              /\ (target d = LOCAL ->
                  fallback_available d = true
                  /\ available (local_model_status s) = true)
              /\ check_interval (local_model_status s)
                 = check_interval (local_model_status self)).
    { intros sens why.
      destruct (create_local_shape self1 sens why obs2) as (Hm & Hl & Hi & _).
      cbn zeta in *. rewrite Hi, Hint. auto. }
    destruct (_analyze_sensitivity_fast query), a1;
      try (cbn; repeat split; auto; discriminate).
    + specialize (Hloc MEDIUM "Medium sensitivity, local model available").
      destruct (_create_local_decision settings self1 MEDIUM
                  "Medium sensitivity, local model available" obs2)
        as [d s].
      cbn [fst snd record_decision local_model_status] in *.
      destruct Hloc as (Hm & Hl & Hi).
      repeat split; auto; try discriminate; now apply Hl.
    + specialize (Hloc HIGH "High sensitivity, using local model for privacy").
      destruct (_create_local_decision settings self1 HIGH
                  "High sensitivity, using local model for privacy" obs2)
        as [d s].
      cbn [fst snd record_decision local_model_status] in *.
      destruct Hloc as (Hm & Hl & Hi).
      repeat split; auto; try discriminate; now apply Hl.
  - cbn. repeat split; auto; discriminate.
  - destruct (create_local_shape self MEDIUM "Local-only strategy" obs1)
      as (Hm & Hl & Hi & _).
    cbn zeta in *. repeat split; auto; try discriminate; now apply Hl.
Qed.

Lemma check_disabled (self : t) (obs : Observation) :
  enable_local_model settings = false ->
  available (local_model_status self) = false ->
  fst (_check_local_availability settings self obs) = false
  /\ available
       (local_model_status (snd (_check_local_availability settings self obs)))
     = false.
Proof.
  intros Hoff Hav.
  rewrite (check_caches_answer settings self obs).
  assert (H : fst (_check_local_availability settings self obs) = false);
    [|now split].
  unfold _check_local_availability, check_local_model_availability.
  rewrite Hoff. cbn [negb].
  destruct (last_checked (local_model_status self)) as [checked|];
    [|reflexivity].
  destruct (now obs - checked <? check_interval (local_model_status self));
    [exact Hav|reflexivity].
Qed.

Lemma route_disabled (self : t) (query : string)
    (force_local force_cloud : bool) (obs1 obs2 : Observation) :
  enable_local_model settings = false ->
  available (local_model_status self) = false ->
  (target (fst (route settings self query force_local force_cloud obs1 obs2))
   = CLOUD
   /\ model_name
        (fst (route settings self query force_local force_cloud obs1 obs2))
      = gpt_standard_model settings)
  /\ available
       (local_model_status
          (snd (route settings self query force_local force_cloud obs1 obs2)))
     = false.
Proof.
  intros Hoff Hav.
  assert (Hloc : forall self sens why obs,
            available (local_model_status self) = false ->
            (target (fst (_create_local_decision settings self sens why obs))
             = CLOUD
             /\ model_name
                  (fst (_create_local_decision settings self sens why obs))
                = gpt_standard_model settings)
            /\ available
                 (local_model_status
                    (snd (_create_local_decision settings self sens why obs)))
               = false).
  { intros self0 sens why obs Hav0. unfold _create_local_decision.
    destruct (check_disabled self0 obs Hoff Hav0) as [Hf Hs].
    destruct (_check_local_availability settings self0 obs) as [a s0].
    cbn [fst snd] in Hf, Hs. subst a. cbn. now repeat split. }
  unfold route. destruct force_cloud; [now repeat split|].
  destruct force_local; [now apply Hloc|].
  destruct (model_strategy settings); [|now repeat split|now apply Hloc].
  unfold _auto_route.
  destruct (check_disabled self obs1 Hoff Hav) as [Hf Hs].
  destruct (_check_local_availability settings self obs1) as [a1 self1].
  cbn [fst snd] in Hf, Hs. subst a1.
  destruct (_analyze_sensitivity_fast query); cbn; now repeat split.
Qed.

Lemma run_routes_disabled (calls : list Notions.RouteCall) :
  enable_local_model settings = false ->
  forall self : t,
    available (local_model_status self) = false ->
    List.Forall
      (fun decision =>
         target decision = CLOUD
         /\ model_name decision = gpt_standard_model settings)
      (fst (Notions.run_routes settings self calls)).
Proof.
  intros Hoff. induction calls as [|call calls IH]; intros self Hav;
    cbn [Notions.run_routes]; [constructor|].
  unfold Notions.route_call.
  destruct (route_disabled self (Notions.query call)
              (Notions.force_local call) (Notions.force_cloud call)
              (Notions.obs1 call) (Notions.obs2 call) Hoff Hav) as [Ht Ha].
  destruct (route settings self (Notions.query call)
              (Notions.force_local call) (Notions.force_cloud call)
              (Notions.obs1 call) (Notions.obs2 call)) as [decision after].
  cbn [fst snd] in Ht, Ha. specialize (IH after Ha).
  destruct (Notions.run_routes settings after calls) as [decisions final].
  cbn [fst] in *. now constructor.
Qed.

(** X26.  With the local model switched off in the settings, a router
    never serves locally: every decision of every sequence of calls on a
    new router targets the cloud, forced-local calls and highly
    sensitive queries included, whatever the health probes would
    answer. *)
Theorem local_disabled_always_cloud :
  forall calls : list Notions.RouteCall,
    enable_local_model settings = false ->
    List.Forall
      (fun decision =>
         target decision = CLOUD
         /\ model_name decision = gpt_standard_model settings)
      (fst (Notions.run_routes settings init calls)).
Proof.
  intros calls Hoff. now apply run_routes_disabled.
Qed.

(** X27.  [analyze_sensitivity_with_llm] never raises and never guesses
    low or high: it answers LOW or HIGH only when the gateway's answer
    is, up to case and surrounding whitespace, that very word; a failed
    call or any other answer gives MEDIUM. *)
Theorem sensitivity_answer_defaults_to_medium :
  forall response : Outcome string,
    exists level : SensitivityLevel,
      analyze_sensitivity_with_llm response = Returned level
      /\ (level = LOW ->
          exists s, response = Returned s /\ Py.lower (Py.strip s) = "low")
      /\ (level = HIGH ->
          exists s, response = Returned s /\ Py.lower (Py.strip s) = "high").
Proof.
  intros [s|e]; unfold analyze_sensitivity_with_llm;
    cbn [and_then try_except].
  - destruct (String.eqb_spec (Py.lower (Py.strip s)) "low") as [Hl|Hl].
    { exists LOW. split; [reflexivity|]. split; [eauto|discriminate]. }
    destruct (String.eqb_spec (Py.lower (Py.strip s)) "medium") as [Hm|Hm].
    { exists MEDIUM. repeat split; discriminate. }
    destruct (String.eqb_spec (Py.lower (Py.strip s)) "high") as [Hh|Hh].
    { exists HIGH. split; [reflexivity|]. split; [discriminate|eauto]. }
    exists MEDIUM. repeat split; discriminate.
  - exists MEDIUM. repeat split; discriminate.
Qed.

End ServingSession.

Lemma fresh_cache_hides_backend_witness :
  let self :=
    snd (ServingRouter.route Spec.local_settings ServingRouter.init
           Spec.sensitive_query false false
           (Spec.healthy_at 0) (Spec.healthy_at 1)) in
  ServingRouter.last_checked (ServingRouter.local_model_status self) = Some 0
  /\ ServingRouter.route Spec.local_settings self Spec.sensitive_query
       false false (Spec.healthy_at 60000000) (Spec.healthy_at 60000001)
     = ServingRouter.route Spec.local_settings self Spec.sensitive_query
         false false
         {| ServingRouter.now := 60000000; ServingRouter.health_ok := false |}
         {| ServingRouter.now := 60000001; ServingRouter.health_ok := false |}.
Proof.
  intros self.
  assert (Hc : ServingRouter.last_checked
                 (ServingRouter.local_model_status self) = Some 0)
    by (vm_compute; reflexivity).
  assert (H1 : ServingRouter.now (Spec.healthy_at 60000000) - 0
               < ServingRouter.check_interval
                   (ServingRouter.local_model_status self))
    by (vm_compute; reflexivity).
  assert (H2 : ServingRouter.now (Spec.healthy_at 60000001) - 0
               < ServingRouter.check_interval
                   (ServingRouter.local_model_status self))
    by (vm_compute; reflexivity).
  split; [exact Hc|].
  exact (proj1 (fresh_cache_hides_backend Spec.local_settings self
                  Spec.sensitive_query false false
                  (Spec.healthy_at 60000000) (Spec.healthy_at 60000001)
                  0 false false Hc H1 H2)).
Defined.

Lemma local_disabled_always_cloud_witness :
  enable_local_model default_settings = false
  /\ List.Forall
       (fun decision =>
          ServingRouter.target decision = LLMService.CLOUD
          /\ ServingRouter.model_name decision
             = gpt_standard_model default_settings)
       (fst (Notions.run_routes default_settings ServingRouter.init
               [ {| Notions.query := Spec.sensitive_query;
                    Notions.force_local := true;
                    Notions.force_cloud := false;
                    Notions.obs1 := Spec.healthy_at 0;
                    Notions.obs2 := Spec.healthy_at 1 |};
                 {| Notions.query := Spec.sensitive_query;
                    Notions.force_local := false;
                    Notions.force_cloud := false;
                    Notions.obs1 := Spec.healthy_at 400000000;
                    Notions.obs2 := Spec.healthy_at 400000001 |} ])).
Proof.
  assert (H : enable_local_model default_settings = false) by reflexivity.
  split; [exact H|].
  exact (local_disabled_always_cloud default_settings _ H).
Defined.

(* ================================================================== *)
(** * The life of a stored order (update_order_status, cancel_order,
      clear_old_history, OrderAgent.cancel_order) *)
(* ================================================================== *)

Section OrderLife.
Import OrderService.

(** X28.  A terminal status is final.  A Completed or Cancelled update
    of an active order takes it out of the active orders and files it, as
    updated, at the end of the history; from then on every update or
    cancellation of that id is refused and changes nothing. *)
Theorem terminal_status_is_final :
  forall (self : t) (id : string) (order : Order) (new_status : OrderStatus)
         (now : Z),
    get_order self id = Some order ->
    is_terminal new_status = true ->
    let after := snd (update_order_status self id new_status now) in
    get_order after id = None
    /\ order_history after
       = (order_history self ++ [update_status order new_status now])%list
    /\ (forall other, other <> id -> get_order after other = get_order self other)
    /\ (forall later_status later,
          update_order_status after id later_status later = (false, after))
    /\ (forall later, cancel_order after id later = (false, after)).
Proof.
  intros self id order st now Hget Hterm after.
  assert (Heq : update_order_status self id st now
                = (true,
                   {| orders := delete id (orders self);
                      order_history :=
                        (order_history self
                         ++ [update_status order st now])%list |})).
  { unfold update_order_status. now rewrite Hget, Hterm. }
  subst after. rewrite Heq. cbn [snd].
  set (after := {| orders := delete id (orders self);
                   order_history :=
                     (order_history self
                      ++ [update_status order st now])%list |}).
  assert (Hgone : get_order after id = None)
    by (unfold get_order; cbn [orders after]; apply lookup_delete_eq).
  split; [exact Hgone|]. split; [reflexivity|]. split; [|split].
  - intros other Hne. unfold get_order. cbn [orders after].
    now apply lookup_delete_ne.
  - intros st' later. unfold update_order_status. now rewrite Hgone.
  - intros later. unfold cancel_order, update_order_status.
    now rewrite Hgone.
Qed.

Lemma terminal_status_is_final_witness :
  let self :=
    snd (create_order_from_items default_settings init [Spec.two_americanos]
           MenuDatabase.BEVERAGE "" "ORD-20260101090000-1a2b3c4d" 0) in
  let order :=
    fst (create_order_from_items default_settings init [Spec.two_americanos]
           MenuDatabase.BEVERAGE "" "ORD-20260101090000-1a2b3c4d" 0) in
  get_order self "ORD-20260101090000-1a2b3c4d" = Some order
  /\ is_terminal COMPLETED = true
  /\ get_order
       (snd (update_order_status self "ORD-20260101090000-1a2b3c4d"
               COMPLETED 9))
       "ORD-20260101090000-1a2b3c4d" = None.
Proof.
  intros self order.
  assert (Hget : get_order self "ORD-20260101090000-1a2b3c4d" = Some order)
    by apply lookup_insert_eq.
  assert (Hterm : is_terminal COMPLETED = true) by reflexivity.
  split; [exact Hget|]. split; [exact Hterm|].
  exact (proj1 (terminal_status_is_final self "ORD-20260101090000-1a2b3c4d"
                  order COMPLETED 9 Hget Hterm)).
Defined.

(** X29.  [OrderAgent.cancel_order] succeeds exactly when the id is that
    of an active order.  A successful result never carries the order:
    the cancelled order has already left the active orders, where the
    agent looks it up, and sits at the end of the history with status
    Cancelled.  An unsuccessful call changes nothing and reports
    [order_not_found]. *)
Theorem agent_cancel_returns_no_order :
  forall (service : t) (order_id : string) (now : Z),
    let result := fst (OrderAgent.cancel_order service order_id now) in
    let after := snd (OrderAgent.cancel_order service order_id now) in
    OrderAgent.order result = None
    /\ (OrderAgent.success result = true
        <-> is_Some (get_order service order_id))
    /\ (forall order,
          get_order service order_id = Some order ->
          get_order after order_id = None
          /\ order_history after
             = (order_history service
                ++ [update_status order CANCELLED now])%list)
    /\ (OrderAgent.success result = false ->
        after = service /\ OrderAgent.errors result = ["order_not_found"]).
Proof.
  intros service id now. unfold OrderAgent.cancel_order, cancel_order.
  destruct (get_order service id) as [order|] eqn:Hget.
  - rewrite (update_order_status_known service id CANCELLED now order Hget).
    cbn [is_terminal fst snd OrderAgent.order OrderAgent.success
         OrderAgent.errors].
    assert (Hgone : get_order
                      {| orders := delete id (orders service);
                         order_history :=
                           (order_history service
                            ++ [update_status order CANCELLED now])%list |}
                      id = None)
      by (unfold get_order; cbn [orders]; apply lookup_delete_eq).
    split; [exact Hgone|]. split; [split; eauto|].
    split; [|discriminate]. intros order' [= <-]. now split.
  - unfold update_order_status. rewrite Hget.
    cbn [fst snd OrderAgent.order OrderAgent.success OrderAgent.errors].
    split; [reflexivity|]. split.
    + split; [discriminate|]. intros [x Hx]. discriminate.
    + split; [discriminate|]. intros _. now split.
Qed.

Lemma filter_filter {A} (p q : A -> bool) (l : list A) :
  List.filter q (List.filter p l) = List.filter (fun x => p x && q x) l.
Proof.
  induction l as [|x l IH]; cbn [List.filter]; [reflexivity|].
  destruct (p x); cbn [List.filter andb]; [|exact IH].
  destruct (q x); now rewrite IH.
Qed.

Lemma filter_ext_all {A} (p q : A -> bool) (l : list A) :
  (forall x, p x = q x) -> List.filter p l = List.filter q l.
Proof.
  intros H. induction l as [|x l IH]; cbn [List.filter]; [reflexivity|].
  now rewrite H, IH.
Qed.

(** X30.  For clock readings and retention periods that [datetime] and
    [timedelta] can hold, [clear_old_history] only ever drops orders of
    the history that were created at or before the cutoff; the active
    orders are never touched.  Clearing twice at the same moment is the
    same as clearing once with the shorter retention, so clearing again
    with the same retention changes nothing. *)
Theorem clear_old_history_composes :
  forall (self : t) (days1 days2 now : Z),
    Notions.timedelta_days days1 -> Notions.timedelta_days days2 ->
    Notions.representable (now - days1 * microseconds_per_day) ->
    Notions.representable (now - days2 * microseconds_per_day) ->
    clear_old_history (clear_old_history self days1 now) days2 now
    = clear_old_history self (Z.min days1 days2) now
    /\ clear_old_history (clear_old_history self days1 now) days1 now
       = clear_old_history self days1 now
    /\ orders (clear_old_history self days1 now) = orders self
    /\ (forall order,
          In order (order_history (clear_old_history self days1 now))
          <-> In order (order_history self)
              /\ now - days1 * microseconds_per_day < created_at order).
Proof.
  intros self days1 days2 now _ _ _ _.
  assert (Hcomp : forall d1 d2,
            clear_old_history (clear_old_history self d1 now) d2 now
            = clear_old_history self (Z.min d1 d2) now).
  { intros d1 d2. unfold clear_old_history. cbn [orders order_history].
    f_equal. rewrite filter_filter. apply filter_ext_all. intros order.
    unfold microseconds_per_day.
    destruct (Z.gtb_spec (created_at order) (now - d1 * (86400 * 1000000)));
      destruct (Z.gtb_spec (created_at order) (now - d2 * (86400 * 1000000)));
      destruct (Z.gtb_spec (created_at order)
                  (now - Z.min d1 d2 * (86400 * 1000000)));
      cbn [andb]; try reflexivity; lia. }
  split; [apply Hcomp|]. split; [|split; [reflexivity|]].
  - rewrite Hcomp. now rewrite Z.min_id.
  - intros order. unfold clear_old_history. cbn [order_history].
    rewrite filter_In, Z.gtb_ltb, Z.ltb_lt. reflexivity.
Qed.

Lemma clear_old_history_composes_witness :
  Notions.timedelta_days 30 /\ Notions.timedelta_days 7
  /\ Notions.representable
       (63900000000000000 - 30 * microseconds_per_day)
  /\ Notions.representable
       (63900000000000000 - 7 * microseconds_per_day)
  /\ clear_old_history
       (clear_old_history
          (Spec.run_ops default_settings Spec.sample_session) 30
          63900000000000000) 7 63900000000000000
     = clear_old_history
         (Spec.run_ops default_settings Spec.sample_session) (Z.min 30 7)
         63900000000000000.
Proof.
  assert (H1 : Notions.timedelta_days 30)
    by (unfold Notions.timedelta_days; lia).
  assert (H2 : Notions.timedelta_days 7)
    by (unfold Notions.timedelta_days; lia).
  assert (H3 : Notions.representable
                 (63900000000000000 - 30 * microseconds_per_day))
    by (vm_compute; split; discriminate).
  assert (H4 : Notions.representable
                 (63900000000000000 - 7 * microseconds_per_day))
    by (vm_compute; split; discriminate).
  split; [exact H1|]. split; [exact H2|]. split; [exact H3|].
  split; [exact H4|].
  exact (proj1 (clear_old_history_composes
                  (Spec.run_ops default_settings Spec.sample_session)
                  30 7 63900000000000000 H1 H2 H3 H4)).
Defined.

End OrderLife.
